(** * Police fatal-shootings analysis (app.py): a shallow embedding

    The script is one class, [PoliceShootingsAnalysis], holding a pandas
    table, and a [main] that loads a CSV and runs five report methods.
    The embedding has three layers:

    - [Pandas]: the pandas / matplotlib operations the script calls
      (cells with missing values, [value_counts], [groupby(...).size()],
      column assignment, [Axes.bar] broadcasting);
    - [Py]: a state-and-exception monad over the analyzer object and the
      output it produces (printed lines, drawn charts);
    - [App]: the methods of the class and [main], line by line.

    Floating-point numbers are modelled by exact rationals, except
    where the script rounds a float to two decimals
    (explore_basic_statistics, line 59): there the operations are those
    of binary64, with their rounding. *)

From Stdlib Require Import String Ascii List ZArith QArith Qcanon Qround Qabs.
From Stdlib Require Import Qpower.
From Stdlib Require Import Lia Lqa Bool Arith Permutation Sorted.
Import ListNotations.

Set Implicit Arguments.
Close Scope Qc_scope.
Close Scope Q_scope.
Open Scope nat_scope.

(* ------------------------------------------------------------------ *)
(** * Pandas: cells, series, frames *)
(* ------------------------------------------------------------------ *)

Module Pandas.

(** A table cell.  [NA] is pandas' missing value (NaN, NaT, None);
    [Num] a number; [Str] a Python string; [TS] a Timestamp, kept as the
    number of days since 1970-01-01 (the data set carries dates only). *)
Inductive cell : Type :=
| NA
| Num (q : Qc)
| Str (s : string)
| TS (d : Z).

Definition cell_eq_dec (a b : cell) : {a = b} + {a <> b}.
Proof.
  decide equality.
  - apply Qc_eq_dec.
  - apply string_dec.
  - apply Z.eq_dec.
Defined.

Definition cell_eqb (a b : cell) : bool :=
  if cell_eq_dec a b then true else false.

Definition isna (c : cell) : bool :=
  match c with NA => true | _ => false end.

Definition notna (c : cell) : bool := negb (isna c).

Definition int_cell (z : Z) : cell := Num (Q2Qc (inject_Z z)).

(** Order used when pandas sorts group keys: numbers by value, strings
    lexicographically, timestamps by time.  Keys of mixed type never
    arise from a loaded table; they are ordered numbers first. *)
Definition kind_rank (c : cell) : nat :=
  match c with NA => 0 | Num _ => 1 | Str _ => 2 | TS _ => 3 end.

Definition string_leb (a b : string) : bool :=
  match String.compare a b with Gt => false | _ => true end.

Definition cell_leb (a b : cell) : bool :=
  match a, b with
  | Num p, Num q => Qle_bool p q
  | Str s, Str t => string_leb s t
  | TS d, TS e => (d <=? e)%Z
  | _, _ => kind_rank a <=? kind_rank b
  end.

(** ** Calendar fields of a Timestamp ([Series.dt]) *)

(** Gregorian date of a day number (the civil-from-days computation). *)
Definition day_of_era (d : Z) : Z := ((d + 719468) mod 146097)%Z.

Definition year_of_era (doe : Z) : Z :=
  ((doe - doe / 1460 + doe / 36524 - doe / 146096) / 365)%Z.

Definition day_of_year (doe : Z) : Z :=
  let yoe := year_of_era doe in
  (doe - (365 * yoe + yoe / 4 - yoe / 100))%Z.

Definition month_index (doe : Z) : Z := ((5 * day_of_year doe + 2) / 153)%Z.

(** [dt.month], 1 to 12. *)
Definition month_of (d : Z) : Z :=
  let mp := month_index (day_of_era d) in
  if (mp <? 10)%Z then (mp + 3)%Z else (mp - 9)%Z.

(** [dt.year]. *)
Definition year_of (d : Z) : Z :=
  let era := ((d + 719468) / 146097)%Z in
  let y := (year_of_era (day_of_era d) + era * 400)%Z in
  if (month_of d <=? 2)%Z then (y + 1)%Z else y.

(** [dt.day] (day of the month). *)
Definition day_of (d : Z) : Z :=
  let doe := day_of_era d in
  (day_of_year doe - (153 * month_index doe + 2) / 5 + 1)%Z.

(** Day number of a civil date (inverse of the above on valid dates). *)
Definition days_from_civil (y m d : Z) : Z :=
  let y' := if (m <=? 2)%Z then (y - 1)%Z else y in
  let era := (y' / 400)%Z in
  let yoe := (y' - era * 400)%Z in
  let mp := if (m <=? 2)%Z then (m + 9)%Z else (m - 3)%Z in
  let doy := ((153 * mp + 2) / 5 + d - 1)%Z in
  let doe := (yoe * 365 + yoe / 4 - yoe / 100 + doy)%Z in
  (era * 146097 + doe - 719468)%Z.

(** [dt.weekday]: 0 is Monday; 1970-01-01 was a Thursday. *)
Definition weekday (d : Z) : Z := ((d + 3) mod 7)%Z.

Definition day_names : list string :=
  ["Monday"; "Tuesday"; "Wednesday"; "Thursday"; "Friday"; "Saturday";
   "Sunday"]%string.

(** [dt.day_name()]. *)
Definition day_name (d : Z) : string :=
  nth (Z.to_nat (weekday d)) day_names "Sunday"%string.

(** ** Python dicts *)

(** A Python dict with string keys, in insertion order: [d[k] = v]
    updates the entry of an existing key in place and appends a new
    key at the end. *)
Definition dict (V : Type) : Type := list (string * V).

Fixpoint dict_set {V} (k : string) (v : V) (d : dict V) : dict V :=
  match d with
  | [] => [(k, v)]
  | (k', v') :: t =>
      if String.eqb k k' then (k', v) :: t else (k', v') :: dict_set k v t
  end.

Fixpoint dict_get {V} (k : string) (d : dict V) : option V :=
  match d with
  | [] => None
  | (k', v) :: t => if String.eqb k k' then Some v else dict_get k t
  end.

(** [key in d] for a key taken from a table: only a string can equal a
    string key. *)
Definition dict_has {V} (key : cell) (d : dict V) : bool :=
  match key with
  | Str s => match dict_get s d with Some _ => true | None => false end
  | _ => false
  end.

(** ** Series *)

(** A Series: labelled values, in index order. *)
Definition Series (A : Type) : Type := list (cell * A).

Definition index {A} (s : Series A) : list cell := map fst s.
Definition values {A} (s : Series A) : list A := map snd s.

Definition dropna (l : list cell) : list cell := filter notna l.

(** Label lookup [s[k]]: the first entry with that label. *)
Fixpoint lookup {A} (k : cell) (s : Series A) : option A :=
  match s with
  | [] => None
  | (k', v) :: t => if cell_eq_dec k k' then Some v else lookup k t
  end.

(** Label assignment [s[k] = v]: overwrite the entry when the label is
    already in the index, append a new entry otherwise. *)
Fixpoint setitem {A} (k : cell) (v : A) (s : Series A) : Series A :=
  match s with
  | [] => [(k, v)]
  | (k', v') :: t =>
      if cell_eq_dec k k' then (k', v) :: t else (k', v') :: setitem k v t
  end.

(** One more occurrence of [k] in a table of counts (first-appearance
    order of the keys). *)
Fixpoint bump (k : cell) (s : Series nat) : Series nat :=
  match s with
  | [] => [(k, 1)]
  | (k', n) :: t =>
      if cell_eq_dec k k' then (k', S n) :: t else (k', n) :: bump k t
  end.

(** Occurrence counts of the cells of [l], keys in order of first
    appearance. *)
Definition tally (l : list cell) : Series nat :=
  fold_left (fun acc k => bump k acc) l [].

(** Stable insertion sort of a series by a comparison on its entries. *)
Section Sort.
Variable A : Type.
Variable le : cell * A -> cell * A -> bool.

Fixpoint insert (x : cell * A) (s : Series A) : Series A :=
  match s with
  | [] => [x]
  | y :: t => if le x y then x :: y :: t else y :: insert x t
  end.

Definition sort_by (s : Series A) : Series A :=
  fold_right insert [] s.
End Sort.

(** Larger counts first. *)
Definition count_ge (x y : cell * nat) : bool := snd y <=? snd x.

(** Smaller keys first. *)
Definition key_le (x y : cell * nat) : bool := cell_leb (fst x) (fst y).

(** [Series.value_counts()]: missing values are dropped, the distinct
    values are counted, most frequent first.  pandas leaves the order of
    equal counts to its sort; here ties stay in order of first
    appearance. *)
Definition value_counts (col : list cell) : Series nat :=
  sort_by count_ge (tally (dropna col)).

(** [df.groupby(key).size()]: rows with a missing key are dropped, the
    groups come in ascending key order. *)
Definition groupby_size (col : list cell) : Series nat :=
  sort_by key_le (tally (dropna col)).

(** [Series.sum()] of a series of counts. *)
Definition total (s : Series nat) : nat := fold_right Nat.add 0 (values s).

(** [Series.nunique()]. *)
Definition nunique (col : list cell) : nat := length (tally (dropna col)).

(** [Series.map(dict)]: a value that is not a key of the dict maps to
    a missing value. *)
Definition map_dict (d : dict string) (c : cell) : cell :=
  match c with
  | Str s =>
      match dict_get s d with
      | Some v => Str v
      | None => NA
      end
  | _ => NA
  end.

(** [Series[labels]] with a list of labels: every label must be in the
    index (pandas 1.0 and later raise KeyError otherwise); the result
    follows the order of [labels].  [inl k] names the first missing
    label. *)
Fixpoint getitem_list {A} (labels : list cell) (s : Series A)
  : cell + Series A :=
  match labels with
  | [] => inr []
  | k :: ks =>
      match lookup k s with
      | None => inl k
      | Some v =>
          match getitem_list ks s with
          | inl k' => inl k'
          | inr r => inr ((k, v) :: r)
          end
      end
  end.

(** [Series.min()] and [Series.max()] skip missing values and give a
    missing value on an empty series. *)
Definition cell_min (col : list cell) : cell :=
  fold_right (fun c m => if isna m then c else if cell_leb c m then c else m)
             NA (dropna col).

Definition cell_max (col : list cell) : cell :=
  fold_right (fun c m => if isna m then c else if cell_leb m c then c else m)
             NA (dropna col).

(** [Series.fillna(v)] and [Series.replace(dict)] on string values. *)
Definition fillna (v : cell) (col : list cell) : list cell :=
  map (fun c => if isna c then v else c) col.

Definition replace_dict (d : dict string) (col : list cell) : list cell :=
  map (fun c =>
         match c with
         | Str s =>
             match dict_get s d with
             | Some v => Str v
             | None => c
             end
         | _ => c
         end) col.

(** ** Numbers *)

(** A float: a rational, or NaN. *)
Definition float : Type := option Q.

Definition Qnat (n : nat) : Q := inject_Z (Z.of_nat n).

(** Round to the nearest integer, halves to the even one ([numpy.rint]). *)
Definition rint (q : Q) : Z :=
  let f := Qfloor q in
  match ((q - inject_Z f) ?= (1 # 2))%Q with
  | Lt => f
  | Gt => (f + 1)%Z
  | Eq => if Z.even f then f else (f + 1)%Z
  end.

(** *** binary64

    Where the script rounds a float to two decimals the last bit of the
    float matters, so there the float64 operations are modelled with
    their rounding: a value is a rational, an operation gives the
    binary64 number nearest to the exact result, ties to even.  The
    exponent range is left out: the values of the script are far from
    overflow and underflow. *)

(** The exponent [e] of the last bit of the significand of a positive
    number [x]: 2^52 <= x / 2^e < 2^53. *)
Definition last_bit (x : Q) : Z :=
  let e := (Z.log2 (Qnum x) - Z.log2 (Zpos (Qden x)) - 52)%Z in
  if Qle_bool (2 ^ (e + 52)) x then e else (e - 1)%Z.

(** The binary64 number nearest to [x], ties to even. *)
Definition fl (x : Q) : Q :=
  if Qeq_bool x 0 then 0%Q
  else let e := last_bit (Qabs x) in
       (inject_Z (rint (x / 2 ^ e)) * 2 ^ e)%Q.


Definition fdiv (a b : Q) : Q := fl (a / b).
Definition fmul (a b : Q) : Q := fl (a * b).

(** [Series.round(2)] on float64, as numpy computes it:
    [rint(x * 100.0) / 100.0]. *)
Definition round2 (x : Q) : Q := fdiv (inject_Z (rint (fmul x 100))) 100.

Definition Qsum (l : list Q) : Q := fold_right Qplus 0%Q l.

(** A column read from a CSV is numeric when no cell holds text. *)
Definition is_number (c : cell) : bool :=
  match c with NA | Num _ => true | _ => false end.

Definition numeric (col : list cell) : bool := forallb is_number col.

Definition numbers (col : list cell) : list Q :=
  flat_map (fun c => match c with Num q => [this q] | _ => [] end) col.

Fixpoint Qinsert (x : Q) (l : list Q) : list Q :=
  match l with
  | [] => [x]
  | y :: t => if Qle_bool x y then x :: y :: t else y :: Qinsert x t
  end.

Definition Qsort (l : list Q) : list Q := fold_right Qinsert [] l.

Definition mean (l : list Q) : float :=
  match l with
  | [] => None
  | _ => Some (Qsum l / Qnat (length l))%Q
  end.

(** The median: the middle value, or the mean of the two middle ones. *)
Definition median (l : list Q) : float :=
  let s := Qsort l in
  let n := length s in
  match n with
  | 0 => None
  | _ =>
      if Nat.even n
      then Some ((nth (n / 2 - 1) s 0 + nth (n / 2) s 0) / 2)%Q
      else Some (nth (n / 2) s 0%Q)
  end.

(** [Series.describe()].  A numeric column gets count, mean, min, 50%
    and max (std and the quartiles, which the script never reads, are
    left out); a column of text gets count and unique and has no
    'mean'. *)
Inductive description : Type :=
| DescribeNum (count : nat) (dmean dmin d50 dmax : float)
| DescribeObj (count unique : nat).

Definition describe (col : list cell) : description :=
  if numeric col then
    let l := numbers col in
    let s := Qsort l in
    DescribeNum (length l) (mean l) (hd_error s) (median l)
                (hd_error (rev s))
  else DescribeObj (length (dropna col)) (nunique col).

(** [age_stats[key]]; [None] stands for KeyError. *)
Definition describe_get (key : string) (d : description) : option float :=
  match d with
  | DescribeNum _ m lo md hi =>
      if String.eqb key "mean" then Some m
      else if String.eqb key "min" then Some lo
      else if String.eqb key "50%" then Some md
      else if String.eqb key "max" then Some hi
      else None
  | DescribeObj _ _ => None
  end.

(** ** Data frames *)

(** A table: the number of rows and the columns in order, each with
    its name. *)
Record DataFrame : Type := mkDataFrame {
  nrows : nat;
  columns : list (string * list cell)
}.

Definition column_names (df : DataFrame) : list string :=
  map fst (columns df).

(** [name in df.columns]. *)
Definition has_column (name : string) (df : DataFrame) : bool :=
  existsb (String.eqb name) (column_names df).

(** [df[name]]; [None] stands for KeyError. *)
Fixpoint assoc (name : string) (cols : list (string * list cell))
  : option (list cell) :=
  match cols with
  | [] => None
  | (n, c) :: t => if String.eqb name n then Some c else assoc name t
  end.

Definition column (name : string) (df : DataFrame) : option (list cell) :=
  assoc name (columns df).

(** [df[name] = vals]: replaces the column of that name, or appends a
    new last column. *)
Fixpoint set_assoc (name : string) (vals : list cell)
  (cols : list (string * list cell)) : list (string * list cell) :=
  match cols with
  | [] => [(name, vals)]
  | (n, c) :: t =>
      if String.eqb name n then (n, vals) :: t
      else (n, c) :: set_assoc name vals t
  end.

Definition assign (name : string) (vals : list cell) (df : DataFrame)
  : DataFrame :=
  {| nrows := nrows df; columns := set_assoc name vals (columns df) |}.

(** Every column has one cell per row, and column names are unique (as
    [read_csv] makes them). *)
Definition well_formed (df : DataFrame) : Prop :=
  Forall (fun c => length (snd c) = nrows df) (columns df) /\
  NoDup (column_names df).

(** ** Dates *)

Definition is_datetime (c : cell) : bool :=
  match c with NA | TS _ => true | _ => false end.

(** The [.dt] accessor exists on datetime columns only; [None] stands
    for AttributeError. *)
Definition dt (f : Z -> cell) (col : list cell) : option (list cell) :=
  if forallb is_datetime col
  then Some (map (fun c => match c with TS d => f d | _ => NA end) col)
  else None.

Definition dt_year : list cell -> option (list cell) :=
  dt (fun d => int_cell (year_of d)).
Definition dt_month : list cell -> option (list cell) :=
  dt (fun d => int_cell (month_of d)).
Definition dt_day_name : list cell -> option (list cell) :=
  dt (fun d => Str (day_name d)).

Section ToDatetime.
(** How pandas reads one date string: [None] when it cannot be
    parsed, [Some None] for a spelling of NaT, [Some (Some d)] for
    day [d]. *)
Variable parse : string -> option (option Z).

Definition to_datetime_cell (c : cell) : option cell :=
  match c with
  | NA => Some NA
  | TS d => Some (TS d)
  | Num q =>
      let ns := this q in
      if Qeq_bool ns (- 9223372036854775808) then Some NA
      else if Qle_bool (- 9223372036854775808) ns
              && Qle_bool ns 9223372036854775807
           then Some (TS (Qfloor (ns / 86400000000000)))
           else None
  | Str s =>
      match parse s with
      | None => None
      | Some None => Some NA
      | Some (Some d) => Some (TS d)
      end
  end.

(** [pd.to_datetime(col)]; [None] when some cell cannot be converted.
    Numbers count nanoseconds since the epoch and must fit the 64-bit
    range of a Timestamp, whose smallest value stands for NaT. *)
Fixpoint to_datetime (col : list cell) : option (list cell) :=
  match col with
  | [] => Some []
  | c :: t =>
      match to_datetime_cell c, to_datetime t with
      | Some c', Some t' => Some (c' :: t')
      | _, _ => None
      end
  end.

(** The first cell that [pd.to_datetime] cannot convert. *)
Definition first_unparsed (col : list cell) : option cell :=
  find (fun c => match to_datetime_cell c with None => true | _ => false end)
       col.
End ToDatetime.

(** The ISO format of the data set, YYYY-MM-DD. *)
Definition digit (c : ascii) : option Z :=
  let n := nat_of_ascii c in
  if (48 <=? n) && (n <=? 57) then Some (Z.of_nat (n - 48)) else None.

Fixpoint digits (s : string) (acc : Z) : option Z :=
  match s with
  | EmptyString => Some acc
  | String c t =>
      match digit c with
      | Some v => digits t (10 * acc + v)%Z
      | None => None
      end
  end.

Definition parse_iso (s : string) : option (option Z) :=
  if negb (String.length s =? 10) then None
  else if negb (String.eqb (substring 4 1 s) "-") then None
  else if negb (String.eqb (substring 7 1 s) "-") then None
  else
    match digits (substring 0 4 s) 0, digits (substring 5 2 s) 0,
          digits (substring 8 2 s) 0 with
    | Some y, Some m, Some d =>
        let n := days_from_civil y m d in
        if ((year_of n =? y) && (month_of n =? m) && (day_of n =? d))%Z
        then Some (Some n) else None
    | _, _, _ => None
    end.

(** ** matplotlib *)

(** [Axes.bar(x, height)] passes both through [numpy.broadcast_arrays]:
    the lengths must agree, or one of them must be 1 and is then
    repeated.  [None] stands for the ValueError on a shape mismatch. *)
Definition broadcast {A B} (xs : list A) (hs : list B)
  : option (list (A * B)) :=
  if length xs =? length hs then Some (combine xs hs)
  else
    match xs, hs with
    | [x], _ => Some (map (fun h => (x, h)) hs)
    | _, [h] => Some (map (fun x => (x, h)) xs)
    | _, _ => None
    end.

(** [range(a, b)]. *)
Definition range (a b : nat) : list Q := map Qnat (seq a (b - a)).

End Pandas.

(* ------------------------------------------------------------------ *)
(** * Py: the analyzer object, output, and exceptions *)
(* ------------------------------------------------------------------ *)

Module Py.
Import Pandas.

(** Python exceptions the script can meet (all subclasses of
    [Exception]). *)
Inductive exn : Type :=
| KeyError (key : cell)
| ValueError (msg : string)
| TypeError (msg : string)
| AttributeError (msg : string)
| IndexError (msg : string)
| ZeroDivisionError
| FileNotFoundError (path : string)
| ParserError (msg : string).

Inductive outcome (A : Type) : Type :=
| Ok (a : A)
| Raise (e : exn).
Arguments Ok {A} a.
Arguments Raise {A} e.

(** A printed line is kept as the pieces of its f-string: literal text
    and the interpolated values with their format specifiers. *)
Inductive piece : Type :=
| Lit (s : string)
| PNat (fmt : string) (n : nat)
| PFloat (fmt : string) (x : float)
| PCell (c : cell)
| PDate (fmt : string) (d : Z)
| PSeries (s : Series nat)
| PDescribe (d : description)
| PNames (l : list string)
| PShape (r c : nat)
| PExn (e : exn).

Definition line : Type := list piece.

(** What a call on an [Axes] draws.  Titles, axis labels, ticks, grids
    and legends carry no data and are left out. *)
Inductive artist : Type :=
| Line (xs : list cell) (ys : list nat)
| Bar (bars : list (Q * Q))
| BarLabels (bars : list (cell * nat))
| Barh (bars : list (Q * nat)) (ticklabels : list cell)
| Pie (sizes : list nat) (labels : list cell)
| Hist (data : list Q) (bins : nat)
| VLine (x : float) (label : line)
| Text (x y : Q) (s : line).

Inductive event : Type :=
| Print (l : line)
| Subplots (r c : nat)
| Draw (row col : nat) (a : artist)
| Show.

(** The instance attributes set by [__init__]. *)
Record Analyzer : Type := mkAnalyzer {
  shootings_data : option DataFrame;
  census_data : option DataFrame;
  merged_data : option DataFrame
}.

(** The analyzer object, what the process has written so far, and what
    [pd.read_csv] finds at the fixed path. *)
Record World : Type := mkWorld {
  self : Analyzer;
  output : list event;
  csv_file : outcome DataFrame
}.

Definition M (A : Type) : Type := World -> outcome A * World.

Definition ret {A} (a : A) : M A := fun w => (Ok a, w).

Definition bind {A B} (m : M A) (k : A -> M B) : M B :=
  fun w =>
    match m w with
    | (Ok a, w') => k a w'
    | (Raise e, w') => (Raise e, w')
    end.

Definition raise {A} (e : exn) : M A := fun w => (Raise e, w).

Notation "x <- m ;; k" := (bind m (fun x => k))
  (at level 61, m at next level, right associativity).
Notation "m ;; k" := (bind m (fun _ => k))
  (at level 61, right associativity).

Definition emit (e : event) : M unit :=
  fun w => (Ok tt, {| self := self w; output := output w ++ [e];
                      csv_file := csv_file w |}).

Definition print (l : line) : M unit := emit (Print l).
Definition draw (r c : nat) (a : artist) : M unit := emit (Draw r c a).

(** [axes[r, c].pie(sizes, labels=labels, ...)]: matplotlib refuses
    wedge sizes that add up to zero, as those of an empty series do. *)
Definition pie (r c : nat) (sizes : list nat) (labels : list cell)
  : M unit :=
  if (fold_right Nat.add 0 sizes =? 0)%nat
  then raise (ValueError "All wedge sizes are zero")
  else draw r c (Pie sizes labels).

(** [self.shootings_data]. *)
Definition get_data : M (option DataFrame) :=
  fun w => (Ok (shootings_data (self w)), w).

(** [self.shootings_data = df], and column assignment on the table the
    attribute refers to. *)
Definition set_data (df : DataFrame) : M unit :=
  fun w => (Ok tt,
            {| self := {| shootings_data := Some df;
                          census_data := census_data (self w);
                          merged_data := merged_data (self w) |};
               output := output w; csv_file := csv_file w |}).

Definition read_csv : M DataFrame :=
  fun w => (csv_file w, w).

(** [try: body  except Exception as e: handler e]. *)
Definition try_except {A} (body : M A) (handler : exn -> M A) : M A :=
  fun w =>
    match body w with
    | (Ok a, w') => (Ok a, w')
    | (Raise e, w') => handler e w'
    end.

(** [for x in xs: body x]. *)
Fixpoint for_each {A} (xs : list A) (body : A -> M unit) : M unit :=
  match xs with
  | [] => ret tt
  | x :: t => body x ;; for_each t body
  end.

(** [if cond: body]. *)
Definition when (cond : bool) (body : M unit) : M unit :=
  if cond then body else ret tt.

(** An optional result whose absence is the exception [e]. *)
Definition expect {A} (e : exn) (o : option A) : M A :=
  match o with
  | Some a => ret a
  | None => raise e
  end.

(** [df[name]]. *)
Definition getitem (name : string) (df : DataFrame) : M (list cell) :=
  expect (KeyError (Str name)) (column name df).

(** [self.shootings_data[name] = vals]: the table the attribute refers
    to gets the column; the result is that table, as later reads of
    [self.shootings_data] see it. *)
Definition setcolumn (name : string) (vals : list cell) : M DataFrame :=
  data <- get_data ;;
  match data with
  | Some df => let df' := assign name vals df in set_data df' ;; ret df'
  | None => raise (TypeError "'NoneType' object does not support item assignment")
  end.

Definition nl : string := String (ascii_of_nat 10) EmptyString.

(** [s * n]. *)
Fixpoint str_mul (s : string) (n : nat) : string :=
  match n with
  | 0 => EmptyString
  | S k => (s ++ str_mul s k)%string
  end.

End Py.

(* ------------------------------------------------------------------ *)
(** * App: class PoliceShootingsAnalysis *)
(* ------------------------------------------------------------------ *)

Module App.
Import Pandas Py.
Local Open Scope string_scope.

(** ** Pure parts of the analyses *)

(** [count / n * 100]. *)
Definition percent (count n : nat) : Q := (Qnat count / Qnat n * 100)%Q.

(** [count / n * 100] with the rounding of float64: the two integers
    are converted, divided, and the quotient is multiplied by 100. *)
Definition float_percent (count n : nat) : Q :=
  fmul (fdiv (fl (Qnat count)) (fl (Qnat n))) 100.

(** explore_basic_statistics, line 59:
    [(race_counts / len(self.shootings_data) * 100).round(2)]. *)
Definition race_percentages (len : nat) (race_counts : Series nat)
  : Series Q :=
  map (fun kv => (fst kv, round2 (float_percent (snd kv) len))) race_counts.

(** analyze_demographic_patterns, lines 135-142. *)
Definition us_population_race : dict Q :=
  [("W", 72.4); ("B", 12.6); ("H", 16.3); ("A", 4.8); ("N", 0.9);
   ("O", 2.9)]%Q.

(** One row of [comparison_data]. *)
Record comparison : Type := mkComparison {
  Race : cell;
  Shooting_Rate : Q;
  Population_Rate : Q;
  Ratio : Q
}.

(** Line 144: [race_counts / race_counts.sum() * 100]. *)
Definition shooting_percentages (race_counts : Series nat) : Series Q :=
  map (fun kv => (fst kv, percent (snd kv) (total race_counts))) race_counts.

(** Lines 145-156: the loop over [race_counts.index]. *)
Definition comparison_row (pcts : Series Q) (race : cell)
  : list comparison :=
  match race with
  | Str s =>
      match dict_get s us_population_race, lookup race pcts with
      | Some pop_pct, Some shooting_pct =>
          [ {| Race := race; Shooting_Rate := shooting_pct;
               Population_Rate := pop_pct;
               Ratio := (shooting_pct / pop_pct)%Q |} ]
      | _, _ => []
      end
  | _ => []
  end.

Definition comparison_data (race_counts : Series nat) : list comparison :=
  flat_map (comparison_row (shooting_percentages race_counts))
           (index race_counts).

(** [pd.DataFrame(records)[field]]: a frame built from an empty list
    has no columns. *)
Definition records_column {A B} (field : A -> B) (records : list A)
  : option (list B) :=
  match records with
  | [] => None
  | _ => Some (map field records)
  end.

(** Lines 188-194. *)
Definition armed_renames : dict string :=
  [("gun", "firearm"); ("knife", "knife/blade"); ("unarmed", "unarmed");
   ("unknown weapon", "unknown")].

Definition armed_simplified (armed : list cell) : list cell :=
  replace_dict armed_renames (fillna (Str "unknown") armed).

(** Lines 196-200: the series drawn in the armed-status chart. *)
Definition top_categories (armed : list cell) : Series nat :=
  let armed_counts := value_counts (armed_simplified armed) in
  let top := firstn 8 armed_counts in
  let other_count := total (skipn 8 armed_counts) in
  if (0 <? other_count)%nat then setitem (Str "other") other_count top else top.

(** Lines 240-247. *)
Definition region_mapping : dict (list string) :=
  [("Northeast", ["CT"; "ME"; "MA"; "NH"; "NJ"; "NY"; "PA"; "RI"; "VT"]);
   ("Southeast", ["AL"; "AR"; "FL"; "GA"; "KY"; "LA"; "MS"; "NC"; "SC";
                  "TN"; "VA"; "WV"]);
   ("Midwest", ["IL"; "IN"; "IA"; "KS"; "MI"; "MN"; "MO"; "NE"; "ND";
                "OH"; "SD"; "WI"]);
   ("Southwest", ["AZ"; "NM"; "OK"; "TX"]);
   ("West", ["AK"; "CA"; "CO"; "HI"; "ID"; "MT"; "NV"; "OR"; "UT"; "WA";
             "WY"]);
   ("Other", ["DC"; "DE"; "MD"])].

(** Lines 250-253: the two nested loops filling [state_to_region]. *)
Definition state_to_region : dict string :=
  fold_left
    (fun d entry =>
       fold_left (fun d' state => dict_set state (fst entry) d')
                 (snd entry) d)
    region_mapping [].

(** Line 255: [self.shootings_data['state'].map(state_to_region)]. *)
Definition region_column (state : list cell) : list cell :=
  map (map_dict state_to_region) state.

(** Line 307. *)
Definition trend_change (first last : nat) : Q :=
  ((inject_Z (Z.of_nat last - Z.of_nat first) / Qnat first) * 100)%Q.

(** [Series.idxmax()] and [Series.idxmin()]: the label of the first
    largest (smallest) value. *)
Fixpoint idxmax (s : Series nat) : option (cell * nat) :=
  match s with
  | [] => None
  | (k, v) :: t =>
      match idxmax t with
      | Some (k', v') =>
          if (v' <=? v)%nat then Some (k, v) else Some (k', v')
      | None => Some (k, v)
      end
  end.

Fixpoint idxmin (s : Series nat) : option (cell * nat) :=
  match s with
  | [] => None
  | (k, v) :: t =>
      match idxmin t with
      | Some (k', v') =>
          if (v <=? v')%nat then Some (k, v) else Some (k', v')
      | None => Some (k, v)
      end
  end.

Definition day_order : list string :=
  ["Monday"; "Tuesday"; "Wednesday"; "Thursday"; "Friday"; "Saturday";
   "Sunday"].

(** [enumerate(xs)]. *)
Definition enumerate {A} (xs : list A) : list (nat * A) :=
  combine (seq 0 (length xs)) xs.

(** ** The methods *)

(** [__init__]. *)
Definition init : Analyzer :=
  {| shootings_data := None; census_data := None; merged_data := None |}.

Definition csv_path : string :=
  "C:\python projects pycharm\DataScienceDeathsUSPoliceAnalysis\fatal-police-shootings-data.csv".

Section Methods.
(** pandas' date parser, see [Pandas.to_datetime]. *)
Variable parse : string -> option (option Z).

(** Lines 22-36: the body of the [try]. *)
(** The exception of [pd.to_datetime]: OutOfBoundsDatetime, a
    ValueError, for a number outside the range of a Timestamp, and
    ValueError for a string that is no date. *)
Definition to_datetime_error (date : list cell) : exn :=
  match first_unparsed parse date with
  | Some (Num _) => ValueError "Out of bounds nanosecond timestamp"
  | _ => ValueError "Unknown datetime string format"
  end.

Definition load_data_body : M bool :=
  print [Lit "Loading Washington Post police shootings data..."] ;;
  df <- read_csv ;;
  set_data df ;;
  date <- getitem "date" df ;;
  parsed <- expect (to_datetime_error date) (to_datetime parse date) ;;
  df <- setcolumn "date" parsed ;;
  date <- getitem "date" df ;;
  year <- expect (AttributeError "Can only use .dt accessor with datetimelike values")
                 (dt_year date) ;;
  df <- setcolumn "year" year ;;
  year <- getitem "year" df ;;
  print [Lit "Loaded "; PNat "" (nrows df);
         Lit " police shooting records from "; PCell (cell_min year);
         Lit " to "; PCell (cell_max year)] ;;
  print [Lit "Note: For demonstration purposes, using sample census data structure."] ;;
  ret true.

(** Lines 20-40. *)
Definition load_data : M bool :=
  try_except load_data_body
    (fun e => print [Lit "Error loading data: "; PExn e] ;; ret false).

(** Lines 42-71. *)
Definition explore_basic_statistics : M unit :=
  data <- get_data ;;
  match data with
  | None => print [Lit "Please load data first."]
  | Some df =>
      print [Lit "=== BASIC DATASET OVERVIEW ==="] ;;
      print [Lit "Dataset shape: ";
             PShape (nrows df) (length (columns df))] ;;
      date <- getitem "date" df ;;
      print [Lit "Date range: "; PCell (cell_min date); Lit " to ";
             PCell (cell_max date)] ;;
      print [Lit (nl ++ "Columns: "); PNames (column_names df)] ;;
      print [Lit (nl ++ "=== YEARLY TRENDS ===")] ;;
      year <- getitem "year" df ;;
      let yearly_counts := groupby_size year in
      print [PSeries yearly_counts] ;;
      print [Lit (nl ++ "=== RACE/ETHNICITY BREAKDOWN ===")] ;;
      when (has_column "race" df)
        (race <- getitem "race" df ;;
         let race_counts := value_counts race in
         let race_percentages := race_percentages (nrows df) race_counts in
         for_each race_counts
           (fun item =>
              pct <- expect (KeyError (fst item))
                            (lookup (fst item) race_percentages) ;;
              print [PCell (fst item); Lit ": "; PNat "" (snd item);
                     Lit " ("; PFloat "" (Some pct); Lit "%)"])) ;;
      print [Lit (nl ++ "=== AGE STATISTICS ===")] ;;
      when (has_column "age" df)
        (age <- getitem "age" df ;;
         let age_stats := describe age in
         print [PDescribe age_stats]) ;;
      print [Lit (nl ++ "=== GEOGRAPHIC DISTRIBUTION (Top 10 States) ===")] ;;
      when (has_column "state" df)
        (state <- getitem "state" df ;;
         let state_counts := firstn 10 (value_counts state) in
         print [PSeries state_counts])
  end.

(** Lines 73-120. *)
Definition analyze_temporal_trends : M unit :=
  data <- get_data ;;
  match data with
  | None => ret tt
  | Some df =>
      emit (Subplots 2 2) ;;
      year <- getitem "year" df ;;
      let yearly_counts := groupby_size year in
      draw 0 0 (Line (index yearly_counts) (values yearly_counts)) ;;
      date <- getitem "date" df ;;
      month <- expect (AttributeError "Can only use .dt accessor with datetimelike values")
                      (dt_month date) ;;
      df <- setcolumn "month" month ;;
      month <- getitem "month" df ;;
      let monthly_avg := groupby_size month in
      bars <- expect (ValueError "shape mismatch: objects cannot be broadcast to a single shape")
                     (broadcast (range 1 13) (map Qnat (values monthly_avg))) ;;
      draw 0 1 (Bar bars) ;;
      date <- getitem "date" df ;;
      day_of_week <- expect (AttributeError "Can only use .dt accessor with datetimelike values")
                            (dt_day_name date) ;;
      df <- setcolumn "day_of_week" day_of_week ;;
      day_of_week <- getitem "day_of_week" df ;;
      day_counts <-
        match getitem_list (map Str day_order) (value_counts day_of_week) with
        | inl missing => raise (KeyError missing)
        | inr s => ret s
        end ;;
      bars <- expect (ValueError "shape mismatch: objects cannot be broadcast to a single shape")
                     (broadcast (range 0 7) (map Qnat (values day_counts))) ;;
      draw 1 0 (Bar bars) ;;
      when (has_column "age" df)
        (age <- getitem "age" df ;;
         let age_clean := dropna age in
         if numeric age_clean then
           draw 1 1 (Hist (numbers age_clean) 30) ;;
           draw 1 1 (VLine (mean (numbers age_clean))
                       [Lit "Mean: "; PFloat ".1f" (mean (numbers age_clean))]) ;;
           draw 1 1 (VLine (median (numbers age_clean))
                       [Lit "Median: ";
                        PFloat ".1f" (median (numbers age_clean))])
         else raise (TypeError "Could not convert string to numeric")) ;;
      emit Show
  end.

(** Lines 122-209. *)
Definition analyze_demographic_patterns : M unit :=
  data <- get_data ;;
  match data with
  | None => ret tt
  | Some df =>
      emit (Subplots 2 2) ;;
      when (has_column "race" df)
        (race <- getitem "race" df ;;
         let race_counts := value_counts race in
         pie 0 0 (values race_counts) (index race_counts) ;;
         let comparison_data := comparison_data race_counts in
         let width := 0.35%Q in
         let x := range 0 (length comparison_data) in
         rate <- expect (KeyError (Str "Shooting_Rate"))
                        (records_column Shooting_Rate comparison_data) ;;
         bars <- expect (ValueError "shape mismatch: objects cannot be broadcast to a single shape")
                        (broadcast (map (fun i => i - width / 2)%Q x) rate) ;;
         draw 0 1 (Bar bars) ;;
         rate <- expect (KeyError (Str "Population_Rate"))
                        (records_column Population_Rate comparison_data) ;;
         bars <- expect (ValueError "shape mismatch: objects cannot be broadcast to a single shape")
                        (broadcast (map (fun i => i + width / 2)%Q x) rate) ;;
         draw 0 1 (Bar bars)) ;;
      when (has_column "gender" df)
        (gender <- getitem "gender" df ;;
         let gender_counts := value_counts gender in
         draw 1 0 (BarLabels gender_counts) ;;
         let total := total gender_counts in
         for_each (enumerate (values gender_counts))
           (fun iv =>
              let v := snd iv in
              draw 1 0 (Text (Qnat (fst iv)) (Qnat v + Qnat total * 0.01)%Q
                          [PNat "" v; Lit (nl ++ "(");
                           PFloat ".1f" (Some (percent v total));
                           Lit "%)"]))) ;;
      when (has_column "armed" df)
        (armed <- getitem "armed" df ;;
         let top_categories := top_categories armed in
         draw 1 1 (Barh (combine (range 0 (length top_categories))
                                 (values top_categories))
                        (index top_categories))) ;;
      emit Show
  end.

(** Lines 211-263. *)
Definition analyze_geographic_patterns : M unit :=
  data <- get_data ;;
  match data with
  | None => ret tt
  | Some df =>
      emit (Subplots 2 2) ;;
      when (has_column "state" df)
        (state <- getitem "state" df ;;
         let state_counts := firstn 15 (value_counts state) in
         draw 0 0 (Barh (combine (range 0 (length state_counts))
                                 (values state_counts))
                        (index state_counts)) ;;
         draw 0 1 (Text 0.5 0.5
                     [Lit ("Per Capita Analysis" ++ nl ++
                           "(Requires State Population Data)")])) ;;
      when (has_column "city" df)
        (city <- getitem "city" df ;;
         let city_counts := firstn 15 (value_counts city) in
         draw 1 0 (Barh (combine (range 0 (length city_counts))
                                 (values city_counts))
                        (index city_counts))) ;;
      when (has_column "state" df)
        (state <- getitem "state" df ;;
         df <- setcolumn "region" (region_column state) ;;
         region <- getitem "region" df ;;
         let region_counts := value_counts region in
         pie 1 1 (values region_counts) (index region_counts)) ;;
      emit Show
  end.

(** [Timestamp.strftime]: NaT has none. *)
Definition strftime (fmt : string) (c : cell) : M piece :=
  match c with
  | TS d => ret (PDate fmt d)
  | NA => raise (ValueError "NaTType does not support strftime")
  | _ => raise (AttributeError "object has no attribute 'strftime'")
  end.

(** Lines 265-320. *)
Definition generate_summary_report : M unit :=
  data <- get_data ;;
  match data with
  | None => print [Lit "Please load data first."]
  | Some df =>
      print [Lit (str_mul "=" 60)] ;;
      print [Lit "COMPREHENSIVE ANALYSIS SUMMARY"] ;;
      print [Lit (str_mul "=" 60)] ;;
      let total_shootings := nrows df in
      year <- getitem "year" df ;;
      let years_covered := nunique year in
      avg_per_year <-
        (if (years_covered =? 0)%nat then raise ZeroDivisionError
         else ret (Qnat total_shootings / Qnat years_covered)%Q) ;;
      print [Lit (nl ++ "📊 OVERALL STATISTICS:")] ;;
      print [Lit "   • Total fatal shootings: "; PNat "," total_shootings] ;;
      print [Lit "   • Years covered: "; PNat "" years_covered] ;;
      print [Lit "   • Average per year: "; PFloat ".1f" (Some avg_per_year)] ;;
      date <- getitem "date" df ;;
      first_day <- strftime "%Y-%m-%d" (cell_min date) ;;
      date <- getitem "date" df ;;
      last_day <- strftime "%Y-%m-%d" (cell_max date) ;;
      print [Lit "   • Date range: "; first_day; Lit " to "; last_day] ;;
      when (has_column "race" df)
        (race <- getitem "race" df ;;
         let race_counts := value_counts race in
         print [Lit (nl ++ "👥 DEMOGRAPHIC BREAKDOWN:")] ;;
         for_each (firstn 5 race_counts)
           (fun item =>
              let pct := percent (snd item) total_shootings in
              print [Lit "   • "; PCell (fst item); Lit ": ";
                     PNat "," (snd item); Lit " (";
                     PFloat ".1f" (Some pct); Lit "%)"])) ;;
      when (has_column "age" df)
        (age <- getitem "age" df ;;
         let age_stats := describe age in
         print [Lit (nl ++ "📈 AGE STATISTICS:")] ;;
         m <- expect (KeyError (Str "mean")) (describe_get "mean" age_stats) ;;
         print [Lit "   • Average age: "; PFloat ".1f" m; Lit " years"] ;;
         md <- expect (KeyError (Str "50%")) (describe_get "50%" age_stats) ;;
         print [Lit "   • Median age: "; PFloat ".1f" md; Lit " years"] ;;
         lo <- expect (KeyError (Str "min")) (describe_get "min" age_stats) ;;
         hi <- expect (KeyError (Str "max")) (describe_get "max" age_stats) ;;
         print [Lit "   • Age range: "; PFloat ".0f" lo; Lit " - ";
                PFloat ".0f" hi; Lit " years"]) ;;
      when (has_column "state" df)
        (state <- getitem "state" df ;;
         let top_states := firstn 5 (value_counts state) in
         print [Lit (nl ++ "🗺️  TOP 5 STATES:")] ;;
         for_each top_states
           (fun item =>
              let pct := percent (snd item) total_shootings in
              print [Lit "   • "; PCell (fst item); Lit ": ";
                     PNat "," (snd item); Lit " (";
                     PFloat ".1f" (Some pct); Lit "%)"])) ;;
      year <- getitem "year" df ;;
      let yearly_trend := groupby_size year in
      last <- expect (IndexError "single positional indexer is out-of-bounds")
                     (hd_error (rev (values yearly_trend))) ;;
      first <- expect (IndexError "single positional indexer is out-of-bounds")
                      (hd_error (values yearly_trend)) ;;
      let trend_change := trend_change first last in
      print [Lit (nl ++ "📅 TEMPORAL PATTERNS:")] ;;
      hi <- expect (ValueError "attempt to get argmax of an empty sequence")
                   (idxmax yearly_trend) ;;
      print [Lit "   • Highest year: "; PCell (fst hi); Lit " (";
             PNat "" (snd hi); Lit " shootings)"] ;;
      lo <- expect (ValueError "attempt to get argmin of an empty sequence")
                   (idxmin yearly_trend) ;;
      print [Lit "   • Lowest year: "; PCell (fst lo); Lit " (";
             PNat "" (snd lo); Lit " shootings)"] ;;
      print [Lit "   • Overall trend: "; PFloat "+.1f" (Some trend_change);
             Lit "% change from first to last year"] ;;
      print [Lit (nl ++ "⚠️  IMPORTANT NOTES:")] ;;
      print [Lit "   • This analysis is based on reported data and may not capture all incidents"] ;;
      print [Lit "   • Statistical patterns do not imply causation"] ;;
      print [Lit "   • Further analysis with socioeconomic data would provide deeper insights"] ;;
      print [Lit "   • Data quality and reporting consistency may vary across jurisdictions"] ;;
      print [Lit (str_mul "=" 60)]
  end.

(** [analyzer = PoliceShootingsAnalysis()]. *)
Definition new_analyzer : M unit :=
  fun w => (Ok tt, {| self := init; output := output w;
                      csv_file := csv_file w |}).

Definition banner (title : string) : M unit :=
  print [Lit (nl ++ str_mul "=" 50)] ;;
  print [Lit title] ;;
  print [Lit (str_mul "=" 50)].

(** Lines 323-356. *)
Definition main : M unit :=
  print [Lit "Police Fatal Shootings Analysis"] ;;
  print [Lit (str_mul "=" 50)] ;;
  new_analyzer ;;
  loaded <- load_data ;;
  if negb loaded then
    print [Lit "Failed to load data. Please check your internet connection."]
  else
    banner "BASIC STATISTICS" ;;
    explore_basic_statistics ;;
    banner "TEMPORAL ANALYSIS" ;;
    analyze_temporal_trends ;;
    banner "DEMOGRAPHIC ANALYSIS" ;;
    analyze_demographic_patterns ;;
    banner "GEOGRAPHIC ANALYSIS" ;;
    analyze_geographic_patterns ;;
    banner "SUMMARY REPORT" ;;
    generate_summary_report.
End Methods.

End App.

(* ------------------------------------------------------------------ *)
(** * Specification vocabulary *)
(* ------------------------------------------------------------------ *)

Module Spec.
Import Pandas Py App.
Local Open Scope string_scope.

(** Number of rows of a column holding the value [k]. *)
Definition count (k : cell) (col : list cell) : nat :=
  count_occ cell_eq_dec col k.

(** The count a series holds for [k], 0 when [k] is not a label. *)
Definition get (k : cell) (s : Series nat) : nat :=
  match lookup k s with Some n => n | None => 0 end.

(** The distinct values of a column with their counts, listed in the
    order of some comparison: [value_counts] and [groupby_size] are the
    two instances. *)
Definition counted (le : cell * nat -> cell * nat -> bool)
  (col : list cell) : Series nat :=
  sort_by le (tally (dropna col)).

(** Number of rows of a column with a missing value. *)
Definition missing (col : list cell) : nat := length (filter isna col).

(** A table as [load_data] leaves it: well formed, with a datetime
    column 'date' and the column 'year' derived from it. *)
Definition loaded (df : DataFrame) : Prop :=
  well_formed df /\
  exists date,
    column "date" df = Some date /\
    forallb is_datetime date = true /\
    column "year" df = dt_year date.

(** The days of the rows that have a date. *)
Definition days (date : list cell) : list Z :=
  flat_map (fun c => match c with TS d => [d] | _ => [] end) date.

(** The calendar years that occur in the data. *)
Definition years (date : list cell) : list Z := map year_of (days date).

Definition minimum (l : list Z) : Z := fold_right Z.min (hd 0%Z l) l.
Definition maximum (l : list Z) : Z := fold_right Z.max (hd 0%Z l) l.

(** Number of incidents in calendar year [y]. *)
Definition incidents_in_year (y : Z) (date : list cell) : nat :=
  length (filter (Z.eqb y) (years date)).

(** Number of incidents on the weekday called [name]. *)
Definition incidents_on (name : string) (date : list cell) : nat :=
  length (filter (fun d => String.eqb (day_name d) name) (days date)).

(** Number of incidents in month [m] (1 to 12). *)
Definition incidents_in_month (m : Z) (date : list cell) : nat :=
  length (filter (fun d => Z.eqb (month_of d) m) (days date)).

(** The months (1 to 12) in which no incident falls are absent from the
    monthly counts; this is how many months are present. *)
Definition months_present (date : list cell) : nat :=
  length (filter (fun m => negb (incidents_in_month m date =? 0)%nat)
                 (map Z.of_nat (seq 1 12))).

(** The world in which the analyzer holds the table [df]. *)
Definition holding (df : DataFrame) (w : World) : Prop :=
  shootings_data (self w) = Some df.

(** [w] after writing the events [l]. *)
Definition wrote (l : list event) (w : World) : World :=
  {| self := self w; output := output w ++ l; csv_file := csv_file w |}.

(** [m] leaves the analyzer and the file alone: whatever it returns or
    raises, the world afterwards is the one before with more output. *)
Definition writes_only {A} (m : M A) : Prop :=
  forall w, exists l, snd (m w) = wrote l w.

(** [w] after [self.shootings_data] has become the table [df]. *)
Definition with_data (df : DataFrame) (w : World) : World :=
  {| self := {| shootings_data := Some df;
                census_data := census_data (self w);
                merged_data := merged_data (self w) |};
     output := output w; csv_file := csv_file w |}.

(** The table the analyzer holds at the end of a run, if any. *)
Definition data_after {A} (run : outcome A * World) : option DataFrame :=
  shootings_data (self (snd run)).

(** What a run has written. *)
Definition output_after {A} (run : outcome A * World) : list event :=
  output (snd run).

(** [df'] is [df] with at most the columns [names] added or replaced:
    same rows, every other column untouched, no column removed. *)
Definition derived_from (names : list string) (df df' : DataFrame) : Prop :=
  nrows df' = nrows df /\
  (forall n, ~ In n names -> column n df' = column n df) /\
  (forall n, has_column n df = true -> has_column n df' = true) /\
  (forall n, has_column n df' = true ->
             has_column n df = true \/ In n names).

(** [w'] is [w] after more output and after adding or replacing at
    most the columns [names] of the loaded table. *)
Definition evolve (names : list string) (w w' : World) : Prop :=
  csv_file w' = csv_file w /\
  (exists l, output w' = (output w ++ l)%list) /\
  census_data (self w') = census_data (self w) /\
  merged_data (self w') = merged_data (self w) /\
  match shootings_data (self w), shootings_data (self w') with
  | Some df, Some df' => derived_from names df df'
  | None, None => True
  | _, _ => False
  end.

(** Whatever [m] returns or raises, it changes the world only so. *)
Definition keeps {A} (names : list string) (m : M A) : Prop :=
  forall w, evolve names w (snd (m w)).

(** The world [main] hands to [load_data]: the two title lines are
    printed and the analyzer is new. *)
Definition started (w : World) : World :=
  {| self := init;
     output := output w ++
               [Print [Lit "Police Fatal Shootings Analysis"];
                Print [Lit (str_mul "=" 50)]];
     csv_file := csv_file w |}.

(** The messages of [load_data] and [main]. *)
Definition loading_line : event :=
  Print [Lit "Loading Washington Post police shootings data..."].

Definition error_line (e : exn) : event :=
  Print [Lit "Error loading data: "; PExn e].

Definition failed_line : event :=
  Print [Lit "Failed to load data. Please check your internet connection."].

Definition loaded_lines (df : DataFrame) (year : list cell) : list event :=
  [Print [Lit "Loaded "; PNat "" (nrows df);
          Lit " police shooting records from "; PCell (cell_min year);
          Lit " to "; PCell (cell_max year)];
   Print [Lit "Note: For demonstration purposes, using sample census data structure."]].

(** Reading and date derivation succeed on the file of [w]: the file
    can be read, has a 'date' column, and every date can be parsed. *)
Definition loads (parse : string -> option (option Z)) (w : World)
  (df : DataFrame) : Prop :=
  exists csv date parsed year,
    csv_file w = Ok csv /\
    column "date" csv = Some date /\
    to_datetime parse date = Some parsed /\
    dt_year parsed = Some year /\
    df = assign "year" year (assign "date" parsed csv).

(** [m] neither raises nor touches the analyzer: it returns after some
    output. *)
Definition runs_ok {A} (m : M A) : Prop :=
  forall w, exists a l, m w = (Ok a, wrote l w).

(** All state codes of the region table. *)
Definition table_states : list string := flat_map snd region_mapping.

(** The states listed under a region name. *)
Definition region_states (region : string) : list string :=
  match dict_get region region_mapping with
  | Some states => states
  | None => []
  end.

(** The cell holds one of the state codes [states]. *)
Definition state_in (states : list string) (c : cell) : bool :=
  match c with
  | Str s => existsb (String.eqb s) states
  | _ => false
  end.

(** A list of strings without repetition. *)
Fixpoint distinct (l : list string) : bool :=
  match l with
  | [] => true
  | x :: t => negb (existsb (String.eqb x) t) && distinct t
  end.


(** The line explore_basic_statistics prints for one entry of the race
    counts, [len] being the number of rows of the table. *)
Definition race_line (len : nat) (item : cell * nat) : event :=
  Print [PCell (fst item); Lit ": "; PNat "" (snd item); Lit " (";
         PFloat "" (Some (round2 (float_percent (snd item) len)));
         Lit "%)"].

(** The 'year' cell derived from a 'date' cell. *)
Definition year_cell (c : cell) : cell :=
  match c with TS d => int_cell (year_of d) | _ => NA end.

(** The 'age' column, when the table has one, holds no text. *)
Definition age_numeric (df : DataFrame) : Prop :=
  forall age, column "age" df = Some age -> numeric age = true.

(** Lines of the TEMPORAL PATTERNS part of the summary report. *)
Definition highest_line (item : cell * nat) : event :=
  Print [Lit "   • Highest year: "; PCell (fst item); Lit " (";
         PNat "" (snd item); Lit " shootings)"].

Definition lowest_line (item : cell * nat) : event :=
  Print [Lit "   • Lowest year: "; PCell (fst item); Lit " (";
         PNat "" (snd item); Lit " shootings)"].

Definition trend_line (change : Q) : event :=
  Print [Lit "   • Overall trend: "; PFloat "+.1f" (Some change);
         Lit "% change from first to last year"].

(** The events [run] occur in [out], one after the other. *)
Definition contains_run (run out : list event) : Prop :=
  exists before after, out = (before ++ run ++ after)%list.

(** The 'month' and 'day_of_week' cells derived from a 'date' cell. *)
Definition month_cell (c : cell) : cell :=
  match c with TS d => int_cell (month_of d) | _ => NA end.

Definition day_cell (c : cell) : cell :=
  match c with TS d => Str (day_name d) | _ => NA end.

(** The first name of [names] on which no incident falls. *)
Definition first_missing_day (names : list string) (date : list cell)
  : option string :=
  find (fun name => (incidents_on name date =? 0)%nat) names.

(** The bars of the day-of-week chart: positions 0 to 6 with the counts
    of Monday to Sunday. *)
Definition day_bars (date : list cell) : list (Q * Q) :=
  combine (range 0 7)
          (map (fun name => Qnat (incidents_on name date)) day_order).

(** The bars of the monthly chart: the twelve positions 1 to 12
    broadcast against the counts of the months present, or nothing
    when the two cannot be broadcast. *)
Definition month_bars (date : list cell) : option (list (Q * Q)) :=
  broadcast (range 1 13)
            (map Qnat (values (groupby_size (map month_cell date)))).

Definition shape_mismatch : exn :=
  ValueError "shape mismatch: objects cannot be broadcast to a single shape".

(** That analyze_temporal_trends returns, holding [df'] and having
    drawn the monthly bars [mbars] and the day-of-week bars. *)
Definition temporal_done (w : World) (df' : DataFrame)
  (mbars : list (Q * Q)) (date : list cell) : Prop :=
  exists out,
    analyze_temporal_trends w = (Ok tt, with_data df' (wrote out w)) /\
    In (Draw 0 1 (Bar mbars)) out /\
    In (Draw 1 0 (Bar (day_bars date))) out.

(** The month numbers 1 to 12. *)
Definition month_numbers : list Z := map Z.of_nat (seq 1 12).

(** The integer a numeric cell holds (rounded down). *)
Definition cell_int (c : cell) : Z :=
  match c with Num q => Qfloor (this q) | _ => 0%Z end.

(** Some race code of the column is a key of the population table. *)
Definition some_race_known (race : list cell) : bool :=
  existsb (fun k => dict_has k us_population_race) race.

(** The x positions of the comparison bars, shifted by [shift]. *)
Definition comparison_x (n : nat) (shift : Q) : list Q :=
  map (fun i => i + shift)%Q (range 0 n).

(** Lines 333-356: what [main] does once the data is loaded. *)
Definition analyses : M unit :=
  banner "BASIC STATISTICS" ;;
  explore_basic_statistics ;;
  banner "TEMPORAL ANALYSIS" ;;
  analyze_temporal_trends ;;
  banner "DEMOGRAPHIC ANALYSIS" ;;
  analyze_demographic_patterns ;;
  banner "GEOGRAPHIC ANALYSIS" ;;
  analyze_geographic_patterns ;;
  banner "SUMMARY REPORT" ;;
  generate_summary_report.

(** Some state of the column is listed in the region table. *)
Definition some_state_known (state : list cell) : bool :=
  existsb (state_in table_states) state.

(** What a table with the dates [date] needs for all five analyses to
    go through: twelve months or a single one, all seven weekdays, no
    text in the 'age' column, a race code of the population table in
    the 'race' column, and a state of the region table in the 'state'
    column. *)
Definition completes (df : DataFrame) (date : list cell) : Prop :=
  (months_present date = 12 \/ months_present date = 1) /\
  (forall name, In name day_order -> 1 <= incidents_on name date) /\
  age_numeric df /\
  (forall race, column "race" df = Some race ->
                some_race_known race = true) /\
  (forall state, column "state" df = Some state ->
                 some_state_known state = true).

(** The label analyze_demographic_patterns writes above the bar of a
    gender: the count and its percentage of [total]. *)
Definition gender_label (total : nat) (iv : nat * nat) : event :=
  Draw 1 0 (Text (Qnat (fst iv)) (Qnat (snd iv) + Qnat total * 0.01)%Q
              [PNat "" (snd iv); Lit (nl ++ "(");
               PFloat ".1f" (Some (percent (snd iv) total)); Lit "%)"]).

(** What the gender block (lines 174-185) draws. *)
Definition gender_events (df : DataFrame) : list event :=
  match column "gender" df with
  | Some gender =>
      let gender_counts := value_counts gender in
      Draw 1 0 (BarLabels gender_counts)
      :: map (gender_label (total gender_counts))
             (enumerate (values gender_counts))
  | None => []
  end.

(** What the armed block (lines 187-206) draws. *)
Definition armed_events (df : DataFrame) : list event :=
  match column "armed" df with
  | Some armed =>
      let top := top_categories armed in
      [Draw 1 1 (Barh (combine (range 0 (length top)) (values top))
                      (index top))]
  | None => []
  end.

(** What the race block (lines 128-172) draws when it goes through. *)
Definition race_events (df : DataFrame) : list event :=
  match column "race" df with
  | Some race =>
      let race_counts := value_counts race in
      let table := comparison_data race_counts in
      [Draw 0 0 (Pie (values race_counts) (index race_counts));
       Draw 0 1 (Bar (combine (comparison_x (length table) (- (0.35 / 2)))
                              (map Shooting_Rate table)));
       Draw 0 1 (Bar (combine (comparison_x (length table) (0.35 / 2))
                              (map Population_Rate table)))]
  | None => []
  end.

(** The table has the columns [load_data] derives: the datetime column
    'date', holding [date], and the column 'year' of its years. *)
Definition dated (df : DataFrame) (date : list cell) : Prop :=
  column "date" df = Some date /\
  forallb is_datetime date = true /\
  column "year" df = Some (map year_cell date).

(** The three lines that open the summary report. *)
Definition report_header : list event :=
  [Print [Lit (str_mul "=" 60)];
   Print [Lit "COMPREHENSIVE ANALYSIS SUMMARY"];
   Print [Lit (str_mul "=" 60)]].

(** The bars of the monthly chart when every month has an incident:
    month [m] at position [m] with its number of incidents. *)
Definition bars_by_month (date : list cell) : list (Q * Q) :=
  combine (range 1 13)
          (map (fun m => Qnat (incidents_in_month m date)) month_numbers).

(** The bars of the monthly chart when all incidents fall in the same
    month: twelve bars of the height of that single count. *)
Definition bars_of_one_month (date : list cell) : list (Q * Q) :=
  map (fun x => (x, Qnat (length (days date)))) (range 1 13).

(** The OVERALL STATISTICS lines of the summary report, for a table of
    [total] rows with [n] distinct years between the days [d1] and
    [d2]. *)
Definition overall_lines (total n : nat) (d1 d2 : Z) : list event :=
  [Print [Lit (nl ++ "📊 OVERALL STATISTICS:")];
   Print [Lit "   • Total fatal shootings: "; PNat "," total];
   Print [Lit "   • Years covered: "; PNat "" n];
   Print [Lit "   • Average per year: ";
          PFloat ".1f" (Some (Qnat total / Qnat n)%Q)];
   Print [Lit "   • Date range: "; PDate "%Y-%m-%d" d1; Lit " to ";
          PDate "%Y-%m-%d" d2]].

End Spec.

(* ------------------------------------------------------------------ *)
(** * Sample inputs *)
(* ------------------------------------------------------------------ *)

Module Examples.
Import Pandas Py App Spec.
Local Open Scope string_scope.

(** A fresh process in which [read_csv] will find [file]. *)
Definition fresh (file : outcome DataFrame) : World :=
  {| self := init; output := []; csv_file := file |}.

(** The world after [load_data] on a fresh process. *)
Definition after_load (csv : DataFrame) : World :=
  snd (load_data parse_iso (fresh (Ok csv))).

(** One incident in California, in a file that already has a column
    called 'region'. *)
Definition csv_with_region : DataFrame :=
  {| nrows := 1;
     columns := [("date", [Str "2015-01-02"]); ("state", [Str "CA"]);
                 ("region", [Str "Pacific"])] |}.

(** Forty-five incidents on one day, with nine armed categories of
    distinct frequencies; the fourth most frequent one is itself called
    'other'. *)
Definition armed_with_other : list cell :=
  repeat (Str "gun") 9 ++ repeat (Str "knife") 8 ++
  repeat (Str "unarmed") 7 ++ repeat (Str "other") 6 ++
  repeat (Str "vehicle") 5 ++ repeat (Str "toy weapon") 4 ++
  repeat (Str "machete") 3 ++ repeat (Str "hammer") 2 ++
  repeat (Str "sword") 1.

Definition csv_armed_other : DataFrame :=
  {| nrows := 45;
     columns := [("date", repeat (Str "2015-01-02") 45);
                 ("armed", armed_with_other)] |}.

(** Two incidents; the second row has neither a date nor a race. *)
Definition csv_half_missing : DataFrame :=
  {| nrows := 2;
     columns := [("date", [Str "2015-01-02"; NA]);
                 ("race", [Str "W"; NA])] |}.

(** One incident whose date is missing in the file. *)
Definition csv_undated : DataFrame :=
  {| nrows := 1;
     columns := [("date", [NA]); ("race", [Str "W"])] |}.

(** One incident on each day of the week from Monday 5 to Sunday 11
    January 2015. *)
Definition csv_week : DataFrame :=
  {| nrows := 7;
     columns :=
       [("date", [Str "2015-01-05"; Str "2015-01-06"; Str "2015-01-07";
                  Str "2015-01-08"; Str "2015-01-09"; Str "2015-01-10";
                  Str "2015-01-11"]);
        ("age", [int_cell 30; int_cell 41; NA; int_cell 25; int_cell 52;
                 int_cell 19; int_cell 33]);
        ("race", [Str "W"; Str "B"; Str "W"; Str "H"; NA; Str "W"; Str "B"]);
        ("gender", [Str "M"; Str "M"; Str "F"; Str "M"; Str "M"; NA;
                    Str "M"]);
        ("armed", [Str "gun"; Str "knife"; Str "unarmed"; NA; Str "gun";
                   Str "toy weapon"; Str "gun"]);
        ("state", [Str "CA"; Str "TX"; Str "NY"; Str "CA"; Str "FL";
                   Str "PR"; Str "WA"])] |}.

(** One incident in 2015 and two in 2016, in three different months. *)
Definition csv_two_years : DataFrame :=
  {| nrows := 3;
     columns := [("date", [Str "2015-01-02"; Str "2016-02-03";
                           Str "2016-03-04"])] |}.

(** One incident, whose age is given as text. *)
Definition csv_text_age : DataFrame :=
  {| nrows := 1;
     columns := [("date", [Str "2015-01-02"]); ("age", [Str "unknown"])] |}.

(** One incident whose race code is not in the population table. *)
Definition csv_unknown_race : DataFrame :=
  {| nrows := 1;
     columns := [("date", [Str "2015-01-02"]); ("race", [Str "X"])] |}.

(** An 'armed' column with a missing value. *)
Definition armed_sample : list cell :=
  [Str "gun"; NA; Str "toy weapon"; Str "gun"; Str "knife"].

End Examples.

(* ------------------------------------------------------------------ *)
(** * Facts about the pandas operations *)
(* ------------------------------------------------------------------ *)

Module PandasFacts.
Import Pandas Spec.

Lemma get_bump_same k s : get k (bump k s) = S (get k s).
Proof.
  unfold get. induction s as [|[k' n] t IH]; simpl.
  - destruct (cell_eq_dec k k); congruence.
  - destruct (cell_eq_dec k k') as [E|E]; simpl.
    + destruct (cell_eq_dec k k'); congruence.
    + destruct (cell_eq_dec k k'); [congruence|exact IH].
Qed.

Lemma lookup_bump_other k k' s :
  k' <> k -> lookup k' (bump k s) = lookup k' s.
Proof.
  intros N. induction s as [|[k0 n] t IH]; simpl.
  - destruct (cell_eq_dec k' k); congruence.
  - destruct (cell_eq_dec k k0) as [E|E]; simpl.
    + subst. destruct (cell_eq_dec k' k0); congruence.
    + destruct (cell_eq_dec k' k0); [reflexivity|exact IH].
Qed.

Lemma get_bump_other k k' s : k' <> k -> get k' (bump k s) = get k' s.
Proof. intros N. unfold get. now rewrite lookup_bump_other. Qed.

Lemma total_bump k s : total (bump k s) = S (total s).
Proof.
  unfold total, values. induction s as [|[k' n] t IH]; simpl; [reflexivity|].
  destruct (cell_eq_dec k k'); simpl; [reflexivity|].
  rewrite IH. lia.
Qed.

Lemma index_bump k s :
  index (bump k s) = if in_dec cell_eq_dec k (index s)
                     then index s else index s ++ [k].
Proof.
  unfold index. induction s as [|[k' n] t IH]; simpl; [reflexivity|].
  destruct (cell_eq_dec k k') as [E|E]; simpl.
  - subst. destruct (cell_eq_dec k' k'); [reflexivity|congruence].
  - rewrite IH. destruct (cell_eq_dec k' k); [congruence|].
    destruct (in_dec cell_eq_dec k (map fst t)); reflexivity.
Qed.

Lemma NoDup_index_bump k s : NoDup (index s) -> NoDup (index (bump k s)).
Proof.
  intros H. rewrite index_bump.
  destruct (in_dec cell_eq_dec k (index s)) as [I|I]; [exact H|].
  apply NoDup_rev in H. rewrite <- (rev_involutive (index s ++ [k])).
  apply NoDup_rev. rewrite rev_app_distr. simpl. constructor; [|exact H].
  now rewrite <- in_rev.
Qed.

Lemma positive_bump k s :
  Forall (fun kv => 1 <= snd kv) s ->
  Forall (fun kv => 1 <= snd kv) (bump k s).
Proof.
  induction 1 as [|[k' n] t H1 H2 IH]; simpl.
  - repeat constructor.
  - destruct (cell_eq_dec k k'); constructor; simpl in *; auto; lia.
Qed.

(** The loop of [tally], from any table of counts. *)
Lemma fold_bump l : forall acc,
  let r := fold_left (fun a k => bump k a) l acc in
  (forall k, get k r = count k l + get k acc) /\
  total r = length l + total acc /\
  (NoDup (index acc) -> NoDup (index r)) /\
  (Forall (fun kv => 1 <= snd kv) acc -> Forall (fun kv => 1 <= snd kv) r).
Proof.
  induction l as [|x l IH]; intros acc; simpl.
  - repeat split; auto.
  - destruct (IH (bump x acc)) as (G & T & N & P). repeat split.
    + intros k. rewrite G. unfold count. simpl.
      destruct (cell_eq_dec x k) as [E|E].
      * subst. rewrite get_bump_same. lia.
      * rewrite get_bump_other by congruence. reflexivity.
    + rewrite T, total_bump. lia.
    + intros H. apply N, NoDup_index_bump, H.
    + intros H. apply P, positive_bump, H.
Qed.

Lemma get_tally k l : get k (tally l) = count k l.
Proof.
  destruct (fold_bump l []) as (G & _). unfold tally. rewrite G.
  unfold get. simpl. lia.
Qed.

Lemma total_tally l : total (tally l) = length l.
Proof.
  destruct (fold_bump l []) as (_ & T & _). unfold tally. rewrite T.
  unfold total. simpl. lia.
Qed.

Lemma NoDup_tally l : NoDup (index (tally l)).
Proof.
  destruct (fold_bump l []) as (_ & _ & N & _). apply N. constructor.
Qed.

Lemma positive_tally l : Forall (fun kv => 1 <= snd kv) (tally l).
Proof.
  destruct (fold_bump l []) as (_ & _ & _ & P). apply P. constructor.
Qed.

Lemma lookup_In {A} k (v : A) s : lookup k s = Some v -> In (k, v) s.
Proof.
  induction s as [|[k' v'] t IH]; simpl; [discriminate|].
  destruct (cell_eq_dec k k'); intros H.
  - inversion H. subst. now left.
  - right. auto.
Qed.

Lemma In_lookup {A} k (v : A) s :
  NoDup (index s) -> In (k, v) s -> lookup k s = Some v.
Proof.
  induction s as [|[k' v'] t IH]; simpl; [tauto|].
  intros N [E|I].
  - inversion E. subst. destruct (cell_eq_dec k k); congruence.
  - inversion N as [|? ? N1 N2]. subst.
    destruct (cell_eq_dec k k') as [E|E].
    + subst. exfalso. apply N1. unfold index.
      change k' with (fst (k', v)). now apply in_map.
    + auto.
Qed.

Lemma lookup_None {A} k (s : Series A) :
  lookup k s = None <-> ~ In k (index s).
Proof.
  induction s as [|[k' v'] t IH]; simpl; [tauto|].
  destruct (cell_eq_dec k k'); split; intros H.
  - discriminate.
  - exfalso. apply H. now left.
  - intros [E|I]; [congruence|]. now apply IH.
  - apply IH. tauto.
Qed.

(** A value is a label of the tally exactly when it occurs. *)
Lemma In_index_tally k l : In k (index (tally l)) <-> In k l.
Proof.
  split; intros H.
  - destruct (lookup k (tally l)) as [n|] eqn:E.
    + assert (P := positive_tally l). rewrite Forall_forall in P.
      apply lookup_In in E. specialize (P _ E). simpl in P.
      assert (G : get k (tally l) = n).
      { unfold get. erewrite In_lookup; eauto using NoDup_tally. }
      rewrite get_tally in G. unfold count in G.
      apply (count_occ_In cell_eq_dec). lia.
    + apply lookup_None in E. contradiction.
  - destruct (lookup k (tally l)) as [n|] eqn:E.
    + apply lookup_In in E. unfold index.
      change k with (fst (k, n)). now apply in_map.
    + exfalso. assert (G := get_tally k l). unfold get in G.
      rewrite E in G. apply (count_occ_In cell_eq_dec) in H.
      unfold count in G. lia.
Qed.

(** ** Sorting *)

Section SortFacts.
Variable A : Type.
Variable le : cell * A -> cell * A -> bool.

Lemma insert_perm x s : Permutation (insert le x s) (x :: s).
Proof.
  induction s as [|y t IH]; simpl; [reflexivity|].
  destruct (le x y); [reflexivity|].
  rewrite IH. apply perm_swap.
Qed.

Lemma sort_by_perm s : Permutation (sort_by le s) s.
Proof.
  induction s as [|x t IH]; simpl; [reflexivity|].
  rewrite insert_perm. now constructor.
Qed.

(** On a set of entries where [le] is total and transitive the result
    is sorted. *)
Variable P : cell * A -> Prop.
Hypothesis le_total : forall x y, P x -> P y -> le x y = true \/ le y x = true.
Hypothesis le_trans :
  forall x y z, P x -> P y -> P z ->
                le x y = true -> le y z = true -> le x z = true.

Lemma insert_sorted x s :
  P x -> Forall P s ->
  StronglySorted (fun a b => le a b = true) s ->
  StronglySorted (fun a b => le a b = true) (insert le x s).
Proof.
  intros Px Ps S. induction S as [|y t S IH Hy]; simpl.
  - repeat constructor.
  - inversion Ps as [|? ? Py Pt]. subst.
    destruct (le x y) eqn:E.
    + constructor; [constructor; assumption|].
      constructor; [exact E|].
      rewrite Forall_forall in *. intros z Hz.
      apply (le_trans Px Py (Pt z Hz) E (Hy z Hz)).
    + constructor; [apply IH; assumption|].
      rewrite Forall_forall in *. intros z Hz.
      apply (Permutation_in _ (insert_perm x t)) in Hz.
      destruct Hz as [<-|Hz]; [|auto].
      destruct (le_total Px Py); congruence.
Qed.

Lemma sort_by_sorted s :
  Forall P s -> StronglySorted (fun a b => le a b = true) (sort_by le s).
Proof.
  induction 1 as [|x t Px Pt IH]; simpl; [constructor|].
  apply insert_sorted; auto.
  rewrite Forall_forall in *. intros z Hz. apply Pt.
  apply (Permutation_in _ (sort_by_perm t)), Hz.
Qed.
End SortFacts.

Lemma total_perm s s' : Permutation s s' -> total s = total s'.
Proof.
  unfold total, values. induction 1; simpl; lia.
Qed.

Lemma index_perm {A} (s s' : Series A) :
  Permutation s s' -> Permutation (index s) (index s').
Proof. apply Permutation_map. Qed.

Lemma lookup_perm {A} k (s s' : Series A) :
  NoDup (index s) -> Permutation s s' -> lookup k s = lookup k s'.
Proof.
  intros N Pm.
  assert (N' : NoDup (index s'))
    by (eapply Permutation_NoDup; [apply index_perm, Pm|exact N]).
  destruct (lookup k s) as [v|] eqn:E.
  - symmetry. apply In_lookup; [exact N'|].
    apply (Permutation_in _ Pm), lookup_In, E.
  - symmetry. apply lookup_None. apply lookup_None in E.
    intros I. apply E.
    apply (Permutation_in _ (Permutation_sym (index_perm Pm))), I.
Qed.

(** ** value_counts and groupby(...).size() *)

Section Counts.
Variable le : cell * nat -> cell * nat -> bool.

Lemma counted_perm col : Permutation (counted le col) (tally (dropna col)).
Proof. apply sort_by_perm. Qed.

Lemma counted_NoDup col : NoDup (index (counted le col)).
Proof.
  eapply Permutation_NoDup; [|apply NoDup_tally].
  apply Permutation_sym, index_perm, counted_perm.
Qed.

Lemma counted_total col : total (counted le col) = length (dropna col).
Proof. rewrite (total_perm (counted_perm col)). apply total_tally. Qed.

Lemma counted_get k col : get k (counted le col) = count k (dropna col).
Proof.
  unfold get. rewrite (lookup_perm k (counted_NoDup col) (counted_perm col)).
  apply get_tally.
Qed.

Lemma counted_index k col :
  In k (index (counted le col)) <-> In k (dropna col).
Proof.
  split; intros H.
  - apply In_index_tally.
    eapply Permutation_in; [apply index_perm, counted_perm|exact H].
  - apply In_index_tally in H.
    eapply Permutation_in;
      [apply Permutation_sym, index_perm, counted_perm|exact H].
Qed.

Lemma counted_positive col : Forall (fun kv => 1 <= snd kv) (counted le col).
Proof.
  eapply Permutation_Forall; [|apply positive_tally].
  apply Permutation_sym, counted_perm.
Qed.

Lemma count_dropna c col :
  notna c = true -> count c (dropna col) = count c col.
Proof.
  intros Hc. unfold count, dropna.
  induction col as [|x t IH]; simpl; [reflexivity|].
  destruct (notna x) eqn:Ex; simpl.
  - destruct (cell_eq_dec x c); auto.
  - destruct (cell_eq_dec x c); [congruence|auto].
Qed.

(** The entries are exactly the values that occur, each with the
    number of rows holding it. *)
Lemma counted_entry k n col :
  In (k, n) (counted le col) <->
  notna k = true /\ n = count k col /\ 1 <= n.
Proof.
  split.
  - intros I. assert (Pz := counted_positive col).
    rewrite Forall_forall in Pz. specialize (Pz _ I). simpl in Pz.
    assert (Ik : In k (dropna col)).
    { apply counted_index. unfold index. change k with (fst (k, n)).
      now apply in_map. }
    apply filter_In in Ik. destruct Ik as [_ Hk].
    assert (G := counted_get k col). unfold get in G.
    rewrite (In_lookup _ _ _ (counted_NoDup col) I) in G.
    rewrite count_dropna in G by exact Hk. auto.
  - intros (Hk & -> & Hn). apply lookup_In.
    assert (G := counted_get k col). unfold get in G.
    rewrite count_dropna in G by exact Hk.
    destruct (lookup k (counted le col)) as [m|]; [congruence|lia].
Qed.

End Counts.

Lemma value_counts_counted col : value_counts col = counted count_ge col.
Proof. reflexivity. Qed.

Lemma groupby_size_counted col : groupby_size col = counted key_le col.
Proof. reflexivity. Qed.

End PandasFacts.

(* ------------------------------------------------------------------ *)
(** * Facts about the monad *)
(* ------------------------------------------------------------------ *)

Module PyFacts.
Import Pandas Py App Spec.

Lemma wrote_nil w : wrote [] w = w.
Proof. destruct w. unfold wrote. simpl. now rewrite app_nil_r. Qed.

Lemma wrote_wrote l1 l2 w : wrote l2 (wrote l1 w) = wrote (l1 ++ l2) w.
Proof. unfold wrote. simpl. now rewrite app_assoc. Qed.

Lemma holding_wrote df l w : holding df w -> holding df (wrote l w).
Proof. exact (fun H => H). Qed.

Lemma bind_ok {A B} (m : M A) (k : A -> M B) w a w' :
  m w = (Ok a, w') -> bind m k w = k a w'.
Proof. unfold bind. now intros ->. Qed.

Lemma bind_raised {A B} (m : M A) (k : A -> M B) w e w' :
  m w = (Raise e, w') -> bind m k w = (Raise e, w').
Proof. unfold bind. now intros ->. Qed.

Lemma bind_ret {A B} (a : A) (k : A -> M B) w : bind (ret a) k w = k a w.
Proof. reflexivity. Qed.

Lemma bind_raise {A B} e (k : A -> M B) w :
  bind (raise e) k w = (Raise e, w).
Proof. reflexivity. Qed.

Lemma bind_emit {B} e (k : unit -> M B) w :
  bind (emit e) k w = k tt (wrote [e] w).
Proof. reflexivity. Qed.

Lemma bind_print {B} l (k : unit -> M B) w :
  bind (print l) k w = k tt (wrote [Print l] w).
Proof. reflexivity. Qed.

Lemma bind_draw {B} r c a (k : unit -> M B) w :
  bind (draw r c a) k w = k tt (wrote [Draw r c a] w).
Proof. reflexivity. Qed.

Lemma bind_pie {B} r c sizes labels (k : unit -> M B) w :
  fold_right Nat.add 0 sizes <> 0 ->
  bind (pie r c sizes labels) k w =
  k tt (wrote [Draw r c (Pie sizes labels)] w).
Proof.
  intros H. unfold pie. apply Nat.eqb_neq in H. rewrite H. reflexivity.
Qed.

Lemma bind_pie_empty {B} r c sizes labels (k : unit -> M B) w :
  fold_right Nat.add 0 sizes = 0 ->
  bind (pie r c sizes labels) k w =
  (Raise (ValueError "All wedge sizes are zero"), w).
Proof. intros H. unfold pie. rewrite H. reflexivity. Qed.

Lemma print_run l w : print l w = (Ok tt, wrote [Print l] w).
Proof. reflexivity. Qed.

Lemma emit_run e w : emit e w = (Ok tt, wrote [e] w).
Proof. reflexivity. Qed.

Lemma bind_expect {A B} e (o : option A) a (k : A -> M B) w :
  o = Some a -> bind (expect e o) k w = k a w.
Proof. now intros ->. Qed.

Lemma bind_expect_none {A B} e (o : option A) (k : A -> M B) w :
  o = None -> bind (expect e o) k w = (Raise e, w).
Proof. now intros ->. Qed.

Lemma bind_getitem {B} name df col (k : list cell -> M B) w :
  column name df = Some col -> bind (getitem name df) k w = k col w.
Proof. unfold getitem. apply bind_expect. Qed.

Lemma bind_get_data {B} df (k : option DataFrame -> M B) w :
  holding df w -> bind get_data k w = k (Some df) w.
Proof. unfold holding, bind, get_data. now intros ->. Qed.

Lemma bind_assoc {A B C} (m : M A) (k : A -> M B) (h : B -> M C) w :
  bind (bind m k) h w = bind m (fun a => bind (k a) h) w.
Proof. unfold bind. destruct (m w) as [[a|e] w']; reflexivity. Qed.

Lemma when_true (m : M unit) : when true m = m.
Proof. reflexivity. Qed.

Lemma when_false (m : M unit) : when false m = ret tt.
Proof. reflexivity. Qed.

(** A loop whose body only prints. *)
Lemma for_each_print {A} (f : A -> line) xs w :
  for_each xs (fun x => print (f x)) w =
  (Ok tt, wrote (map (fun x => Print (f x)) xs) w).
Proof.
  revert w. induction xs as [|x t IH]; intros w; simpl.
  - now rewrite wrote_nil.
  - rewrite bind_print, IH, wrote_wrote. reflexivity.
Qed.

Lemma for_each_draw {A} r c (f : A -> artist) xs w :
  for_each xs (fun x => draw r c (f x)) w =
  (Ok tt, wrote (map (fun x => Draw r c (f x)) xs) w).
Proof.
  revert w. induction xs as [|x t IH]; intros w; simpl.
  - now rewrite wrote_nil.
  - rewrite bind_draw, IH, wrote_wrote. reflexivity.
Qed.

Lemma for_each_ext {A} (f g : A -> M unit) xs w :
  (forall x w', In x xs -> f x w' = g x w') ->
  for_each xs f w = for_each xs g w.
Proof.
  revert w. induction xs as [|x t IH]; intros w H; simpl; [reflexivity|].
  unfold bind. rewrite (H x w) by now left.
  destruct (g x w) as [[[]|e] w']; [|reflexivity].
  apply IH. intros y w'' I. apply H. now right.
Qed.

(** ** Computations that only write *)

Lemma writes_ret {A} (a : A) : writes_only (ret a).
Proof. intros w. exists []. simpl. now rewrite wrote_nil. Qed.

Lemma writes_raise {A} e : writes_only (@raise A e).
Proof. intros w. exists []. simpl. now rewrite wrote_nil. Qed.

Lemma writes_emit e : writes_only (emit e).
Proof. intros w. now exists [e]. Qed.

Lemma writes_print l : writes_only (print l).
Proof. apply writes_emit. Qed.

Lemma writes_draw r c a : writes_only (draw r c a).
Proof. apply writes_emit. Qed.

Lemma writes_pie r c sizes labels : writes_only (pie r c sizes labels).
Proof.
  unfold pie. destruct (_ =? 0)%nat; [apply writes_raise|apply writes_draw].
Qed.

Lemma writes_bind {A B} (m : M A) (k : A -> M B) :
  writes_only m -> (forall a, writes_only (k a)) -> writes_only (bind m k).
Proof.
  intros Hm Hk w. unfold bind. destruct (Hm w) as [l Hl].
  destruct (m w) as [[a|e] w']; simpl in *; subst.
  - destruct (Hk a (wrote l w)) as [l' Hl']. exists (l ++ l').
    now rewrite Hl', wrote_wrote.
  - now exists l.
Qed.

Lemma writes_expect {A} e (o : option A) : writes_only (expect e o).
Proof. destruct o; [apply writes_ret|apply writes_raise]. Qed.

Lemma writes_getitem name df : writes_only (getitem name df).
Proof. apply writes_expect. Qed.

Lemma writes_when b m : writes_only m -> writes_only (when b m).
Proof. destruct b; [auto|intros _; apply writes_ret]. Qed.

Lemma writes_for_each {A} (xs : list A) body :
  (forall x, writes_only (body x)) -> writes_only (for_each xs body).
Proof.
  intros H. induction xs as [|x t IH]; simpl.
  - apply writes_ret.
  - apply writes_bind; auto.
Qed.

Lemma writes_get_data : writes_only get_data.
Proof. intros w. exists []. simpl. now rewrite wrote_nil. Qed.

Lemma writes_strftime fmt c : writes_only (strftime fmt c).
Proof. destruct c; (apply writes_ret || apply writes_raise). Qed.

(** Closing a goal about a concrete run by evaluation. *)
Ltac evaluate := vm_compute; reflexivity.

(** An event of a concrete output. *)
Ltac in_output := vm_compute; repeat (first [left; reflexivity | right]).

Create HintDb writes.
#[export] Hint Resolve writes_ret writes_raise writes_emit writes_print
  writes_draw writes_pie writes_expect writes_getitem writes_get_data
  writes_strftime : writes.

Ltac writes :=
  repeat first
    [ progress intros
    | apply writes_bind
    | apply writes_when
    | apply writes_for_each
    | solve [auto with writes]
    | match goal with
      | |- writes_only (match ?x with _ => _ end) => destruct x
      | |- writes_only (if ?x then _ else _) => destruct x
      end ].

End PyFacts.

(* ------------------------------------------------------------------ *)
(** * Facts about column assignment *)
(* ------------------------------------------------------------------ *)

Module FrameFacts.
Import Pandas Py App Spec PyFacts.

Lemma assoc_set_same n v cols : assoc n (set_assoc n v cols) = Some v.
Proof.
  induction cols as [|[m c] t IH]; simpl.
  - now rewrite String.eqb_refl.
  - destruct (String.eqb n m) eqn:E; simpl; rewrite E; auto.
Qed.

Lemma assoc_set_other n m v cols :
  m <> n -> assoc m (set_assoc n v cols) = assoc m cols.
Proof.
  intros N. induction cols as [|[k c] t IH]; simpl.
  - apply String.eqb_neq in N. now rewrite N.
  - destruct (String.eqb n k) eqn:E; simpl.
    + apply String.eqb_eq in E. subst.
      apply String.eqb_neq in N. now rewrite N.
    + now rewrite IH.
Qed.

Lemma column_assign_same n v df : column n (assign n v df) = Some v.
Proof. apply assoc_set_same. Qed.

Lemma column_assign_other n m v df :
  m <> n -> column m (assign n v df) = column m df.
Proof. apply assoc_set_other. Qed.

Lemma names_set_assoc n v cols :
  map fst (set_assoc n v cols) =
  if existsb (String.eqb n) (map fst cols)
  then map fst cols else map fst cols ++ [n].
Proof.
  induction cols as [|[k c] t IH]; simpl; [reflexivity|].
  destruct (String.eqb n k) eqn:E; simpl.
  - apply String.eqb_eq in E. now subst.
  - rewrite IH. now destruct (existsb (String.eqb n) (map fst t)).
Qed.

Lemma has_column_assign n m v df :
  has_column m (assign n v df) = has_column m df || String.eqb m n.
Proof.
  unfold has_column, column_names, assign. simpl.
  rewrite names_set_assoc.
  destruct (existsb (String.eqb n) (map fst (columns df))) eqn:E.
  - destruct (String.eqb m n) eqn:F; [|now rewrite orb_false_r].
    apply String.eqb_eq in F. subst. now rewrite E.
  - rewrite existsb_app. simpl. now rewrite orb_false_r.
Qed.

Lemma has_column_some n df :
  has_column n df = true <-> exists c, column n df = Some c.
Proof.
  unfold has_column, column_names, column.
  induction (columns df) as [|[k c] t IH]; simpl.
  - split; [discriminate|intros [c H]; discriminate].
  - destruct (String.eqb n k); simpl; [|exact IH].
    split; eauto.
Qed.

Lemma well_formed_column n c df :
  well_formed df -> column n df = Some c -> length c = nrows df.
Proof.
  intros [F _]. unfold column. revert F.
  induction (columns df) as [|[k c'] t IH]; simpl; [discriminate|].
  intros F. inversion F as [|? ? H1 H2]. subst.
  destruct (String.eqb n k); [|auto].
  intros H. inversion H. now subst.
Qed.

Lemma derived_refl names df : derived_from names df df.
Proof. repeat split; auto. Qed.

Lemma derived_trans names d1 d2 d3 :
  derived_from names d1 d2 -> derived_from names d2 d3 ->
  derived_from names d1 d3.
Proof.
  intros (R1 & C1 & H1 & G1) (R2 & C2 & H2 & G2). repeat split.
  - congruence.
  - intros n N. now rewrite C2, C1.
  - auto.
  - intros n H. destruct (G2 n H); auto.
Qed.

Lemma derived_assign names n v df :
  In n names -> derived_from names df (assign n v df).
Proof.
  intros I. repeat split.
  - intros m N. apply column_assign_other. intros ->. contradiction.
  - intros m H. rewrite has_column_assign, H. reflexivity.
  - intros m H. rewrite has_column_assign in H.
    apply orb_true_iff in H. destruct H as [H|H]; [now left|].
    apply String.eqb_eq in H. subst. now right.
Qed.

Lemma evolve_refl names w : evolve names w w.
Proof.
  repeat split; auto.
  - exists []. now rewrite app_nil_r.
  - destruct (shootings_data (self w)); [apply derived_refl|exact I].
Qed.

Lemma evolve_trans names w1 w2 w3 :
  evolve names w1 w2 -> evolve names w2 w3 -> evolve names w1 w3.
Proof.
  intros (C1 & [l1 O1] & E1 & M1 & D1) (C2 & [l2 O2] & E2 & M2 & D2).
  repeat split; try congruence.
  - exists (l1 ++ l2). now rewrite O2, O1, app_assoc.
  - destruct (shootings_data (self w1)), (shootings_data (self w2)),
      (shootings_data (self w3)); try contradiction; auto.
    eapply derived_trans; eauto.
Qed.

Lemma evolve_wrote names l w : evolve names w (wrote l w).
Proof.
  repeat split; auto.
  - now exists l.
  - simpl. destruct (shootings_data (self w));
      [apply derived_refl|exact I].
Qed.

Lemma keeps_writes {A} names (m : M A) : writes_only m -> keeps names m.
Proof. intros H w. destruct (H w) as [l ->]. apply evolve_wrote. Qed.

Lemma keeps_bind {A B} names (m : M A) (k : A -> M B) :
  keeps names m -> (forall a, keeps names (k a)) -> keeps names (bind m k).
Proof.
  intros Hm Hk w. unfold bind. specialize (Hm w).
  destruct (m w) as [[a|e] w']; simpl in *; [|exact Hm].
  eapply evolve_trans; [exact Hm|apply Hk].
Qed.

Lemma keeps_setcolumn names n v : In n names -> keeps names (setcolumn n v).
Proof.
  intros I w. unfold setcolumn, bind, get_data, set_data, ret. simpl.
  destruct (shootings_data (self w)) as [df|] eqn:E; simpl.
  - repeat split; simpl; auto.
    + exists []. now rewrite app_nil_r.
    + rewrite E. now apply derived_assign.
  - apply evolve_refl.
Qed.

Lemma keeps_when names b m : keeps names m -> keeps names (when b m).
Proof.
  destruct b; [auto|]. intros _. apply keeps_writes, writes_ret.
Qed.

Ltac keeps :=
  repeat first
    [ progress intros
    | apply keeps_setcolumn; simpl; tauto
    | apply keeps_bind
    | apply keeps_when
    | solve [apply keeps_writes; writes]
    | match goal with
      | |- keeps _ (match ?x with _ => _ end) => destruct x
      | |- keeps _ (if ?x then _ else _) => destruct x
      end ].

Lemma explore_writes : writes_only explore_basic_statistics.
Proof. unfold explore_basic_statistics. writes. Qed.

Lemma report_writes : writes_only generate_summary_report.
Proof. unfold generate_summary_report. writes. Qed.

Lemma demographic_writes : writes_only analyze_demographic_patterns.
Proof. unfold analyze_demographic_patterns. writes. Qed.

Lemma temporal_keeps :
  keeps ["month"; "day_of_week"]%string analyze_temporal_trends.
Proof. unfold analyze_temporal_trends. keeps. Qed.

Lemma geographic_keeps : keeps ["region"]%string analyze_geographic_patterns.
Proof. unfold analyze_geographic_patterns. keeps. Qed.

End FrameFacts.

(* ------------------------------------------------------------------ *)
(** * Facts about load_data *)
(* ------------------------------------------------------------------ *)

Unset Implicit Arguments.

Module LoadFacts.
Import Pandas Py App Spec PyFacts FrameFacts.
Local Open Scope string_scope.

Lemma to_datetime_datetime parse col parsed :
  to_datetime parse col = Some parsed ->
  forallb is_datetime parsed = true /\ length parsed = length col.
Proof.
  revert parsed. induction col as [|c t IH]; simpl; intros parsed H.
  - inversion H. now split.
  - destruct (to_datetime_cell parse c) as [c'|] eqn:Ec; [|discriminate].
    destruct (to_datetime parse t) as [t'|]; [|discriminate].
    inversion H. subst. destruct (IH t' eq_refl) as [F L]. simpl.
    split; [|now rewrite L].
    rewrite F, andb_true_r.
    destruct c as [|q|s|d]; cbn [to_datetime_cell] in Ec.
    + now inversion Ec.
    + cbv zeta in Ec. destruct (Qeq_bool _ _); [now inversion Ec|].
      destruct (_ && _); [now inversion Ec|discriminate].
    + destruct (parse s) as [[d|]|]; inversion Ec; reflexivity.
    + now inversion Ec.
Qed.

Lemma dt_defined f col :
  forallb is_datetime col = true ->
  dt f col = Some (map (fun c => match c with TS d => f d | _ => NA end) col).
Proof. unfold dt. now intros ->. Qed.

Lemma bind_setcolumn {B} n v df (k : DataFrame -> M B) w :
  holding df w ->
  bind (setcolumn n v) k w = k (assign n v df) (with_data (assign n v df) w).
Proof.
  unfold holding, setcolumn, bind, get_data, set_data, ret. now intros ->.
Qed.

Lemma bind_set_data {B} df (k : unit -> M B) w :
  bind (set_data df) k w = k tt (with_data df w).
Proof. reflexivity. Qed.

Lemma bind_read_csv {B} csv (k : DataFrame -> M B) w :
  csv_file w = Ok csv -> bind read_csv k w = k csv w.
Proof. unfold bind, read_csv. now intros ->. Qed.

(** The four ways [load_data_body] can end. *)
Lemma load_data_body_run parse w :
  let w1 := wrote [loading_line] w in
  match csv_file w with
  | Raise e => load_data_body parse w = (Raise e, w1)
  | Ok csv =>
      match column "date" csv with
      | None =>
          load_data_body parse w =
          (Raise (KeyError (Str "date")), with_data csv w1)
      | Some date =>
          match to_datetime parse date with
          | None =>
              load_data_body parse w =
              (Raise (to_datetime_error parse date),
               with_data csv w1)
          | Some parsed =>
              exists year,
                dt_year parsed = Some year /\
                let df := assign "year" year (assign "date" parsed csv) in
                load_data_body parse w =
                (Ok true, wrote (loaded_lines df year) (with_data df w1))
          end
      end
  end.
Proof.
  intros w1. unfold load_data_body. rewrite bind_print. fold loading_line.
  fold w1. destruct (csv_file w) as [csv|e] eqn:Ef.
  - erewrite bind_read_csv by exact Ef.
    rewrite bind_set_data.
    destruct (column "date" csv) as [date|] eqn:Ed;
      [|unfold getitem; rewrite Ed; reflexivity].
    erewrite bind_getitem by exact Ed.
    destruct (to_datetime parse date) as [parsed|] eqn:Ep; [|reflexivity].
    erewrite bind_expect by reflexivity.
    destruct (to_datetime_datetime _ _ _ Ep) as [F _].
    exists (map (fun c => match c with
                          | TS d => int_cell (year_of d) | _ => NA end)
                parsed).
    split; [apply dt_defined, F|].
    erewrite bind_setcolumn by reflexivity.
    erewrite bind_getitem by apply column_assign_same.
    unfold dt_year. rewrite (dt_defined _ _ F).
    erewrite bind_expect by reflexivity.
    erewrite bind_setcolumn by reflexivity.
    erewrite bind_getitem by apply column_assign_same.
    rewrite !bind_print. unfold ret. rewrite wrote_wrote. reflexivity.
  - subst w1. unfold bind, read_csv. simpl. now rewrite Ef.
Qed.

(** [main] up to the call of [load_data], when that call fails. *)
Lemma main_load_failed parse w w' :
  load_data parse (started w) = (Ok false, w') ->
  main parse w = (Ok tt, wrote [failed_line] w').
Proof.
  intros H. unfold main. rewrite !bind_print.
  assert (S : forall l1 l2 (k : unit -> M unit),
             bind new_analyzer k (wrote l2 (wrote l1 w)) =
             k tt {| self := init; output := output w ++ l1 ++ l2;
                     csv_file := csv_file w |}).
  { intros l1 l2 k. unfold bind, new_analyzer. simpl.
    now rewrite <- app_assoc. }
  rewrite S. unfold bind at 1.
  change {| self := init;
            output := output w ++
                      [Print [Lit "Police Fatal Shootings Analysis"]] ++
                      [Print [Lit (str_mul "=" 50)]];
            csv_file := csv_file w |} with (started w).
  rewrite H. reflexivity.
Qed.

End LoadFacts.

(* ------------------------------------------------------------------ *)
(** * Blocks that cannot fail *)
(* ------------------------------------------------------------------ *)

Module RunFacts.
Import Pandas Py App Spec PyFacts FrameFacts.
Local Open Scope string_scope.

Lemma runs_ret {A} (a : A) : runs_ok (ret a).
Proof. intros w. exists a, []. now rewrite wrote_nil. Qed.

Lemma runs_emit e : runs_ok (emit e).
Proof. intros w. now exists tt, [e]. Qed.

Lemma runs_print l : runs_ok (print l).
Proof. apply runs_emit. Qed.

Lemma runs_draw r c a : runs_ok (draw r c a).
Proof. apply runs_emit. Qed.

Lemma runs_bind {A B} (m : M A) (k : A -> M B) :
  runs_ok m -> (forall a, runs_ok (k a)) -> runs_ok (bind m k).
Proof.
  intros Hm Hk w. destruct (Hm w) as (a & l & E).
  destruct (Hk a (wrote l w)) as (b & l' & E').
  exists b, (l ++ l')%list. unfold bind. now rewrite E, E', wrote_wrote.
Qed.

Lemma runs_for_each {A} (xs : list A) body :
  (forall x, In x xs -> runs_ok (body x)) -> runs_ok (for_each xs body).
Proof.
  induction xs as [|x t IH]; intros H; simpl.
  - apply runs_ret.
  - apply runs_bind; [apply H; now left|].
    intros _. apply IH. intros y I. apply H. now right.
Qed.

(** [if name in df.columns: col = df[name]; ...]. *)
Lemma runs_when_column name df (k : list cell -> M unit) :
  (forall col, column name df = Some col -> runs_ok (k col)) ->
  runs_ok (when (has_column name df) (bind (getitem name df) k)).
Proof.
  intros H. destruct (has_column name df) eqn:E; simpl.
  - apply has_column_some in E. destruct E as [col E].
    intros w. erewrite bind_getitem by exact E. now apply H.
  - apply runs_ret.
Qed.

Ltac runs :=
  repeat first
    [ progress intros
    | apply runs_when_column
    | apply runs_bind
    | apply runs_ret | apply runs_print | apply runs_draw | apply runs_emit
    | apply runs_for_each ].

(** Running a block that cannot fail, in the middle of a method. *)
Lemma bind_runs {B} (m : M unit) (k : unit -> M B) w :
  runs_ok m -> exists l, bind m k w = k tt (wrote l w).
Proof.
  intros H. destruct (H w) as ([] & l & E). exists l.
  unfold bind. now rewrite E.
Qed.

End RunFacts.

(* ------------------------------------------------------------------ *)
(** * Facts about the region table *)
(* ------------------------------------------------------------------ *)

Module RegionFacts.
Import Pandas Py App Spec PandasFacts PyFacts FrameFacts LoadFacts RunFacts.
Local Open Scope string_scope.

Lemma existsb_eqb_In s l : existsb (String.eqb s) l = true <-> In s l.
Proof.
  rewrite existsb_exists. split.
  - intros (x & I & E). apply String.eqb_eq in E. now subst.
  - intros I. exists s. split; [exact I|apply String.eqb_refl].
Qed.

Lemma distinct_NoDup l : distinct l = true -> NoDup l.
Proof.
  induction l as [|x t IH]; simpl; intros H; [constructor|].
  apply andb_true_iff in H. destruct H as [H1 H2].
  constructor; [|auto].
  intros I. apply existsb_eqb_In in I. rewrite I in H1. discriminate.
Qed.

Lemma dict_get_In {V} k (v : V) d : dict_get k d = Some v -> In (k, v) d.
Proof.
  induction d as [|[k' v'] t IH]; simpl; [discriminate|].
  destruct (String.eqb k k') eqn:E.
  - apply String.eqb_eq in E. intros H. inversion H. subst. now left.
  - intros H. right. auto.
Qed.

(** No state code is listed twice in the table. *)
Lemma table_states_NoDup : NoDup table_states.
Proof. apply distinct_NoDup. vm_compute. reflexivity. Qed.

(** The dict built by the two loops sends a state to the region that
    lists it. *)
Lemma state_to_region_spec s r :
  dict_get s state_to_region = Some r <-> In s (region_states r).
Proof.
  split.
  - intros H. apply dict_get_In in H. vm_compute in H.
    repeat (destruct H as [H|H];
            [inversion H; subst; vm_compute; tauto|]).
    contradiction.
  - unfold region_states, region_mapping. simpl dict_get.
    repeat match goal with
           | |- context [String.eqb r ?c] =>
               let E := fresh "E" in
               destruct (String.eqb r c) eqn:E;
               [apply String.eqb_eq in E; subst r; intros H;
                simpl in H;
                repeat (destruct H as [H|H];
                        [subst s; vm_compute; reflexivity|]);
                contradiction|]
           end.
    intros [].
Qed.

(** A state is listed under one region only. *)
Lemma one_region s r1 r2 :
  In s (region_states r1) -> In s (region_states r2) -> r1 = r2.
Proof.
  intros H1 H2. apply state_to_region_spec in H1, H2. congruence.
Qed.

Lemma in_table s : In s table_states <-> exists r, In s (region_states r).
Proof.
  split.
  - intros H. vm_compute in H.
    repeat (destruct H as [H|H];
            [subst s; eexists; apply state_to_region_spec;
             vm_compute; reflexivity|]).
    contradiction.
  - intros [r H]. apply state_to_region_spec in H.
    apply dict_get_In in H. vm_compute in H.
    repeat (destruct H as [H|H];
            [inversion H; subst; vm_compute; tauto|]).
    contradiction.
Qed.

Local Opaque state_to_region table_states region_states.

(** The region derived for a cell. *)
Lemma map_dict_region c r :
  map_dict state_to_region c = Str r <->
  state_in (region_states r) c = true.
Proof.
  destruct c as [|q|s|d]; simpl; try (split; discriminate).
  rewrite existsb_eqb_In, <- state_to_region_spec.
  destruct (dict_get s state_to_region) as [v|]; split; intros H;
    inversion H; reflexivity.
Qed.

Lemma map_dict_missing c :
  map_dict state_to_region c = NA <-> state_in table_states c = false.
Proof.
  destruct c as [|q|s|d]; simpl; try (split; reflexivity).
  destruct (dict_get s state_to_region) as [v|] eqn:E.
  - split; [discriminate|]. intros H. exfalso.
    apply state_to_region_spec in E.
    assert (I : In s table_states) by (apply in_table; eauto).
    apply existsb_eqb_In in I. congruence.
  - split; [|reflexivity]. intros _.
    destruct (existsb (String.eqb s) table_states) eqn:F; [|reflexivity].
    apply existsb_eqb_In, in_table in F. destruct F as [r F].
    apply state_to_region_spec in F. congruence.
Qed.

Lemma map_dict_cases c :
  map_dict state_to_region c = NA \/
  exists r, map_dict state_to_region c = Str r.
Proof.
  destruct c as [|q|s|d]; simpl; auto.
  destruct (dict_get s state_to_region); eauto.
Qed.

Lemma count_map (f : cell -> cell) k l :
  count k (map f l) = length (filter (fun c => cell_eqb (f c) k) l).
Proof.
  unfold count, cell_eqb. induction l as [|x t IH]; simpl; [reflexivity|].
  destruct (cell_eq_dec (f x) k); simpl; auto.
Qed.

Lemma dropna_map (f : cell -> cell) l :
  length (dropna (map f l)) = length (filter (fun c => notna (f c)) l).
Proof.
  unfold dropna. induction l as [|x t IH]; simpl; [reflexivity|].
  destruct (notna (f x)); simpl; auto.
Qed.

Lemma count_region r state :
  count (Str r) (region_column state) =
  length (filter (state_in (region_states r)) state).
Proof.
  unfold region_column. rewrite count_map. f_equal.
  apply filter_ext. intros c. unfold cell_eqb.
  destruct (cell_eq_dec (map_dict state_to_region c) (Str r)) as [E|E].
  - symmetry. now apply map_dict_region.
  - destruct (state_in (region_states r) c) eqn:F; [|reflexivity].
    apply map_dict_region in F. contradiction.
Qed.

Lemma counted_region state :
  length (dropna (region_column state)) =
  length (filter (state_in table_states) state).
Proof.
  unfold region_column. rewrite dropna_map. f_equal.
  apply filter_ext. intros c. unfold notna.
  destruct (state_in table_states c) eqn:F.
  - destruct (map_dict state_to_region c) eqn:E; try reflexivity.
    apply map_dict_missing in E. congruence.
  - apply map_dict_missing in F. now rewrite F.
Qed.

(** What analyze_geographic_patterns does on a table with a 'state'
    column. *)
Lemma geographic_run w df state :
  holding df w -> column "state" df = Some state ->
  let region_counts := value_counts (region_column state) in
  exists l1,
    analyze_geographic_patterns w =
    if (total region_counts =? 0)%nat
    then (Raise (ValueError "All wedge sizes are zero"),
          with_data (assign "region" (region_column state) df) (wrote l1 w))
    else (Ok tt,
          wrote [Draw 1 1 (Pie (values region_counts) (index region_counts));
                 Show]
            (with_data (assign "region" (region_column state) df)
               (wrote l1 w))).
Proof.
  intros H Hs rc. unfold analyze_geographic_patterns.
  assert (Hc : has_column "state" df = true)
    by (apply has_column_some; eauto).
  erewrite bind_get_data by exact H. rewrite bind_emit.
  edestruct (bind_runs (B:=unit)) as [l1 E1];
    [|rewrite E1; clear E1]; [runs|].
  edestruct (bind_runs (B:=unit)) as [l2 E2];
    [|rewrite E2; clear E2]; [runs|].
  rewrite Hc, when_true, !wrote_wrote.
  rewrite !bind_assoc. erewrite bind_getitem by exact Hs.
  rewrite !bind_assoc. erewrite bind_setcolumn by exact H.
  rewrite !bind_assoc.
  erewrite bind_getitem by apply column_assign_same.
  fold rc. eexists. unfold total.
  destruct (fold_right Nat.add 0 (values rc) =? 0)%nat eqn:E.
  - apply Nat.eqb_eq in E. rewrite bind_pie_empty by exact E. reflexivity.
  - apply Nat.eqb_neq in E. rewrite bind_pie by exact E.
    rewrite emit_run, wrote_wrote. reflexivity.
Qed.

End RegionFacts.

(* ------------------------------------------------------------------ *)
(** * Facts about the demographic tables *)
(* ------------------------------------------------------------------ *)

Module DemographicFacts.
Import Pandas Py App Spec PandasFacts.
Local Open Scope string_scope.

Lemma lookup_map {A B} (g : A -> B) k (s : Series A) :
  lookup k (map (fun kv => (fst kv, g (snd kv))) s) =
  option_map g (lookup k s).
Proof.
  induction s as [|[k' v] t IH]; simpl; [reflexivity|].
  destruct (cell_eq_dec k k'); [reflexivity|exact IH].
Qed.

Lemma lookup_index {A} k (s : Series A) :
  In k (index s) -> exists v, lookup k s = Some v.
Proof.
  intros I. destruct (lookup k s) as [v|] eqn:E; [eauto|].
  apply lookup_None in E. contradiction.
Qed.

(** One pass of the loop of lines 147-156. *)
Lemma comparison_row_cases rc race :
  In race (index rc) ->
  (dict_has race us_population_race = false /\
   comparison_row (shooting_percentages rc) race = []) \/
  (exists s pop n,
     race = Str s /\ dict_has race us_population_race = true /\
     dict_get s us_population_race = Some pop /\
     lookup race rc = Some n /\
     comparison_row (shooting_percentages rc) race =
     [ {| Race := race; Shooting_Rate := percent n (total rc);
          Population_Rate := pop;
          Ratio := (percent n (total rc) / pop)%Q |} ]).
Proof.
  intros I. destruct (lookup_index _ _ I) as [n Hn].
  unfold comparison_row, dict_has.
  destruct race as [|q|s|d]; auto.
  destruct (dict_get s us_population_race) as [pop|] eqn:Ep; auto.
  right. exists s, pop, n. repeat split; auto.
  unfold shooting_percentages.
  rewrite (lookup_map (fun c => percent c (total rc))), Hn. reflexivity.
Qed.

Lemma comparison_races rc l :
  (forall k, In k l -> In k (index rc)) ->
  map Race (flat_map (comparison_row (shooting_percentages rc)) l) =
  filter (fun k => dict_has k us_population_race) l.
Proof.
  induction l as [|k t IH]; intros H; simpl; [reflexivity|].
  rewrite map_app, IH by (intros; apply H; now right).
  destruct (comparison_row_cases rc k (H k (or_introl eq_refl)))
    as [[F E]|(s & pop & n & -> & F & _ & _ & E)];
    rewrite E, F; reflexivity.
Qed.

Lemma comparison_rows rc l row :
  (forall k, In k l -> In k (index rc)) ->
  In row (flat_map (comparison_row (shooting_percentages rc)) l) ->
  exists s pop n,
    In (Str s) l /\
    dict_get s us_population_race = Some pop /\
    lookup (Str s) rc = Some n /\
    row = {| Race := Str s; Shooting_Rate := percent n (total rc);
             Population_Rate := pop;
             Ratio := (percent n (total rc) / pop)%Q |}.
Proof.
  intros H I. apply in_flat_map in I. destruct I as (k & Ik & I).
  destruct (comparison_row_cases rc k (H k Ik))
    as [[F E]|(s & pop & n & -> & F & Ep & Hn & E)];
    rewrite E in I; simpl in I; [contradiction|].
  destruct I as [<-|[]]. exists s, pop, n. auto.
Qed.

(** Assigning to a label that is not in the index appends it. *)
Lemma setitem_new {A} k (v : A) s :
  ~ In k (index s) -> setitem k v s = (s ++ [(k, v)])%list.
Proof.
  induction s as [|[k' v'] t IH]; simpl; intros N; [reflexivity|].
  destruct (cell_eq_dec k k') as [E|E]; [exfalso; auto|].
  rewrite IH; auto.
Qed.

(** Assigning to a label of the index replaces its value and adds no
    entry. *)
Lemma setitem_old {A} k (v : A) s :
  In k (index s) ->
  lookup k (setitem k v s) = Some v /\
  index (setitem k v s) = index s.
Proof.
  induction s as [|[k' v'] t IH]; simpl; intros I; [contradiction|].
  destruct (cell_eq_dec k k') as [E|E]; simpl.
  - subst. destruct (cell_eq_dec k' k'); [auto|congruence].
  - destruct I as [I|I]; [congruence|].
    destruct (cell_eq_dec k k'); [congruence|].
    destruct (IH I) as [L X]. split; [exact L|]. unfold index in *.
    now rewrite X.
Qed.

(** [value_counts] lists larger counts first. *)
Lemma value_counts_sorted col :
  StronglySorted (fun a b => snd b <= snd a) (value_counts col).
Proof.
  unfold value_counts.
  assert (S := @sort_by_sorted nat count_ge (fun _ => True)).
  specialize (S (fun x y _ _ => ltac:(
    unfold count_ge; rewrite !Nat.leb_le; lia))).
  specialize (S (fun x y z _ _ _ => ltac:(
    unfold count_ge; rewrite !Nat.leb_le; lia))).
  specialize (S (tally (dropna col))
                (proj2 (Forall_forall _ _) (fun _ _ => I))).
  induction S as [|a l S IH F]; constructor; auto.
  rewrite Forall_forall in *. intros b Hb.
  apply Nat.leb_le. exact (F b Hb).
Qed.

End DemographicFacts.

(* ------------------------------------------------------------------ *)
(** * Facts about explore_basic_statistics *)
(* ------------------------------------------------------------------ *)

Module ExploreFacts.
Import Pandas Py App Spec PandasFacts PyFacts FrameFacts RunFacts.
Import DemographicFacts.
Local Open Scope string_scope.


Lemma Qnat_add a b : (Qnat (a + b) == Qnat a + Qnat b)%Q.
Proof. unfold Qnat. now rewrite Nat2Z.inj_add, inject_Z_plus. Qed.

Lemma Qnat_pos n : 1 <= n -> (0 < Qnat n)%Q.
Proof.
  intros H. unfold Qnat. change 0%Q with (inject_Z 0).
  rewrite <- Zlt_Qlt. lia.
Qed.


(** ** binary64 rounding *)












(** The unrounded percentages add up to the share of the counted rows
    among [len] rows. *)
Lemma Qsum_percent len (s : Series nat) :
  (Qsum (map (fun kv => percent (snd kv) len) s) ==
   Qnat (total s) / Qnat len * 100)%Q.
Proof.
  unfold total, values, Qsum.
  induction s as [|[k n] t IH]; cbn [map fold_right snd].
  - change (Qnat 0) with 0%Q. unfold Qdiv. ring.
  - rewrite IH, Qnat_add. unfold percent, Qdiv. ring.
Qed.

Lemma dropna_missing l : length (dropna l) + missing l = length l.
Proof.
  unfold dropna, missing, notna. induction l as [|x t IH]; simpl;
    [reflexivity|].
  destruct (isna x); simpl; lia.
Qed.

(** The race block of explore_basic_statistics, lines 57-61. *)
Lemma explore_race_block df w :
  when (has_column "race" df)
    (race <- getitem "race" df ;;
     let race_counts := value_counts race in
     let race_percentages := race_percentages (nrows df) race_counts in
     for_each race_counts
       (fun item =>
          pct <- expect (KeyError (fst item))
                        (lookup (fst item) race_percentages) ;;
          print [PCell (fst item); Lit ": "; PNat "" (snd item);
                 Lit " ("; PFloat "" (Some pct); Lit "%)"])) w =
  (Ok tt,
   wrote match column "race" df with
         | Some race => map (race_line (nrows df)) (value_counts race)
         | None => []
         end w).
Proof.
  destruct (has_column "race" df) eqn:E.
  - apply has_column_some in E. destruct E as [race E]. rewrite E.
    rewrite when_true. erewrite bind_getitem by exact E. cbv zeta.
    erewrite for_each_ext.
    + apply (for_each_print
               (fun item =>
                  [PCell (fst item); Lit ": "; PNat "" (snd item);
                   Lit " (";
                   PFloat ""
                     (Some (round2 (float_percent (snd item) (nrows df))));
                   Lit "%)"])).
    + intros [k n] w' I. unfold race_percentages.
      erewrite bind_expect; [reflexivity|].
      rewrite (lookup_map (fun c => round2 (float_percent c (nrows df)))).
      erewrite In_lookup; [reflexivity| |exact I].
      rewrite value_counts_counted. apply counted_NoDup.
  - assert (N : column "race" df = None).
    { destruct (column "race" df) eqn:F; [|reflexivity].
      assert (T : has_column "race" df = true)
        by (apply has_column_some; eauto).
      congruence. }
    rewrite N, wrote_nil. reflexivity.
Qed.

(** explore_basic_statistics on a table with 'date' and 'year'. *)
Lemma explore_run w df date year :
  holding df w ->
  column "date" df = Some date -> column "year" df = Some year ->
  exists l1 l2,
    explore_basic_statistics w =
    (Ok tt,
     wrote (l1 ++ Print [PSeries (groupby_size year)]
               :: Print [Lit (nl ++ "=== RACE/ETHNICITY BREAKDOWN ===")]
               :: match column "race" df with
                  | Some race =>
                      map (race_line (nrows df)) (value_counts race)
                  | None => []
                  end ++ l2) w).
Proof.
  intros H Hd Hy. unfold explore_basic_statistics.
  erewrite bind_get_data by exact H. rewrite !bind_print.
  erewrite bind_getitem by exact Hd. rewrite !bind_print.
  erewrite bind_getitem by exact Hy. cbv zeta. rewrite !bind_print.
  erewrite bind_ok by apply explore_race_block.
  rewrite bind_print.
  edestruct (bind_runs (B:=unit)) as [la Ea];
    [|rewrite Ea; clear Ea]; [runs|].
  rewrite bind_print.
  match goal with
  | |- context [when ?b ?m ?w0] =>
      assert (R : runs_ok (when b m)) by runs;
      destruct (R w0) as ([] & ls & Es); rewrite Es
  end.
  rewrite !wrote_wrote. cbn [app].
  match goal with
  | |- context [wrote (?a :: ?b :: ?c :: ?d :: ?e :: _) w] =>
      exists [a; b; c; d; e]
  end.
  eexists. reflexivity.
Qed.

End ExploreFacts.

(* ------------------------------------------------------------------ *)
(** * Facts about loaded tables *)
(* ------------------------------------------------------------------ *)

Module LoadedFacts.
Import Pandas Py App Spec PandasFacts PyFacts FrameFacts LoadFacts.
Local Open Scope string_scope.

Lemma loaded_columns df :
  loaded df ->
  exists date,
    column "date" df = Some date /\
    column "year" df = Some (map year_cell date) /\
    forallb is_datetime date = true /\
    length date = nrows df.
Proof.
  intros (W & date & Hd & F & Hy). exists date.
  unfold dt_year in Hy. rewrite (dt_defined _ _ F) in Hy.
  repeat split; auto. eapply well_formed_column; eauto.
Qed.

Lemma missing_year date :
  forallb is_datetime date = true ->
  missing (map year_cell date) = missing date.
Proof.
  unfold missing. induction date as [|c t IH]; simpl; [reflexivity|].
  intros H. apply andb_true_iff in H. destruct H as [Hc Ht].
  destruct c; simpl in *; try discriminate; auto.
Qed.

(** What [load_data] leaves is a loaded table, when the file is well
    formed. *)
Lemma loads_loaded parse w df :
  loads parse w df ->
  (forall csv, csv_file w = Ok csv -> well_formed csv) ->
  loaded df.
Proof.
  intros (csv & date & parsed & year & Ef & Ed & Ep & Ey & ->) Hw.
  destruct (Hw csv Ef) as [Wl Wn].
  destruct (to_datetime_datetime _ _ _ Ep) as [F L].
  assert (Ld : length date = nrows csv)
    by (eapply well_formed_column; [split|]; eauto).
  assert (NE : "date" <> "year") by discriminate.
  assert (A : forall n v d,
             well_formed d -> length v = nrows d ->
             well_formed (assign n v d)).
  { intros n v d [Fl Nd] Lv. split.
    - unfold assign. simpl. revert Fl.
      induction (columns d) as [|[k c] t IH]; simpl; intros Fl.
      + repeat constructor. exact Lv.
      + inversion Fl. subst.
        destruct (String.eqb n k); constructor; auto.
    - unfold column_names, assign. simpl. rewrite names_set_assoc.
      destruct (existsb (String.eqb n) (map fst (columns d))) eqn:E;
        [exact Nd|].
      apply NoDup_rev in Nd.
      rewrite <- (rev_involutive (map fst (columns d) ++ [n])).
      apply NoDup_rev. rewrite rev_app_distr. simpl.
      constructor; [|exact Nd].
      rewrite <- in_rev. intros I.
      assert (T : existsb (String.eqb n) (map fst (columns d)) = true).
      { apply existsb_exists. exists n. split; [exact I|].
        apply String.eqb_refl. }
      congruence. }
  unfold dt_year in Ey. rewrite (dt_defined _ _ F) in Ey.
  inversion Ey. subst year. split.
  - apply A; [apply A; [split; auto|congruence]|].
    rewrite length_map. simpl. congruence.
  - exists parsed. split; [|split].
    + rewrite column_assign_other by exact NE. apply column_assign_same.
    + exact F.
    + rewrite column_assign_same. unfold dt_year.
      now rewrite (dt_defined _ _ F).
Qed.

End LoadedFacts.

(* ------------------------------------------------------------------ *)
(** * Facts about the yearly counts *)
(* ------------------------------------------------------------------ *)

Module YearFacts.
Import Pandas Py App Spec PandasFacts PyFacts FrameFacts.
Local Open Scope string_scope.
Local Arguments cell_eq_dec : simpl never.
Local Arguments int_cell : simpl never.

Lemma cell_leb_int a b : cell_leb (int_cell a) (int_cell b) = (a <=? b)%Z.
Proof.
  unfold int_cell, cell_leb, Q2Qc. cbn [this].
  apply Bool.eq_iff_eq_true.
  rewrite Qle_bool_iff, Z.leb_le, !Qred_correct, <- Zle_Qle. reflexivity.
Qed.

Lemma int_cell_inj a b : int_cell a = int_cell b -> a = b.
Proof.
  intros H.
  assert (E : Q2Qc (inject_Z a) = Q2Qc (inject_Z b))
    by (unfold int_cell in H; congruence).
  apply (f_equal this) in E.
  change (Qred (inject_Z a) = Qred (inject_Z b)) in E.
  assert (Q : (inject_Z a == inject_Z b)%Q).
  { rewrite <- (Qred_correct (inject_Z a)), <- (Qred_correct (inject_Z b)).
    now rewrite E. }
  unfold Qeq in Q. simpl in Q. lia.
Qed.

Lemma dropna_years date :
  dropna (map year_cell date) = map int_cell (years date).
Proof.
  unfold dropna, years, days. induction date as [|c t IH]; [reflexivity|].
  destruct c; simpl; try exact IH. now rewrite IH.
Qed.

Lemma count_year y date :
  count (int_cell y) (map year_cell date) = incidents_in_year y date.
Proof.
  unfold count, incidents_in_year, years, days.
  induction date as [|c t IH]; [reflexivity|].
  destruct c as [|q|s|d]; simpl;
    try (destruct (cell_eq_dec NA (int_cell y)); [discriminate|exact IH]).
  destruct (cell_eq_dec (int_cell (year_of d)) (int_cell y)) as [E|E].
  - apply int_cell_inj in E. rewrite E, Z.eqb_refl. simpl. now rewrite IH.
  - destruct (Z.eqb y (year_of d)) eqn:F.
    + apply Z.eqb_eq in F. subst. congruence.
    + exact IH.
Qed.

Lemma fold_min a t :
  let m := fold_right Z.min a t in
  In m (a :: t) /\ forall y, In y (a :: t) -> (m <= y)%Z.
Proof.
  induction t as [|b t [I L]]; cbn [fold_right].
  - split; [now left|]. intros y [<-|[]]. lia.
  - set (m := fold_right Z.min a t) in *. split.
    + destruct (Z.min_spec b m) as [[_ E]|[_ E]]; rewrite E.
      * right. now left.
      * destruct I as [I|I]; [now left|]. right. now right.
    + intros y [<-|[<-|Hy]].
      * specialize (L a (or_introl eq_refl)). lia.
      * lia.
      * specialize (L y (or_intror Hy)). lia.
Qed.

Lemma fold_max a t :
  let m := fold_right Z.max a t in
  In m (a :: t) /\ forall y, In y (a :: t) -> (y <= m)%Z.
Proof.
  induction t as [|b t [I L]]; cbn [fold_right].
  - split; [now left|]. intros y [<-|[]]. lia.
  - set (m := fold_right Z.max a t) in *. split.
    + destruct (Z.max_spec b m) as [[_ E]|[_ E]]; rewrite E.
      * destruct I as [I|I]; [now left|]. right. now right.
      * right. now left.
    + intros y [<-|[<-|Hy]].
      * specialize (L a (or_introl eq_refl)). lia.
      * lia.
      * specialize (L y (or_intror Hy)). lia.
Qed.

Lemma minimum_spec l :
  l <> [] -> In (minimum l) l /\ forall y, In y l -> (minimum l <= y)%Z.
Proof.
  unfold minimum. destruct l as [|a t]; [congruence|]. intros _.
  cbn [hd fold_right]. destruct (fold_min a t) as [I L].
  set (m := fold_right Z.min a t) in *. split.
  - destruct (Z.min_spec a m) as [[_ E]|[_ E]]; rewrite E;
      [now left|exact I].
  - intros y Hy. specialize (L y Hy). lia.
Qed.

Lemma maximum_spec l :
  l <> [] -> In (maximum l) l /\ forall y, In y l -> (y <= maximum l)%Z.
Proof.
  unfold maximum. destruct l as [|a t]; [congruence|]. intros _.
  cbn [hd fold_right]. destruct (fold_max a t) as [I L].
  set (m := fold_right Z.max a t) in *. split.
  - destruct (Z.max_spec a m) as [[_ E]|[_ E]]; rewrite E;
      [exact I|now left].
  - intros y Hy. specialize (L y Hy). lia.
Qed.

(** The keys of the yearly counts are the years of the data, in
    ascending order. *)
Lemma yearly_sorted date :
  StronglySorted (fun a b => key_le a b = true)
                 (groupby_size (map year_cell date)).
Proof.
  unfold groupby_size. rewrite dropna_years.
  apply (@sort_by_sorted nat key_le
           (fun x => exists y, fst x = int_cell y)).
  - intros x z [a Ha] [b Hb]. unfold key_le.
    rewrite Ha, Hb, !cell_leb_int, !Z.leb_le. lia.
  - intros x y z [a Ha] [b Hb] [c Hc]. unfold key_le.
    rewrite Ha, Hb, Hc, !cell_leb_int, !Z.leb_le. lia.
  - apply Forall_forall. intros [k n] I. cbn [fst].
    assert (Ik : In k (index (tally (map int_cell (years date)))))
      by (apply in_map_iff; exists (k, n); split; [reflexivity|exact I]).
    apply (proj1 (In_index_tally _ _)) in Ik. apply in_map_iff in Ik.
    destruct Ik as (y0 & E & _). exists y0. now symmetry.
Qed.

Lemma yearly_entry k n date :
  In (k, n) (groupby_size (map year_cell date)) <->
  exists y, k = int_cell y /\ In y (years date) /\
            n = incidents_in_year y date.
Proof.
  rewrite groupby_size_counted, counted_entry. split.
  - intros (Hk & Hn & Hp).
    assert (I : In k (map year_cell date)).
    { apply (count_occ_In cell_eq_dec). unfold count in Hn. lia. }
    assert (I' : In k (dropna (map year_cell date))).
    { apply filter_In. split; assumption. }
    rewrite dropna_years in I'. apply in_map_iff in I'.
    destruct I' as (y & <- & Iy). exists y. split; [reflexivity|].
    split; [exact Iy|]. rewrite Hn. apply count_year.
  - intros (y & -> & Iy & ->). split; [reflexivity|].
    rewrite count_year. split; [reflexivity|].
    unfold incidents_in_year.
    assert (I : In y (filter (Z.eqb y) (years date))).
    { apply filter_In. split; [exact Iy|apply Z.eqb_refl]. }
    destruct (filter (Z.eqb y) (years date)); [contradiction|simpl; lia].
Qed.

Lemma sorted_last {A} (R : A -> A -> Prop) l x :
  StronglySorted R (l ++ [x]) -> forall y, In y l -> R y x.
Proof.
  induction l as [|a l IH]; simpl; intros S y Hy; [contradiction|].
  inversion S as [|? ? S1 S2]. subst. destruct Hy as [<-|Hy].
  - rewrite Forall_forall in S2. apply S2, in_or_app. right. now left.
  - now apply IH.
Qed.

(** The first and the last of the yearly counts are those of the
    earliest and of the latest year. *)
Lemma yearly_ends date :
  years date <> [] ->
  let s := groupby_size (map year_cell date) in
  hd_error s =
    Some (int_cell (minimum (years date)),
          incidents_in_year (minimum (years date)) date) /\
  hd_error (rev s) =
    Some (int_cell (maximum (years date)),
          incidents_in_year (maximum (years date)) date).
Proof.
  intros N s. assert (S := yearly_sorted date). fold s in S.
  destruct (minimum_spec _ N) as [Imin Lmin].
  destruct (maximum_spec _ N) as [Imax Lmax].
  assert (Emin : In (int_cell (minimum (years date)),
                     incidents_in_year (minimum (years date)) date) s).
  { apply yearly_entry. eauto. }
  assert (Emax : In (int_cell (maximum (years date)),
                     incidents_in_year (maximum (years date)) date) s).
  { apply yearly_entry. eauto. }
  assert (K : forall k n y m, In (k, n) s -> k = int_cell y ->
              In y (years date) -> n = incidents_in_year y date ->
              m = y -> (k, n) = (int_cell m, incidents_in_year m date)).
  { intros. subst. reflexivity. }
  split.
  - destruct s as [|[k n] t] eqn:Es; [contradiction|]. cbn [hd_error].
    f_equal.
    assert (Ik : In (k, n) s) by (rewrite Es; now left).
    apply yearly_entry in Ik. destruct Ik as (y & -> & Iy & ->).
    assert (y = minimum (years date)); [|now subst].
    apply Z.le_antisymm; [|now apply Lmin].
    inversion S as [|? ? S1 S2]. subst.
    destruct Emin as [E|E].
    + assert (E' : int_cell y = int_cell (minimum (years date)))
        by congruence.
      apply int_cell_inj in E'. lia.
    + rewrite Forall_forall in S2. specialize (S2 _ E).
      unfold key_le in S2. cbn [fst] in S2.
      rewrite cell_leb_int in S2. now apply Z.leb_le.
  - destruct (exists_last (l:=s)) as (l & [k n] & El).
    { intros E. rewrite E in Emax. contradiction. }
    rewrite El, rev_app_distr. cbn [rev app hd_error]. f_equal.
    assert (Ik : In (k, n) s) by (rewrite El; apply in_or_app; right; now left).
    apply yearly_entry in Ik. destruct Ik as (y & -> & Iy & ->).
    assert (y = maximum (years date)); [|now subst].
    apply Z.le_antisymm; [now apply Lmax|].
    rewrite El in S, Emax. apply in_app_or in Emax.
    destruct Emax as [E|[E|[]]].
    + apply (sorted_last _ _ _ S) in E. unfold key_le in E.
      cbn [fst] in E. rewrite cell_leb_int in E. now apply Z.leb_le.
    + assert (E' : int_cell y = int_cell (maximum (years date)))
        by congruence.
      apply int_cell_inj in E'. lia.
Qed.

End YearFacts.

(* ------------------------------------------------------------------ *)
(** * Facts about generate_summary_report *)
(* ------------------------------------------------------------------ *)

Module ReportFacts.
Import Pandas Py App Spec PandasFacts PyFacts FrameFacts RunFacts.
Import LoadFacts LoadedFacts YearFacts.
Local Open Scope string_scope.

Lemma contains_here run after : contains_run run (run ++ after)%list.
Proof. now exists [], after. Qed.

Lemma contains_cons run e out :
  contains_run run out -> contains_run run (e :: out).
Proof. intros (b & a & ->). now exists (e :: b), a. Qed.

Lemma contains_app run l out :
  contains_run run out -> contains_run run (l ++ out)%list.
Proof.
  intros (b & a & ->). exists (l ++ b)%list, a. now rewrite <- app_assoc.
Qed.

Lemma contains_In run out e : contains_run run out -> In e run -> In e out.
Proof.
  intros (b & a & ->) I. apply in_or_app. right. apply in_or_app. now left.
Qed.

Lemma contains_prefix run out after :
  out = (run ++ after)%list -> contains_run run out.
Proof. intros ->. apply contains_here. Qed.

Ltac find_run :=
  repeat first
    [ solve [eapply contains_prefix; cbn [app]; reflexivity]
    | apply contains_cons
    | apply contains_app ].

Lemma runs_expect {A} e (o : option A) a : o = Some a -> runs_ok (expect e o).
Proof. intros ->. apply runs_ret. Qed.

(** The smallest and the largest of a column are cells of the column. *)
Lemma cell_min_In col : dropna col <> [] -> In (cell_min col) (dropna col).
Proof.
  unfold cell_min. assert (N : forall c, In c (dropna col) -> isna c = false).
  { intros c I. apply filter_In in I. destruct I as [_ I].
    unfold notna in I. now destruct (isna c). }
  revert N. induction (dropna col) as [|c t IH]; intros N H; [congruence|].
  cbn [fold_right]. destruct t as [|c' t'].
  - cbn [fold_right isna]. now left.
  - assert (I : In (fold_right
                     (fun c m => if isna m then c
                                 else if cell_leb c m then c else m)
                     NA (c' :: t')) (c' :: t')).
    { apply IH; [|discriminate]. intros x Hx. apply N. now right. }
    set (m := fold_right _ NA (c' :: t')) in *.
    rewrite (N m) by now right.
    destruct (cell_leb c m); [now left|now right].
Qed.

Lemma cell_max_In col : dropna col <> [] -> In (cell_max col) (dropna col).
Proof.
  unfold cell_max. assert (N : forall c, In c (dropna col) -> isna c = false).
  { intros c I. apply filter_In in I. destruct I as [_ I].
    unfold notna in I. now destruct (isna c). }
  revert N. induction (dropna col) as [|c t IH]; intros N H; [congruence|].
  cbn [fold_right]. destruct t as [|c' t'].
  - cbn [fold_right isna]. now left.
  - assert (I : In (fold_right
                     (fun c m => if isna m then c
                                 else if cell_leb m c then c else m)
                     NA (c' :: t')) (c' :: t')).
    { apply IH; [|discriminate]. intros x Hx. apply N. now right. }
    set (m := fold_right _ NA (c' :: t')) in *.
    rewrite (N m) by now right.
    destruct (cell_leb m c); [now left|now right].
Qed.

Lemma dropna_days date :
  forallb is_datetime date = true -> dropna date = map TS (days date).
Proof.
  unfold dropna, days. induction date as [|c t IH]; [reflexivity|].
  cbn [forallb]. intros H. apply andb_true_iff in H. destruct H as [Hc Ht].
  destruct c; try discriminate; cbn; now rewrite IH.
Qed.

Lemma years_days date : years date <> [] <-> days date <> [].
Proof. unfold years. now destruct (days date). Qed.

Lemma date_ends date :
  forallb is_datetime date = true -> years date <> [] ->
  exists dmin dmax, cell_min date = TS dmin /\ cell_max date = TS dmax.
Proof.
  intros F N. apply years_days in N.
  assert (D : dropna date <> []).
  { rewrite (dropna_days _ F). now destruct (days date). }
  assert (Imin := cell_min_In _ D). assert (Imax := cell_max_In _ D).
  rewrite (dropna_days _ F) in Imin, Imax.
  apply in_map_iff in Imin, Imax.
  destruct Imin as (a & <- & _). destruct Imax as (b & <- & _). eauto.
Qed.

Lemma nunique_years date :
  years date <> [] -> (nunique (map year_cell date) =? 0)%nat = false.
Proof.
  intros N. apply Nat.eqb_neq. unfold nunique. rewrite dropna_years.
  destruct (years date) as [|y t] eqn:E; [congruence|].
  assert (I : In (int_cell y) (index (tally (map int_cell (y :: t)))))
    by (apply In_index_tally; now left).
  destruct (tally (map int_cell (y :: t))); [contradiction|discriminate].
Qed.

Lemma idxmax_some s : s <> [] -> exists item, idxmax s = Some item.
Proof.
  destruct s as [|[k v] t]; [congruence|]. intros _. cbn [idxmax].
  destruct (idxmax t) as [[k' v']|]; [|eauto].
  destruct (v' <=? v)%nat; eauto.
Qed.

Lemma idxmin_some s : s <> [] -> exists item, idxmin s = Some item.
Proof.
  destruct s as [|[k v] t]; [congruence|]. intros _. cbn [idxmin].
  destruct (idxmin t) as [[k' v']|]; [|eauto].
  destruct (v <=? v')%nat; eauto.
Qed.

Lemma hd_error_values {A} (s : Series A) :
  hd_error (values s) = option_map snd (hd_error s).
Proof. now destruct s. Qed.

Lemma rev_values {A} (s : Series A) : rev (values s) = values (rev s).
Proof. unfold values. symmetry. apply map_rev. Qed.

(** generate_summary_report on a loaded table that has a dated row and
    no text in the 'age' column. *)
Lemma report_run w df date :
  holding df w ->
  column "date" df = Some date ->
  column "year" df = Some (map year_cell date) ->
  forallb is_datetime date = true ->
  years date <> [] -> age_numeric df ->
  let yearly_trend := groupby_size (map year_cell date) in
  let first := incidents_in_year (minimum (years date)) date in
  let last := incidents_in_year (maximum (years date)) date in
  exists hi lo out,
    idxmax yearly_trend = Some hi /\ idxmin yearly_trend = Some lo /\
    generate_summary_report w = (Ok tt, wrote out w) /\
    contains_run [highest_line hi; lowest_line lo;
                  trend_line (trend_change first last)] out.
Proof.
  intros H Hd Hy F N A s first last.
  destruct (date_ends date F N) as (dmin & dmax & Emin & Emax).
  destruct (yearly_ends date N) as [Eh El]. fold s in Eh, El.
  assert (Ns : s <> []) by (intros E; rewrite E in Eh; discriminate).
  destruct (idxmax_some s Ns) as [hi Ehi].
  destruct (idxmin_some s Ns) as [lo Elo].
  exists hi, lo.
  unfold generate_summary_report.
  erewrite bind_get_data by exact H. rewrite !bind_print.
  erewrite bind_getitem by exact Hy. cbv zeta.
  rewrite (nunique_years date N), bind_ret, !bind_print.
  erewrite bind_getitem by exact Hd. rewrite Emin. cbn [strftime].
  rewrite bind_ret.
  erewrite bind_getitem by exact Hd. rewrite Emax. cbn [strftime].
  rewrite bind_ret, bind_print.
  edestruct (bind_runs (B:=unit)) as [lr Er];
    [|rewrite Er; clear Er]; [runs|].
  edestruct (bind_runs (B:=unit)) as [la Ea]; [|rewrite Ea; clear Ea].
  { apply runs_when_column. intros age Ha. specialize (A age Ha).
    cbv zeta. unfold describe. rewrite A.
    runs; eapply runs_expect; reflexivity. }
  edestruct (bind_runs (B:=unit)) as [lt Et];
    [|rewrite Et; clear Et]; [runs|].
  erewrite bind_getitem by exact Hy. cbv zeta. fold s.
  rewrite rev_values, !hd_error_values, Eh, El. cbn [option_map snd].
  erewrite !bind_expect by reflexivity. fold first. fold last.
  rewrite bind_print. rewrite (@bind_expect _ _ _ _ _ _ _ Ehi).
  rewrite bind_print. rewrite (@bind_expect _ _ _ _ _ _ _ Elo).
  rewrite !bind_print, print_run, !wrote_wrote.
  eexists. split; [exact Ehi|]. split; [exact Elo|].
  split; [reflexivity|]. cbn [app].
  unfold highest_line, lowest_line, trend_line. find_run.
Qed.

End ReportFacts.

(* ------------------------------------------------------------------ *)
(** * Facts about analyze_temporal_trends *)
(* ------------------------------------------------------------------ *)

Module TemporalFacts.
Import Pandas Py App Spec PandasFacts PyFacts FrameFacts RunFacts.
Import LoadFacts LoadedFacts YearFacts ReportFacts.
Local Open Scope string_scope.
Local Arguments cell_eq_dec : simpl never.
Local Arguments int_cell : simpl never.

Lemma wrote_with_data l df w :
  wrote l (with_data df w) = with_data df (wrote l w).
Proof. reflexivity. Qed.

Lemma with_data_twice d1 d2 w : with_data d2 (with_data d1 w) = with_data d2 w.
Proof. reflexivity. Qed.

Lemma holding_with_data df w : holding df (with_data df w).
Proof. reflexivity. Qed.

Lemma numeric_dropna col : numeric (dropna col) = numeric col.
Proof.
  unfold numeric, dropna. induction col as [|c t IH]; [reflexivity|].
  destruct c; simpl; auto.
Qed.

(** Looking up the weekday names in the day counts. *)
Lemma getitem_days names date :
  let s := value_counts (map day_cell date) in
  match first_missing_day names date with
  | Some name => getitem_list (map Str names) s = inl (Str name)
  | None =>
      getitem_list (map Str names) s =
      inr (map (fun name => (Str name, incidents_on name date)) names)
  end.
Proof.
  intros s.
  assert (C : forall name, count (Str name) (map day_cell date) =
                           incidents_on name date).
  { intros name. unfold count, incidents_on, days.
    induction date as [|c t IH]; [reflexivity|].
    destruct c as [|q|x|d]; simpl;
      try (destruct (cell_eq_dec NA (Str name)); [discriminate|exact IH]).
    destruct (cell_eq_dec (Str (day_name d)) (Str name)) as [E|E].
    - assert (E' : day_name d = name) by congruence.
      rewrite E', String.eqb_refl. simpl. now rewrite IH.
    - destruct (String.eqb (day_name d) name) eqn:G; [|exact IH].
      apply String.eqb_eq in G. congruence. }
  assert (L : forall name,
             lookup (Str name) s =
             if (incidents_on name date =? 0)%nat then None
             else Some (incidents_on name date)).
  { intros name. assert (G := counted_get count_ge (Str name) (map day_cell date)).
    rewrite count_dropna, C in G by reflexivity. unfold get in G.
    change (counted count_ge (map day_cell date)) with s in G.
    destruct (lookup (Str name) s) as [n|] eqn:E.
    - apply lookup_In in E. unfold s in E.
      rewrite value_counts_counted in E. apply counted_entry in E.
      destruct E as (_ & _ & P). rewrite <- G.
      destruct n; [lia|reflexivity].
    - now rewrite <- G. }
  unfold first_missing_day. induction names as [|name t IH]; [reflexivity|].
  cbn [find map getitem_list]. rewrite L.
  destruct (incidents_on name date =? 0)%nat; [reflexivity|].
  destruct (find _ t); now rewrite IH.
Qed.

(** How analyze_temporal_trends ends on a table with a datetime
    'date' column and a 'year' column. *)
Lemma temporal_run w df date year :
  holding df w ->
  column "date" df = Some date -> column "year" df = Some year ->
  forallb is_datetime date = true ->
  let df1 := assign "month" (map month_cell date) df in
  let df2 := assign "day_of_week" (map day_cell date) df1 in
  match month_bars date with
  | None =>
      exists out,
        analyze_temporal_trends w =
        (Raise shape_mismatch, with_data df1 (wrote out w))
  | Some mbars =>
      match first_missing_day day_order date with
      | Some name =>
          exists out,
            analyze_temporal_trends w =
            (Raise (KeyError (Str name)), with_data df2 (wrote out w))
      | None =>
          match column "age" df with
          | Some age =>
              if numeric age then temporal_done w df2 mbars date
              else
                exists out,
                  analyze_temporal_trends w =
                  (Raise (TypeError "Could not convert string to numeric"),
                   with_data df2 (wrote out w))
          | None => temporal_done w df2 mbars date
          end
      end
  end.
Proof.
  intros H Hd Hy F df1 df2.
  assert (Hd1 : column "date" df1 = Some date).
  { unfold df1. rewrite column_assign_other; [exact Hd|discriminate]. }
  assert (Ha2 : column "age" df2 = column "age" df).
  { unfold df2, df1. rewrite !column_assign_other; [reflexivity| |];
      discriminate. }
  assert (Hh2 : has_column "age" df2 =
                match column "age" df with Some _ => true | None => false end).
  { destruct (column "age" df) as [age|] eqn:E.
    - apply has_column_some. rewrite Ha2. eauto.
    - destruct (has_column "age" df2) eqn:G; [|reflexivity].
      apply has_column_some in G. destruct G as [c G]. congruence. }
  unfold temporal_done, analyze_temporal_trends.
  erewrite bind_get_data by exact H. rewrite bind_emit.
  erewrite bind_getitem by exact Hy. cbv zeta. rewrite bind_draw.
  erewrite bind_getitem by exact Hd.
  unfold dt_month. rewrite (dt_defined _ _ F).
  erewrite bind_expect by reflexivity.
  fold month_cell. erewrite bind_setcolumn by exact H. fold df1.
  erewrite bind_getitem by apply column_assign_same. cbv zeta.
  fold (month_bars date). rewrite wrote_wrote.
  destruct (month_bars date) as [mbars|].
  2:{ eexists. reflexivity. }
  erewrite bind_expect by reflexivity. rewrite bind_draw.
  erewrite bind_getitem by exact Hd1.
  unfold dt_day_name. rewrite (dt_defined _ _ F).
  erewrite bind_expect by reflexivity.
  fold day_cell. erewrite bind_setcolumn by reflexivity. fold df2.
  erewrite bind_getitem by apply column_assign_same.
  assert (G := getitem_days day_order date). cbv zeta in G.
  rewrite !wrote_with_data, !with_data_twice, !wrote_wrote.
  destruct (first_missing_day day_order date) as [name|]; rewrite G.
  - rewrite bind_raise. eexists. reflexivity.
  - rewrite bind_ret. cbv beta.
    replace (broadcast (range 0 7)
               (map Qnat
                  (values
                     (map (fun name => (Str name, incidents_on name date))
                          day_order))))
      with (Some (day_bars date)) by reflexivity.
    erewrite bind_expect by reflexivity. rewrite bind_draw.
    rewrite Hh2, !wrote_with_data, !wrote_wrote.
    destruct (column "age" df) as [age|] eqn:Ea.
    + rewrite when_true. rewrite bind_assoc.
      erewrite bind_getitem by (rewrite Ha2; reflexivity).
      cbv zeta. rewrite numeric_dropna.
      destruct (numeric age); cbv beta iota.
      * repeat first [rewrite bind_assoc | rewrite bind_draw].
        cbv beta. rewrite emit_run.
        rewrite !wrote_with_data, !wrote_wrote.
        eexists. split; [reflexivity|]. cbn [app].
        split; repeat (first [left; reflexivity | right]).
      * rewrite bind_raise. eexists. reflexivity.
    + rewrite when_false, bind_ret. cbv beta. rewrite emit_run.
      rewrite !wrote_with_data, !wrote_wrote.
      eexists. split; [reflexivity|]. cbn [app].
      split; repeat (first [left; reflexivity | right]).
Qed.

End TemporalFacts.

(* ------------------------------------------------------------------ *)
(** * Facts about the monthly counts *)
(* ------------------------------------------------------------------ *)

Module MonthFacts.
Import Pandas Py App Spec PandasFacts PyFacts FrameFacts RunFacts.
Import LoadFacts LoadedFacts YearFacts ReportFacts TemporalFacts.
Local Open Scope string_scope.
Local Arguments cell_eq_dec : simpl never.
Local Arguments int_cell : simpl never.

Lemma month_index_range doe :
  (0 <= doe < 146097 -> 0 <= month_index doe <= 11)%Z.
Proof.
  intros H. unfold month_index, day_of_year, year_of_era.
  Z.to_euclidean_division_equations; lia.
Qed.

(** [dt.month] is a month number. *)
Lemma month_of_range d : (1 <= month_of d <= 12)%Z.
Proof.
  unfold month_of.
  assert (H : (0 <= day_of_era d < 146097)%Z)
    by (unfold day_of_era; apply Z.mod_pos_bound; lia).
  apply month_index_range in H.
  destruct (month_index (day_of_era d) <? 10)%Z eqn:E.
  - apply Z.ltb_lt in E. lia.
  - apply Z.ltb_ge in E. lia.
Qed.

(** [dt.day_name()] is one of the seven names. *)
Lemma day_name_in d : In (day_name d) day_order.
Proof.
  unfold day_name, weekday.
  assert (H : (0 <= (d + 3) mod 7 < 7)%Z) by (apply Z.mod_pos_bound; lia).
  set (n := ((d + 3) mod 7)%Z) in *.
  assert (C : (n = 0 \/ n = 1 \/ n = 2 \/ n = 3 \/ n = 4 \/ n = 5 \/ n = 6)%Z)
    by lia.
  destruct C as [ -> | [ -> | [ -> | [ -> | [ -> | [ -> | -> ] ] ] ] ] ];
    cbn; tauto.
Qed.

Lemma dropna_months date :
  dropna (map month_cell date) = map int_cell (map month_of (days date)).
Proof.
  unfold dropna, days. induction date as [|c t IH]; [reflexivity|].
  destruct c; simpl; try exact IH. now rewrite IH.
Qed.

Lemma count_month m date :
  count (int_cell m) (map month_cell date) = incidents_in_month m date.
Proof.
  unfold count, incidents_in_month, days.
  induction date as [|c t IH]; [reflexivity|].
  destruct c as [|q|s|d]; simpl;
    try (destruct (cell_eq_dec NA (int_cell m)); [discriminate|exact IH]).
  destruct (cell_eq_dec (int_cell (month_of d)) (int_cell m)) as [E|E].
  - apply int_cell_inj in E. rewrite E, Z.eqb_refl. simpl. now rewrite IH.
  - destruct (Z.eqb (month_of d) m) eqn:G.
    + apply Z.eqb_eq in G. subst. congruence.
    + exact IH.
Qed.

(** The entries of the monthly counts. *)
Lemma monthly_entry k n date :
  In (k, n) (groupby_size (map month_cell date)) <->
  exists m, k = int_cell m /\ (1 <= m <= 12)%Z /\
            n = incidents_in_month m date /\ 1 <= n.
Proof.
  rewrite groupby_size_counted, counted_entry. split.
  - intros (Hk & Hn & Hp).
    assert (I : In k (dropna (map month_cell date))).
    { apply filter_In. split; [|exact Hk].
      apply (count_occ_In cell_eq_dec). unfold count in Hn. lia. }
    rewrite dropna_months in I. apply in_map_iff in I.
    destruct I as (m & <- & Im). apply in_map_iff in Im.
    destruct Im as (d & <- & _). exists (month_of d).
    split; [reflexivity|]. split; [apply month_of_range|].
    rewrite <- count_month. auto.
  - intros (m & -> & _ & -> & P). split; [reflexivity|].
    now rewrite count_month.
Qed.

Lemma in_month_numbers m : In m month_numbers <-> (1 <= m <= 12)%Z.
Proof.
  unfold month_numbers. rewrite in_map_iff. split.
  - intros (n & <- & I). apply in_seq in I. lia.
  - intros H. exists (Z.to_nat m). split; [lia|]. apply in_seq. lia.
Qed.

Lemma NoDup_month_numbers : NoDup month_numbers.
Proof.
  unfold month_numbers. apply Finite.Injective_map_NoDup.
  - intros a b. apply Nat2Z.inj.
  - apply seq_NoDup.
Qed.

(** The monthly counts have one entry for each month present. *)
Lemma monthly_length date :
  length (groupby_size (map month_cell date)) = months_present date.
Proof.
  unfold months_present. fold month_numbers.
  set (present := filter (fun m => negb (incidents_in_month m date =? 0)%nat)
                         month_numbers).
  rewrite <- (length_map fst). fold (index (groupby_size (map month_cell date))).
  rewrite <- (length_map int_cell present).
  apply Permutation_length, NoDup_Permutation.
  - rewrite groupby_size_counted. apply counted_NoDup.
  - apply Finite.Injective_map_NoDup.
    + intros a b. apply int_cell_inj.
    + apply NoDup_filter, NoDup_month_numbers.
  - intros k. split.
    + intros I. apply in_map_iff in I. destruct I as ([k' n] & <- & I).
      apply monthly_entry in I. destruct I as (m & -> & R & -> & P).
      cbn [fst]. apply in_map. apply filter_In.
      split; [now apply in_month_numbers|].
      destruct (incidents_in_month m date); [lia|reflexivity].
    + intros I. apply in_map_iff in I. destruct I as (m & <- & I).
      apply filter_In in I. destruct I as [R P].
      apply in_month_numbers in R. apply in_map_iff.
      exists (int_cell m, incidents_in_month m date). split; [reflexivity|].
      apply monthly_entry. exists m. repeat split; try lia.
      destruct (incidents_in_month m date); [discriminate|lia].
Qed.

Lemma cell_int_int m : cell_int (int_cell m) = m.
Proof.
  unfold cell_int, int_cell, Q2Qc. cbn [this].
  rewrite (Qfloor_comp _ _ (Qred_correct (inject_Z m))). apply Qfloor_Z.
Qed.

(** A strictly increasing list of integers between [a] and [b]. *)
Lemma increasing_length l : forall a b,
  StronglySorted Z.lt l -> Forall (fun x => (a <= x <= b)%Z) l ->
  (Z.of_nat (length l) <= Z.max 0 (b - a + 1))%Z.
Proof.
  induction l as [|x t IH]; intros a b S F; [simpl; lia|].
  inversion S as [|? ? S1 S2]. inversion F as [|? ? F1 F2]. subst.
  assert (G : Forall (fun y => (x + 1 <= y <= b)%Z) t).
  { rewrite Forall_forall in *. intros y Hy.
    specialize (S2 y Hy). specialize (F2 y Hy). lia. }
  specialize (IH (x + 1)%Z b S1 G). cbn [length]. lia.
Qed.

Lemma increasing_full l : forall a n,
  StronglySorted Z.lt l ->
  Forall (fun x => (a <= x <= a + Z.of_nat n - 1)%Z) l ->
  length l = n ->
  l = map (fun i => (a + Z.of_nat i)%Z) (seq 0 n).
Proof.
  induction l as [|x t IH]; intros a n St F L.
  - simpl in L. now subst.
  - destruct n as [|n]; [discriminate|]. cbn [length] in L.
    inversion St as [|? ? S1 S2]. inversion F as [|? ? F1 F2]. subst.
    assert (G : Forall (fun y => (x + 1 <= y <= a + Z.of_nat (S n) - 1)%Z) t).
    { rewrite Forall_forall in *. intros y Hy.
      specialize (S2 y Hy). specialize (F2 y Hy). lia. }
    assert (B := increasing_length t _ _ S1 G).
    assert (x = a) by lia. subst x.
    cbn [seq map]. f_equal; [lia|].
    rewrite <- seq_shift, map_map.
    rewrite (IH (a + 1)%Z n S1).
    + apply map_ext. intros i. lia.
    + rewrite Forall_forall in *. intros y Hy. specialize (G y Hy). lia.
    + lia.
Qed.

Lemma monthly_sorted date :
  StronglySorted (fun a b => key_le a b = true)
                 (groupby_size (map month_cell date)).
Proof.
  unfold groupby_size. rewrite dropna_months.
  apply (@sort_by_sorted nat key_le
           (fun x => exists y, fst x = int_cell y)).
  - intros x z [a Ha] [b Hb]. unfold key_le.
    rewrite Ha, Hb, !cell_leb_int, !Z.leb_le. lia.
  - intros x y z [a Ha] [b Hb] [c Hc]. unfold key_le.
    rewrite Ha, Hb, Hc, !cell_leb_int, !Z.leb_le. lia.
  - apply Forall_forall. intros [k n] I. cbn [fst].
    assert (Ik : In k (index (tally (map int_cell
                                       (map month_of (days date))))))
      by (apply in_map_iff; exists (k, n); split; [reflexivity|exact I]).
    apply (proj1 (In_index_tally _ _)) in Ik. apply in_map_iff in Ik.
    destruct Ik as (y0 & E & _). exists y0. now symmetry.
Qed.

(** With all twelve months present the monthly counts are those of
    January to December, in this order. *)
Lemma monthly_full date :
  months_present date = 12 ->
  groupby_size (map month_cell date) =
  map (fun m => (int_cell m, incidents_in_month m date)) month_numbers.
Proof.
  intros H. rewrite <- monthly_length in H.
  set (s := groupby_size (map month_cell date)) in *.
  assert (E : forall e, In e s ->
              e = (int_cell (cell_int (fst e)),
                   incidents_in_month (cell_int (fst e)) date) /\
              (1 <= cell_int (fst e) <= 12)%Z).
  { intros [k n] I. apply monthly_entry in I.
    destruct I as (m & -> & R & -> & _). cbn [fst].
    rewrite cell_int_int. auto. }
  assert (K : map (fun e => cell_int (fst e)) s = month_numbers).
  { unfold month_numbers.
    rewrite (increasing_full (map (fun e => cell_int (fst e)) s) 1 12).
    - rewrite <- seq_shift, map_map. apply map_ext. intros i. lia.
    - assert (S := monthly_sorted date). fold s in S.
      assert (N : NoDup (index s))
        by (unfold s; rewrite groupby_size_counted; apply counted_NoDup).
      clear H. induction s as [|e t IH]; [constructor|].
      inversion S as [|? ? S1 S2]. inversion N as [|? ? N1 N2]. subst.
      cbn [map]. constructor.
      + apply IH; auto. intros x Hx. apply E. now right.
      + apply Forall_forall. intros y Hy. apply in_map_iff in Hy.
        destruct Hy as (x & <- & Hx).
        rewrite Forall_forall in S2. specialize (S2 x Hx).
        destruct (E e (or_introl eq_refl)) as [Ee _].
        destruct (E x (or_intror Hx)) as [Ex _].
        unfold key_le in S2. rewrite Ee, Ex in S2. cbn [fst] in S2.
        rewrite cell_leb_int in S2. apply Z.leb_le in S2.
        assert (cell_int (fst e) <> cell_int (fst x)); [|lia].
        intros C. apply N1. apply in_map_iff. exists x.
        split; [|exact Hx]. rewrite Ee, Ex. cbn [fst]. now rewrite C.
    - apply Forall_forall. intros y Hy. apply in_map_iff in Hy.
      destruct Hy as (x & <- & Hx). destruct (E x Hx) as [_ R]. lia.
    - now rewrite length_map. }
  rewrite <- K, map_map. rewrite <- (map_id s) at 1.
  apply map_ext_in. intros e I. now destruct (E e I).
Qed.

(** How the monthly bars come out. *)
Lemma month_bars_cases date :
  month_bars date =
  if (months_present date =? 12)%nat
  then Some (combine (range 1 13)
                     (map (fun m => Qnat (incidents_in_month m date))
                          month_numbers))
  else if (months_present date =? 1)%nat
       then Some (map (fun x => (x, Qnat (length (days date))))
                      (range 1 13))
       else None.
Proof.
  unfold month_bars.
  set (s := groupby_size (map month_cell date)).
  assert (L : length (map Qnat (values s)) = months_present date).
  { unfold values. rewrite !length_map. apply monthly_length. }
  destruct (months_present date =? 12)%nat eqn:E12.
  - apply Nat.eqb_eq in E12. unfold s. rewrite (monthly_full date E12).
    unfold values. rewrite !map_map. reflexivity.
  - destruct (months_present date =? 1)%nat eqn:E1.
    + apply Nat.eqb_eq in E1. rewrite E1 in L.
      assert (T : total s = length (days date)).
      { unfold s. rewrite groupby_size_counted, counted_total.
        rewrite dropna_months, !length_map. reflexivity. }
      destruct s as [|[k n] [|e t]]; try discriminate.
      unfold total, values in T. cbn in T. rewrite Nat.add_0_r in T.
      subst n. reflexivity.
    + apply Nat.eqb_neq in E12, E1. unfold broadcast.
      replace (length (range 1 13)) with 12 by reflexivity.
      rewrite L. apply Nat.eqb_neq in E12. rewrite Nat.eqb_sym, E12.
      destruct (map Qnat (values s)) as [|h [|h' t]]; try reflexivity.
      simpl in L. congruence.
Qed.

End MonthFacts.

(* ------------------------------------------------------------------ *)
(** * Facts about the race comparison *)
(* ------------------------------------------------------------------ *)

Module DemographicRun.
Import Pandas Py App Spec.
Import PandasFacts PyFacts FrameFacts RunFacts DemographicFacts.
Import LoadFacts LoadedFacts YearFacts ReportFacts TemporalFacts.
Local Open Scope string_scope.

Lemma broadcast_same {A B} (xs : list A) (hs : list B) :
  length xs = length hs -> broadcast xs hs = Some (combine xs hs).
Proof. intros E. unfold broadcast. now rewrite E, Nat.eqb_refl. Qed.

Lemma length_range n : length (range 0 n) = n.
Proof. unfold range. now rewrite length_map, length_seq, Nat.sub_0_r. Qed.

(** The comparison table is empty exactly when no race code of the
    data is in the population table. *)
Lemma comparison_empty race :
  comparison_data (value_counts race) = [] <-> some_race_known race = false.
Proof.
  unfold some_race_known.
  assert (R := comparison_races (value_counts race)
                 (index (value_counts race)) (fun k H => H)).
  fold (comparison_data (value_counts race)) in R.
  split.
  - intros E. rewrite E in R. simpl in R.
    destruct (existsb _ race) eqn:X; [|reflexivity].
    apply existsb_exists in X. destruct X as (k & I & D).
    assert (Ik : In k (filter (fun k => dict_has k us_population_race)
                              (index (value_counts race)))).
    { apply filter_In. split; [|exact D].
      rewrite value_counts_counted. apply counted_index.
      apply filter_In. split; [exact I|]. now destruct k. }
    rewrite <- R in Ik. contradiction.
  - intros X.
    destruct (comparison_data (value_counts race)) as [|row t] eqn:E;
      [reflexivity|].
    exfalso. simpl in R.
    assert (Ik : In (Race row)
                   (filter (fun k => dict_has k us_population_race)
                           (index (value_counts race))))
      by (rewrite <- R; now left).
    apply filter_In in Ik. destruct Ik as [Ik D].
    rewrite value_counts_counted in Ik. apply counted_index in Ik.
    apply filter_In in Ik. destruct Ik as [Ik _].
    assert (T : existsb (fun k => dict_has k us_population_race) race = true)
      by (apply existsb_exists; eauto).
    congruence.
Qed.

(** The sizes of the race pie add up to the number of rows with a
    race. *)
Lemma pie_sizes col :
  fold_right Nat.add 0 (values (value_counts col)) = length (dropna col).
Proof.
  fold (total (value_counts col)).
  rewrite value_counts_counted. apply counted_total.
Qed.

Lemma known_race_counted race :
  some_race_known race = true -> dropna race <> [].
Proof.
  unfold some_race_known. intros K. apply existsb_exists in K.
  destruct K as (k & I & D).
  assert (J : In k (dropna race)).
  { apply filter_In. split; [exact I|]. now destruct k. }
  intros E. rewrite E in J. contradiction.
Qed.

(** How analyze_demographic_patterns ends. *)
Lemma demographic_run w df :
  holding df w ->
  match column "race" df with
  | Some race =>
      let table := comparison_data (value_counts race) in
      if some_race_known race then
        exists out,
          analyze_demographic_patterns w = (Ok tt, wrote out w) /\
          In (Draw 0 1 (Bar (combine (comparison_x (length table)
                                                   (- (0.35 / 2)))
                                     (map Shooting_Rate table)))) out /\
          In (Draw 0 1 (Bar (combine (comparison_x (length table) (0.35 / 2))
                                     (map Population_Rate table)))) out
      else
        match dropna race with
        | [] =>
            analyze_demographic_patterns w =
            (Raise (ValueError "All wedge sizes are zero"),
             wrote [Subplots 2 2] w)
        | _ :: _ =>
            exists out,
              analyze_demographic_patterns w =
              (Raise (KeyError (Str "Shooting_Rate")), wrote out w)
        end
  | None => exists out, analyze_demographic_patterns w = (Ok tt, wrote out w)
  end.
Proof.
  intros H. unfold analyze_demographic_patterns.
  erewrite bind_get_data by exact H. rewrite bind_emit.
  destruct (column "race" df) as [race|] eqn:Er.
  - assert (Hr : has_column "race" df = true)
      by (apply has_column_some; eauto).
    rewrite Hr, when_true. cbv zeta.
    rewrite !bind_assoc. erewrite bind_getitem by exact Er.
    rewrite !bind_assoc.
    assert (S := pie_sizes race).
    destruct (dropna race) as [|c0 rest] eqn:Ed.
    { rewrite bind_pie_empty by exact S.
      destruct (some_race_known race) eqn:K; [|reflexivity].
      apply known_race_counted in K. congruence. }
    rewrite bind_pie by (rewrite S; discriminate).
    destruct (some_race_known race) eqn:K.
    + assert (N : comparison_data (value_counts race) <> []).
      { intros E. apply comparison_empty in E. congruence. }
      destruct (comparison_data (value_counts race)) as [|row t] eqn:Et;
        [congruence|].
      unfold records_column.
      rewrite !bind_assoc. erewrite bind_expect by reflexivity.
      rewrite !bind_assoc. erewrite bind_expect
        by (apply broadcast_same; rewrite !length_map, length_range;
            reflexivity).
      rewrite !bind_assoc, bind_draw.
      rewrite !bind_assoc. erewrite bind_expect by reflexivity.
      rewrite !bind_assoc. erewrite bind_expect
        by (apply broadcast_same; rewrite !length_map, length_range;
            reflexivity).
      rewrite bind_draw.
      edestruct (bind_runs (B:=unit)) as [lg Eg];
        [|rewrite Eg; clear Eg]; [runs|].
      edestruct (bind_runs (B:=unit)) as [la Ea];
        [|rewrite Ea; clear Ea]; [runs|].
      rewrite emit_run, !wrote_wrote. eexists. split; [reflexivity|].
      cbn [app]. split.
      * right. right. left. reflexivity.
      * right. right. right. left. reflexivity.
    + apply comparison_empty in K. rewrite K. unfold records_column.
      rewrite !bind_assoc. erewrite bind_expect_none by reflexivity.
      rewrite wrote_wrote. eexists. reflexivity.
  - assert (Hr : has_column "race" df = false).
    { destruct (has_column "race" df) eqn:E; [|reflexivity].
      apply has_column_some in E. destruct E as [c E]. congruence. }
    rewrite Hr, when_false, bind_ret.
    edestruct (bind_runs (B:=unit)) as [lg Eg];
      [|rewrite Eg; clear Eg]; [runs|].
    edestruct (bind_runs (B:=unit)) as [la Ea];
      [|rewrite Ea; clear Ea]; [runs|].
    rewrite emit_run, !wrote_wrote. eexists. reflexivity.
Qed.

End DemographicRun.

(* ------------------------------------------------------------------ *)
(** * Facts about main *)
(* ------------------------------------------------------------------ *)

Module MainFacts.
Import Pandas Py App Spec.
Import PandasFacts PyFacts FrameFacts RunFacts DemographicFacts ExploreFacts.
Import LoadFacts LoadedFacts YearFacts ReportFacts TemporalFacts MonthFacts.
Import RegionFacts DemographicRun.
Local Open Scope string_scope.

Lemma with_data_holding df w : holding df w -> with_data df w = w.
Proof.
  unfold holding, with_data. destruct w as [[s c m] o f]. simpl.
  now intros ->.
Qed.

(** The region pie has a wedge exactly when some state of the column
    is in the region table. *)
Lemma region_pie_empty state :
  (total (value_counts (region_column state)) =? 0)%nat =
  negb (some_state_known state).
Proof.
  rewrite value_counts_counted, counted_total, counted_region.
  unfold some_state_known.
  induction state as [|c t IH]; [reflexivity|]. cbn [filter existsb].
  destruct (state_in table_states c); [reflexivity|exact IH].
Qed.

(** How analyze_geographic_patterns ends: it raises only at the region
    pie, when no state of the column is in the region table, and by
    then the column 'region' is set. *)
Lemma geographic_cases w df :
  holding df w ->
  match column "state" df with
  | Some state =>
      let region_counts := value_counts (region_column state) in
      let df' := assign "region" (region_column state) df in
      if some_state_known state then
        exists out,
          analyze_geographic_patterns w =
          (Ok tt, with_data df' (wrote out w)) /\
          In (Draw 1 1 (Pie (values region_counts) (index region_counts)))
             out
      else
        exists out,
          analyze_geographic_patterns w =
          (Raise (ValueError "All wedge sizes are zero"),
           with_data df' (wrote out w))
  | None =>
      exists out,
        analyze_geographic_patterns w = (Ok tt, with_data df (wrote out w))
  end.
Proof.
  intros H. destruct (column "state" df) as [state|] eqn:Es.
  - destruct (geographic_run w df state H Es) as (l1 & E).
    cbv zeta in *. rewrite region_pie_empty in E.
    destruct (some_state_known state); cbn [negb] in E.
    + rewrite E, wrote_with_data, wrote_wrote. eexists.
      split; [reflexivity|]. apply in_or_app. right. now left.
    + rewrite E. eexists. reflexivity.
  - assert (Hs : has_column "state" df = false).
    { destruct (has_column "state" df) eqn:E; [|reflexivity].
      apply has_column_some in E. destruct E as [c E]. congruence. }
    unfold analyze_geographic_patterns.
    erewrite bind_get_data by exact H. rewrite bind_emit.
    rewrite Hs, !when_false, !bind_ret.
    edestruct (bind_runs (B:=unit)) as [lc Ec];
      [|rewrite Ec; clear Ec]; [runs|].
    rewrite ?bind_ret. cbv beta.
    rewrite emit_run, !wrote_wrote. eexists.
    rewrite with_data_holding by exact H. reflexivity.
Qed.

Lemma bind_banner {B} title (k : unit -> M B) w :
  bind (banner title) k w =
  k tt (wrote [Print [Lit (nl ++ str_mul "=" 50)]; Print [Lit title];
               Print [Lit (str_mul "=" 50)]] w).
Proof.
  unfold banner.
  repeat first [rewrite bind_assoc | rewrite bind_print].
  rewrite !wrote_wrote. reflexivity.
Qed.

Lemma fails_iff (r : outcome unit * World) e w' (P : Prop) :
  r = (Raise e, w') -> ~ P -> (fst r = Ok tt <-> P).
Proof. intros -> N. split; [discriminate|contradiction]. Qed.

Lemma no_missing_day names date :
  first_missing_day names date = None <->
  forall name, In name names -> 1 <= incidents_on name date.
Proof.
  unfold first_missing_day. split.
  - intros E name I. assert (F := find_none _ _ E name I).
    apply Nat.eqb_neq in F. lia.
  - intros G. destruct (find _ names) as [name|] eqn:E; [|reflexivity].
    apply find_some in E. destruct E as [I E]. apply Nat.eqb_eq in E.
    specialize (G name I). lia.
Qed.

Lemma days_of_incident name date :
  1 <= incidents_on name date -> years date <> [].
Proof.
  unfold incidents_on, years. destruct (days date); simpl; [lia|discriminate].
Qed.

(** Whether the five analyses all go through. *)
Lemma analyses_outcome w df date :
  holding df w ->
  column "date" df = Some date ->
  column "year" df = Some (map year_cell date) ->
  forallb is_datetime date = true ->
  (fst (analyses w) = Ok tt <-> completes df date).
Proof.
  intros H Hd Hy F. unfold analyses, completes. rewrite bind_banner.
  match goal with
  | |- context [bind explore_basic_statistics ?k ?w0] =>
      destruct (explore_run w0 df date _ H Hd Hy) as (l1 & l2 & E)
  end.
  erewrite bind_ok by exact E. clear E. rewrite bind_banner.
  match goal with
  | |- context [bind analyze_temporal_trends ?k ?w0] =>
      assert (T := temporal_run w0 df date _ H Hd Hy F)
  end.
  cbv zeta in T. rewrite month_bars_cases in T.
  destruct (months_present date =? 12)%nat eqn:E12;
    [|destruct (months_present date =? 1)%nat eqn:E1].
  3:{ destruct T as [out T]. erewrite bind_raised by exact T.
      apply (fails_iff _ _ _ _ eq_refl). intros ([M|M] & _).
      - rewrite M in E12. discriminate.
      - rewrite M in E1. discriminate. }
  all: (assert (M : months_present date = 12 \/ months_present date = 1)
         by (apply Nat.eqb_eq in E12 || apply Nat.eqb_eq in E1; tauto)).
  all: clear E12; try clear E1.
  all: destruct (first_missing_day day_order date) as [name|] eqn:Ed.
  1,3: destruct T as [out T]; erewrite bind_raised by exact T;
       apply (fails_iff _ _ _ _ eq_refl); intros (_ & D & _);
       apply no_missing_day in D; congruence.
  all: assert (D := proj1 (no_missing_day _ _) Ed).
  all: assert (Ny : years date <> [])
         by (apply (days_of_incident "Monday"), D; now left).
  all: destruct (column "age" df) as [age|] eqn:Ea;
         [destruct (numeric age) eqn:En|].
  2,5: destruct T as [out T]; erewrite bind_raised by exact T;
       apply (fails_iff _ _ _ _ eq_refl); intros (_ & _ & A & _);
       specialize (A age Ea); congruence.
  all: assert (A : age_numeric df)
         by (intros a Ha; rewrite Ea in Ha; congruence).
  all: destruct T as (out & T & _); erewrite bind_ok by exact T; clear T.
  all: rewrite bind_banner.
  all: match goal with
       | |- context [bind analyze_demographic_patterns ?k
                          (wrote ?l (with_data ?d ?w0))] =>
           assert (R := demographic_run (wrote l (with_data d w0)) d
                                        eq_refl);
           assert (Cr : column "race" d = column "race" df)
             by (rewrite !column_assign_other; [reflexivity| |];
                 discriminate);
           assert (Cs : forall n,
                     n <> "month" -> n <> "day_of_week" ->
                     column n d = column n df)
             by (intros n N1 N2; rewrite !column_assign_other; auto);
           set (df2 := d) in *
       end.
  all: rewrite Cr in R.
  all: destruct (column "race" df) as [race|] eqn:Er;
         [cbv zeta in R; destruct (some_race_known race) eqn:Ek|].
  2,5,8,11:
    (destruct (dropna race); [|destruct R as [o R]]);
    erewrite bind_raised by exact R;
    apply (fails_iff _ _ _ _ eq_refl); intros (_ & _ & _ & K & _);
    specialize (K race eq_refl); congruence.
  all: first
         [ assert (K : forall r, Some race = Some r ->
                                 some_race_known r = true)
             by (intros r Hr; congruence)
         | assert (K : forall r, @None (list cell) = Some r ->
                                 some_race_known r = true)
             by (intros r Hr; discriminate) ].
  all: try destruct R as (o & R & _); try destruct R as (o & R).
  all: erewrite bind_ok by exact R; clear R.
  all: rewrite bind_banner.
  all: match goal with
       | |- context [bind analyze_geographic_patterns ?k ?w0] =>
           assert (G := geographic_cases w0 df2 eq_refl)
       end.
  all: rewrite (Cs "state") in G by discriminate.
  all: destruct (column "state" df) as [state|] eqn:Es;
         [cbv zeta in G; destruct (some_state_known state) eqn:Ks|].
  2,5,8,11,14,17,20,23:
    destruct G as [og G]; erewrite bind_raised by exact G;
    apply (fails_iff _ _ _ _ eq_refl); intros (_ & _ & _ & _ & S);
    specialize (S state eq_refl); congruence.
  all: first
         [ assert (S : forall s, Some state = Some s ->
                                 some_state_known s = true)
             by (intros s Hs; congruence)
         | assert (S : forall s, @None (list cell) = Some s ->
                                 some_state_known s = true)
             by (intros s Hs; discriminate) ].
  all: try destruct G as (og & G & _); try destruct G as (og & G).
  all: erewrite bind_ok by exact G; clear G.
  all: rewrite bind_banner.
  all: match goal with
       | |- context [generate_summary_report
                       (wrote ?l (with_data ?d ?w0))] =>
           assert (Cd : forall n,
                     n <> "month" -> n <> "day_of_week" -> n <> "region" ->
                     column n d = column n df)
             by (intros n N1 N2 N3;
                 rewrite ?column_assign_other by exact N3;
                 apply Cs; assumption);
           destruct (report_run (wrote l (with_data d w0)) d date eq_refl)
             as (hi & lo & orp & _ & _ & Rp & _);
           [ rewrite Cd by discriminate; exact Hd
           | rewrite Cd by discriminate; exact Hy
           | exact F | exact Ny
           | intros a Ha; rewrite Cd in Ha by discriminate; now apply A
           | rewrite Rp ]
       end.
  all: split; [intros _; repeat split; assumption|reflexivity].
Qed.

End MainFacts.

(* ------------------------------------------------------------------ *)
(** * Facts about the demographic charts *)
(* ------------------------------------------------------------------ *)

Module DemographicOutput.
Import Pandas Py App Spec.
Import PandasFacts PyFacts FrameFacts RunFacts DemographicFacts ExploreFacts.
Import LoadFacts LoadedFacts YearFacts ReportFacts TemporalFacts.
Import DemographicRun MainFacts.
Local Open Scope string_scope.

Lemma no_column name df : column name df = None -> has_column name df = false.
Proof.
  intros N. destruct (has_column name df) eqn:E; [|reflexivity].
  apply has_column_some in E. destruct E as [c E]. congruence.
Qed.

Lemma yes_column name df c :
  column name df = Some c -> has_column name df = true.
Proof. intros E. apply has_column_some. eauto. Qed.

(** Percentages of the parts of a whole add up to 100. *)
Lemma percent_sum (s : Series nat) :
  1 <= total s ->
  (Qsum (map (fun kv => percent (snd kv) (total s)) s) == 100)%Q.
Proof.
  intros P. rewrite Qsum_percent. apply Qnat_pos in P. field. lra.
Qed.

(** ** The armed categories *)

Lemma armed_simplified_length armed :
  length (armed_simplified armed) = length armed.
Proof. unfold armed_simplified, replace_dict, fillna. now rewrite !length_map. Qed.

Lemma armed_simplified_notna armed :
  dropna (armed_simplified armed) = armed_simplified armed.
Proof.
  unfold armed_simplified, replace_dict, fillna, dropna.
  rewrite map_map. induction armed as [|c t IH]; [reflexivity|].
  cbn [map filter].
  assert (N : notna (match (if isna c then Str "unknown" else c) with
                     | Str s => match dict_get s armed_renames with
                                | Some v => Str v
                                | None => if isna c then Str "unknown" else c
                                end
                     | _ => if isna c then Str "unknown" else c
                     end) = true).
  { destruct c as [|q|s|d]; try reflexivity. cbn [isna].
    destruct (dict_get s armed_renames); reflexivity. }
  rewrite N. now rewrite IH.
Qed.

Lemma armed_simplified_idempotent armed :
  armed_simplified (armed_simplified armed) = armed_simplified armed.
Proof.
  unfold armed_simplified, replace_dict, fillna. rewrite !map_map.
  apply map_ext. intros c. destruct c as [|q|s|d]; try reflexivity.
  cbn [isna].
  destruct (dict_get s armed_renames) as [v|] eqn:E.
  - apply RegionFacts.dict_get_In in E. cbn in E.
    repeat (destruct E as [E|E]; [inversion E; subst; reflexivity|]).
    contradiction.
  - cbn [isna]. now rewrite E.
Qed.

Lemma total_app (a b : Series nat) :
  total (a ++ b)%list = total a + total b.
Proof.
  unfold total, values. induction a as [|x t IH]; simpl; [reflexivity|].
  rewrite IH. lia.
Qed.

End DemographicOutput.

(* ------------------------------------------------------------------ *)
(** * Facts about the extreme years, the loader and main *)
(* ------------------------------------------------------------------ *)

Module SummaryFacts.
Import Pandas Py App Spec.
Import PandasFacts PyFacts FrameFacts RunFacts DemographicFacts ExploreFacts.
Import LoadFacts LoadedFacts YearFacts ReportFacts TemporalFacts MonthFacts.
Import DemographicRun MainFacts DemographicOutput.
Local Open Scope string_scope.

(** [idxmax] gives the first entry with the largest value. *)
Lemma idxmax_spec s item :
  idxmax s = Some item ->
  exists l1 l2,
    s = (l1 ++ item :: l2)%list /\
    (forall x, In x l1 -> snd x < snd item) /\
    (forall x, In x l2 -> snd x <= snd item).
Proof.
  revert item. induction s as [|[k v] t IH]; intros item E; [discriminate|].
  cbn [idxmax] in E. destruct (idxmax t) as [[k' v']|] eqn:Et.
  - destruct (IH _ eq_refl) as (l1 & l2 & -> & L1 & L2). cbn [snd] in *.
    destruct (v' <=? v)%nat eqn:C; inversion E; subst item; cbn [snd].
    + apply Nat.leb_le in C. exists [], (l1 ++ (k', v') :: l2)%list.
      split; [reflexivity|]. split; [intros x []|].
      intros x I. apply in_app_or in I. destruct I as [I|[<-|I]].
      * specialize (L1 x I). lia.
      * cbn [snd]. lia.
      * specialize (L2 x I). lia.
    + apply Nat.leb_gt in C. exists ((k, v) :: l1), l2.
      split; [reflexivity|]. split; [|exact L2].
      intros x [<-|I]; [cbn [snd]; lia|auto].
  - inversion E. subst item. destruct t as [|[k' v'] t'].
    + exists [], []. repeat split; intros x [].
    + cbn [idxmax] in Et. destruct (idxmax t') as [[? ?]|];
        [destruct (_ <=? _)%nat|]; discriminate.
Qed.

(** [idxmin] gives the first entry with the smallest value. *)
Lemma idxmin_spec s item :
  idxmin s = Some item ->
  exists l1 l2,
    s = (l1 ++ item :: l2)%list /\
    (forall x, In x l1 -> snd item < snd x) /\
    (forall x, In x l2 -> snd item <= snd x).
Proof.
  revert item. induction s as [|[k v] t IH]; intros item E; [discriminate|].
  cbn [idxmin] in E. destruct (idxmin t) as [[k' v']|] eqn:Et.
  - destruct (IH _ eq_refl) as (l1 & l2 & -> & L1 & L2). cbn [snd] in *.
    destruct (v <=? v')%nat eqn:C; inversion E; subst item; cbn [snd].
    + apply Nat.leb_le in C. exists [], (l1 ++ (k', v') :: l2)%list.
      split; [reflexivity|]. split; [intros x []|].
      intros x I. apply in_app_or in I. destruct I as [I|[<-|I]].
      * specialize (L1 x I). lia.
      * cbn [snd]. lia.
      * specialize (L2 x I). lia.
    + apply Nat.leb_gt in C. exists ((k, v) :: l1), l2.
      split; [reflexivity|]. split; [|exact L2].
      intros x [<-|I]; [cbn [snd]; lia|auto].
  - inversion E. subst item. destruct t as [|[k' v'] t'].
    + exists [], []. repeat split; intros x [].
    + cbn [idxmin] in Et. destruct (idxmin t') as [[? ?]|];
        [destruct (_ <=? _)%nat|]; discriminate.
Qed.

Lemma sorted_after {A} (R : A -> A -> Prop) l1 a l2 :
  StronglySorted R (l1 ++ a :: l2) -> forall x, In x l2 -> R a x.
Proof.
  induction l1 as [|b l1 IH]; simpl; intros S x I.
  - inversion S as [|? ? _ F]. rewrite Forall_forall in F. auto.
  - inversion S. auto.
Qed.

(** The year an extreme of the yearly counts belongs to: no year has
    more (fewer) incidents, and of the years with as many it is the
    earliest. *)
Lemma extreme_year (better : nat -> nat -> Prop) date item l1 l2 :
  groupby_size (map year_cell date) = (l1 ++ item :: l2)%list ->
  (forall x, In x l1 -> better (snd item) (snd x) /\ snd item <> snd x) ->
  (forall x, In x l2 -> better (snd item) (snd x)) ->
  (forall n, better n n) ->
  exists y,
    item = (int_cell y, incidents_in_year y date) /\
    In y (years date) /\
    forall y', In y' (years date) ->
      better (incidents_in_year y date) (incidents_in_year y' date) /\
      (incidents_in_year y' date = incidents_in_year y date -> (y <= y')%Z).
Proof.
  intros E L1 L2 Rf.
  assert (I : In item (groupby_size (map year_cell date)))
    by (rewrite E; apply in_or_app; right; now left).
  destruct item as [k n]. apply yearly_entry in I.
  destruct I as (y & -> & Iy & ->). exists y.
  split; [reflexivity|]. split; [exact Iy|]. intros y' Iy'.
  assert (I' : In (int_cell y', incidents_in_year y' date)
                  (groupby_size (map year_cell date)))
    by (apply yearly_entry; eauto).
  rewrite E in I'. apply in_app_or in I'. cbn [snd] in *.
  destruct I' as [I'|[I'|I']].
  - destruct (L1 _ I') as [B N]. cbn [snd] in *.
    split; [exact B|]. intros C. congruence.
  - assert (int_cell y = int_cell y') by congruence.
    apply int_cell_inj in H. subst y'. split; [apply Rf|lia].
  - split; [apply (L2 _ I')|]. intros _.
    assert (S := yearly_sorted date). rewrite E in S.
    apply (sorted_after _ _ _ _ S) in I'. unfold key_le in I'.
    cbn [fst] in I'. rewrite cell_leb_int in I'. now apply Z.leb_le.
Qed.




(** [main] once [load_data] has returned True. *)
Lemma main_loaded parse w w1 :
  load_data parse (started w) = (Ok true, w1) ->
  main parse w = analyses w1.
Proof.
  intros H. unfold main. rewrite !bind_print.
  assert (S : forall l1 l2 (k : unit -> M unit),
             bind new_analyzer k (wrote l2 (wrote l1 w)) =
             k tt {| self := init; output := output w ++ l1 ++ l2;
                     csv_file := csv_file w |}).
  { intros l1 l2 k. unfold bind, new_analyzer. simpl.
    now rewrite <- app_assoc. }
  rewrite S. unfold bind at 1.
  change {| self := init;
            output := output w ++
                      [Print [Lit "Police Fatal Shootings Analysis"]] ++
                      [Print [Lit (str_mul "=" 50)]];
            csv_file := csv_file w |} with (started w).
  rewrite H. reflexivity.
Qed.

(** What [load_data] does with a file whose dates all parse. *)
Lemma load_data_run parse w csv raw date :
  csv_file w = Ok csv ->
  column "date" csv = Some raw ->
  to_datetime parse raw = Some date ->
  let df := assign "year" (map year_cell date) (assign "date" date csv) in
  load_data parse w =
  (Ok true,
   wrote (loaded_lines df (map year_cell date))
         (with_data df (wrote [loading_line] w))).
Proof.
  intros Ef Ed Ep df. assert (R := load_data_body_run parse w).
  cbv zeta in R. rewrite Ef, Ed, Ep in R. destruct R as (year & Ey & R).
  destruct (to_datetime_datetime _ _ _ Ep) as [F _].
  unfold dt_year in Ey. rewrite (dt_defined _ _ F) in Ey.
  inversion Ey. subst year.
  unfold load_data, try_except. rewrite R. reflexivity.
Qed.

End SummaryFacts.

(* ------------------------------------------------------------------ *)
(** * Facts about the calendar columns *)
(* ------------------------------------------------------------------ *)

Module CalendarFacts.
Import Pandas Py App Spec.
Import PandasFacts PyFacts FrameFacts RunFacts DemographicFacts ExploreFacts.
Import LoadFacts LoadedFacts YearFacts ReportFacts TemporalFacts MonthFacts.
Import DemographicRun MainFacts DemographicOutput SummaryFacts.
Local Open Scope string_scope.

Lemma incidents_in_year_pos y date :
  In y (years date) -> 1 <= incidents_in_year y date.
Proof.
  unfold incidents_in_year. induction (years date) as [|a t IH]; [intros []|].
  intros [->|I]; cbn [filter].
  - rewrite Z.eqb_refl. cbn [length]. lia.
  - destruct (y =? a)%Z; cbn [length]; [lia|auto].
Qed.

(** The outcome of analyze_temporal_trends by the number of months
    present. *)
Lemma temporal_cases w df date :
  holding df w -> dated df date ->
  let df1 := assign "month" (map month_cell date) df in
  let df2 := assign "day_of_week" (map day_cell date) df1 in
  let mbars := if (months_present date =? 12)%nat then bars_by_month date
               else bars_of_one_month date in
  if ((months_present date =? 12) || (months_present date =? 1))%nat then
    match first_missing_day day_order date with
    | Some name =>
        exists out,
          analyze_temporal_trends w =
          (Raise (KeyError (Str name)), with_data df2 (wrote out w))
    | None =>
        match column "age" df with
        | Some age =>
            if numeric age then temporal_done w df2 mbars date
            else
              exists e out,
                analyze_temporal_trends w =
                (Raise e, with_data df2 (wrote out w))
        | None => temporal_done w df2 mbars date
        end
    end
  else
    exists out,
      analyze_temporal_trends w =
      (Raise shape_mismatch, with_data df1 (wrote out w)).
Proof.
  intros H (Hd & F & Hy) df1 df2 mbars.
  assert (T := temporal_run w df date _ H Hd Hy F). cbv zeta in T.
  rewrite month_bars_cases in T. fold (bars_by_month date) in T.
  fold (bars_of_one_month date) in T. unfold mbars.
  destruct (months_present date =? 12)%nat;
    [|destruct (months_present date =? 1)%nat]; cbn [orb]; try exact T.
  all: destruct (first_missing_day day_order date); [exact T|].
  all: destruct (column "age" df) as [age|]; [|exact T].
  all: destruct (numeric age); [exact T|].
  all: destruct T as [out T]; eauto.
Qed.

End CalendarFacts.

(* ------------------------------------------------------------------ *)
(** * Facts about the opening of the summary report *)
(* ------------------------------------------------------------------ *)

Module OverallFacts.
Import Pandas Py App Spec.
Import PandasFacts PyFacts FrameFacts RunFacts DemographicFacts ExploreFacts.
Import LoadFacts LoadedFacts YearFacts ReportFacts TemporalFacts MonthFacts.
Import DemographicRun MainFacts DemographicOutput SummaryFacts CalendarFacts.
Local Open Scope string_scope.
Local Arguments cell_eq_dec : simpl never.
Local Arguments int_cell : simpl never.

Lemma min_of_days l :
  l <> [] ->
  exists m,
    fold_right (fun c m => if isna m then c else if cell_leb c m then c else m)
               NA (map TS l) = TS m /\
    In m l /\ forall d, In d l -> (m <= d)%Z.
Proof.
  induction l as [|a t IH]; [congruence|]. intros _. cbn [map fold_right].
  destruct t as [|b t'].
  - exists a. cbn [map fold_right isna]. split; [reflexivity|].
    split; [now left|]. intros d [<-|[]]. lia.
  - destruct IH as (m & E & I & L); [discriminate|]. rewrite E.
    cbn [isna cell_leb]. destruct (a <=? m)%Z eqn:C.
    + apply Z.leb_le in C. exists a. split; [reflexivity|].
      split; [now left|]. intros d [<-|J]; [lia|]. specialize (L d J). lia.
    + apply Z.leb_gt in C. exists m. split; [reflexivity|].
      split; [now right|]. intros d [<-|J]; [lia|auto].
Qed.

Lemma max_of_days l :
  l <> [] ->
  exists m,
    fold_right (fun c m => if isna m then c else if cell_leb m c then c else m)
               NA (map TS l) = TS m /\
    In m l /\ forall d, In d l -> (d <= m)%Z.
Proof.
  induction l as [|a t IH]; [congruence|]. intros _. cbn [map fold_right].
  destruct t as [|b t'].
  - exists a. cbn [map fold_right isna]. split; [reflexivity|].
    split; [now left|]. intros d [<-|[]]. lia.
  - destruct IH as (m & E & I & L); [discriminate|]. rewrite E.
    cbn [isna cell_leb]. destruct (m <=? a)%Z eqn:C.
    + apply Z.leb_le in C. exists a. split; [reflexivity|].
      split; [now left|]. intros d [<-|J]; [lia|]. specialize (L d J). lia.
    + apply Z.leb_gt in C. exists m. split; [reflexivity|].
      split; [now right|]. intros d [<-|J]; [lia|auto].
Qed.

(** The distinct years of the data, as the report counts them. *)
Lemma years_covered date :
  exists ys,
    NoDup ys /\ (forall y, In y ys <-> In y (years date)) /\
    nunique (map year_cell date) = length ys.
Proof.
  unfold nunique. rewrite dropna_years.
  set (t := tally (map int_cell (years date))).
  assert (Nd : NoDup (index t)) by apply NoDup_tally.
  assert (Ix : forall k, In k (index t) <-> In k (map int_cell (years date)))
    by (intros k; apply In_index_tally).
  exists (map cell_int (index t)). split; [|split].
  - apply NoDup_map_NoDup_ForallPairs; [|exact Nd].
    intros a b Ia Ib E. apply Ix, in_map_iff in Ia, Ib.
    destruct Ia as (ya & <- & _). destruct Ib as (yb & <- & _).
    rewrite !cell_int_int in E. now subst.
  - intros y. rewrite in_map_iff. split.
    + intros (k & <- & I). apply Ix, in_map_iff in I.
      destruct I as (y' & <- & I). now rewrite cell_int_int.
    + intros I. exists (int_cell y). split; [apply cell_int_int|].
      apply Ix, in_map_iff. eauto.
  - unfold index. now rewrite !length_map.
Qed.

(** The summary report up to the date range. *)
Lemma report_opening w df date :
  holding df w -> dated df date -> years date <> [] ->
  exists d1 d2 rest,
    cell_min date = TS d1 /\ cell_max date = TS d2 /\
    output_after (generate_summary_report w) =
    (output w ++ report_header ++
     overall_lines (nrows df) (nunique (map year_cell date)) d1 d2 ++
     rest)%list.
Proof.
  intros H (Hd & F & Hy) N.
  destruct (date_ends date F N) as (dmin & dmax & Emin & Emax).
  exists dmin, dmax.
  unfold generate_summary_report.
  erewrite bind_get_data by exact H. rewrite !bind_print.
  erewrite bind_getitem by exact Hy. cbv zeta.
  rewrite (nunique_years date N), bind_ret, !bind_print.
  erewrite bind_getitem by exact Hd. rewrite Emin. cbn [strftime].
  rewrite bind_ret.
  erewrite bind_getitem by exact Hd. rewrite Emax. cbn [strftime].
  rewrite bind_ret, bind_print, !wrote_wrote.
  match goal with
  | |- context [output_after (?m ?w0)] =>
      assert (W : writes_only m) by writes;
      destruct (W w0) as [rest E]
  end.
  exists rest. split; [reflexivity|]. split; [reflexivity|].
  unfold output_after. rewrite E. cbn [wrote output].
  unfold report_header, overall_lines. cbn [app].
  rewrite <- app_assoc. reflexivity.
Qed.

End OverallFacts.

(* ------------------------------------------------------------------ *)
(** * The claims *)
(* ------------------------------------------------------------------ *)

Module Claims.
Import Pandas Py App Spec Examples.
Import PandasFacts PyFacts FrameFacts LoadFacts RunFacts RegionFacts.
Import DemographicFacts ExploreFacts LoadedFacts.
Import YearFacts ReportFacts TemporalFacts MonthFacts DemographicRun.
Import MainFacts SummaryFacts CalendarFacts.
Local Open Scope string_scope.

(** ** C8: nothing is analysed before data is loaded *)

(** C8. When [shootings_data] is None, each of the five methods returns
    at once: the analyzer, the file and the output are as before, except
    that explore_basic_statistics and generate_summary_report print
    'Please load data first.'. *)
Theorem no_data_no_analysis (w : World) :
  shootings_data (self w) = None ->
  explore_basic_statistics w =
    (Ok tt, wrote [Print [Lit "Please load data first."]] w) /\
  analyze_temporal_trends w = (Ok tt, w) /\
  analyze_demographic_patterns w = (Ok tt, w) /\
  analyze_geographic_patterns w = (Ok tt, w) /\
  generate_summary_report w =
    (Ok tt, wrote [Print [Lit "Please load data first."]] w).
Proof.
  intros H.
  unfold explore_basic_statistics, analyze_temporal_trends,
    analyze_demographic_patterns, analyze_geographic_patterns,
    generate_summary_report, bind, get_data.
  rewrite H. repeat split.
Qed.

Lemma no_data_no_analysis_witness :
  let w := fresh (Raise (FileNotFoundError csv_path)) in
  explore_basic_statistics w =
    (Ok tt, wrote [Print [Lit "Please load data first."]] w) /\
  analyze_temporal_trends w = (Ok tt, w) /\
  analyze_demographic_patterns w = (Ok tt, w) /\
  analyze_geographic_patterns w = (Ok tt, w) /\
  generate_summary_report w =
    (Ok tt, wrote [Print [Lit "Please load data first."]] w).
Proof.
  apply (no_data_no_analysis (fresh (Raise (FileNotFoundError csv_path)))).
  evaluate.
Defined.

(** ** C10: what the analyses change in the table *)

(** C10, as stated, fails: a column the file already calls 'region' is
    overwritten by analyze_geographic_patterns. *)
Lemma region_column_overwritten :
  let w := after_load csv_with_region in
  fst (load_data parse_iso (fresh (Ok csv_with_region))) = Ok true /\
  exists before after,
    shootings_data (self w) = Some before /\
    data_after (analyze_geographic_patterns w) = Some after /\
    column "region" before = Some [Str "Pacific"] /\
    column "region" after = Some [Str "West"] /\
    column "region" after <> column "region" before.
Proof.
  split; [evaluate|].
  eexists. eexists. repeat split; try evaluate.
  vm_compute. discriminate.
Qed.

(** C10 (amended). explore_basic_statistics, generate_summary_report
    and analyze_demographic_patterns leave the analyzer, and so the
    table, exactly as it was.  analyze_temporal_trends changes the table
    only in the columns 'month' and 'day_of_week', and
    analyze_geographic_patterns only in the column 'region': the row
    count and every column of another name are unchanged, no column is
    removed, and only columns of those names can be new; this holds
    whether the method returns or raises.  Columns of the three names
    are not protected.  When the table has a 'state' column,
    analyze_geographic_patterns sets 'region' to the regions of the
    states, whatever the column held before; without a 'state' column
    it leaves the table as it is.  On a loaded table
    analyze_temporal_trends sets 'month' to the months of the dates,
    and, when the incidents fall in twelve months or in one so that the
    monthly chart is drawn, 'day_of_week' to their weekdays, whatever
    the two columns held before. *)
Theorem analyses_frame (w : World) (df : DataFrame) :
  holding df w ->
  self (snd (explore_basic_statistics w)) = self w /\
  self (snd (generate_summary_report w)) = self w /\
  self (snd (analyze_demographic_patterns w)) = self w /\
  (exists df',
     data_after (analyze_temporal_trends w) = Some df' /\
     derived_from ["month"; "day_of_week"] df df' /\
     forall date, dated df date ->
       column "month" df' = Some (map month_cell date) /\
       (months_present date = 12 \/ months_present date = 1 ->
        column "day_of_week" df' = Some (map day_cell date))) /\
  (exists df',
     data_after (analyze_geographic_patterns w) = Some df' /\
     derived_from ["region"] df df' /\
     (forall state, column "state" df = Some state ->
                    column "region" df' = Some (region_column state)) /\
     (column "state" df = None -> df' = df)).
Proof.
  intros H.
  assert (W : forall (m : M unit), writes_only m -> self (snd (m w)) = self w).
  { intros m Hm. destruct (Hm w) as [l ->]. reflexivity. }
  assert (K : forall names (m : M unit), keeps names m ->
            exists df', data_after (m w) = Some df' /\
                        derived_from names df df').
  { intros names m Hm. destruct (Hm w) as (_ & _ & _ & _ & D).
    unfold holding in H. rewrite H in D. unfold data_after.
    destruct (shootings_data (self (snd (m w)))) as [df'|];
      [eauto|contradiction]. }
  split; [apply W, explore_writes|].
  split; [apply W, report_writes|].
  split; [apply W, demographic_writes|].
  split.
  - destruct (K _ _ temporal_keeps) as (df' & E & D).
    exists df'. split; [exact E|]. split; [exact D|].
    intros date Hd. assert (T := temporal_cases w df date H Hd).
    cbv zeta in T.
    set (df1 := assign "month" (map month_cell date) df) in *.
    set (df2 := assign "day_of_week" (map day_cell date) df1) in *.
    assert (M1 : column "month" df1 = Some (map month_cell date))
      by apply column_assign_same.
    assert (M2 : column "month" df2 = Some (map month_cell date))
      by (unfold df2; rewrite column_assign_other; [exact M1|discriminate]).
    assert (D2 : column "day_of_week" df2 = Some (map day_cell date))
      by apply column_assign_same.
    assert (Two : data_after (analyze_temporal_trends w) = Some df2 ->
                  column "month" df' = Some (map month_cell date) /\
                  (months_present date = 12 \/ months_present date = 1 ->
                   column "day_of_week" df' = Some (map day_cell date))).
    { intros E2. rewrite E in E2. inversion E2. subst df'. now split. }
    destruct ((months_present date =? 12) || (months_present date =? 1))%nat
      eqn:B.
    + apply Two. destruct (first_missing_day day_order date) as [name|].
      * destruct T as [out T]. now rewrite T.
      * destruct (column "age" df) as [age|]; [destruct (numeric age)|].
        -- destruct T as (out & T & _). now rewrite T.
        -- destruct T as (e & out & T). now rewrite T.
        -- destruct T as (out & T & _). now rewrite T.
    + destruct T as [out T]. rewrite T in E. inversion E. subst df'.
      split; [exact M1|]. intros M. apply orb_false_iff in B.
      destruct B as [B12 B1]. apply Nat.eqb_neq in B12, B1. lia.
  - destruct (K _ _ geographic_keeps) as (df' & E & D).
    exists df'. split; [exact E|]. split; [exact D|].
    assert (G := geographic_cases w df H).
    destruct (column "state" df) as [state|].
    + split; [|discriminate]. intros s Hs. inversion Hs. subst s.
      cbv zeta in G.
      assert (E' : data_after (analyze_geographic_patterns w) =
                   Some (assign "region" (region_column state) df)).
      { destruct (some_state_known state).
        - destruct G as (out & G & _). now rewrite G.
        - destruct G as (out & G). now rewrite G. }
      rewrite E in E'. inversion E'. apply column_assign_same.
    + split; [discriminate|]. intros _. destruct G as [out G].
      rewrite G in E. inversion E. reflexivity.
Qed.

Lemma analyses_frame_witness :
  let w := after_load csv_with_region in
  exists df,
    holding df w /\
    self (snd (explore_basic_statistics w)) = self w /\
    self (snd (generate_summary_report w)) = self w /\
    self (snd (analyze_demographic_patterns w)) = self w /\
    (exists df', data_after (analyze_temporal_trends w) = Some df' /\
                 derived_from ["month"; "day_of_week"] df df' /\
                 column "month" df' = Some [int_cell 1]) /\
    (exists df', data_after (analyze_geographic_patterns w) = Some df' /\
                 derived_from ["region"] df df' /\
                 column "region" df' = Some [Str "West"]).
Proof.
  eexists. split; [evaluate|].
  edestruct (analyses_frame (after_load csv_with_region))
    as (E1 & E2 & E3 & (dt & T1 & T2 & T3) & (dg & G1 & G2 & G3 & _)).
  - evaluate.
  - split; [exact E1|]. split; [exact E2|]. split; [exact E3|]. split.
    + exists dt. split; [exact T1|]. split; [exact T2|].
      apply (T3 [TS 16437]). split; [evaluate|split; evaluate].
    + exists dg. split; [exact G1|]. split; [exact G2|].
      apply (G3 [Str "CA"]). evaluate.
Defined.

(** ** C7: load failures *)

(** C7. [load_data] never lets an exception out: when reading the file
    or deriving date and year raises, it prints the error and returns
    False; it returns True only (and always) when the file is read, has
    a 'date' column and every date parses, and then holds the table
    with parsed dates and the derived year.  When [load_data] returns
    False, [main] prints the failure line and returns: its whole output
    is the two title lines, the loading line, the error and the
    failure line, and no analysis method runs. *)
Theorem load_failure_is_caught (parse : string -> option (option Z))
  (w : World) :
  (exists b w', load_data parse w = (Ok b, w')) /\
  (forall e w', load_data_body parse w = (Raise e, w') ->
     load_data parse w = (Ok false, wrote [error_line e] w')) /\
  (forall w', load_data parse w = (Ok true, w') ->
     exists df, loads parse w df /\ shootings_data (self w') = Some df) /\
  (forall df, loads parse w df -> fst (load_data parse w) = Ok true) /\
  (forall w', load_data parse (started w) = (Ok false, w') ->
     main parse w = (Ok tt, wrote [failed_line] w') /\
     exists e,
       output_after (main parse w) =
       (output (started w) ++ [loading_line; error_line e; failed_line])%list).
Proof.
  assert (R := load_data_body_run parse).
  assert (C : forall e w0 w', load_data_body parse w0 = (Raise e, w') ->
              load_data parse w0 = (Ok false, wrote [error_line e] w')).
  { intros e w0 w' H. unfold load_data, try_except. rewrite H.
    reflexivity. }
  repeat split.
  - destruct (load_data_body parse w) as [[b|e] w'] eqn:E.
    + exists b, w'. unfold load_data, try_except. now rewrite E.
    + exists false. eexists. apply C, E.
  - intros e w'. apply C.
  - intros w' H. unfold load_data, try_except in H.
    specialize (R w). cbv zeta in R.
    destruct (csv_file w) as [csv|e] eqn:Ef;
      [|rewrite R in H; discriminate].
    destruct (column "date" csv) as [date|] eqn:Ed;
      [|rewrite R in H; discriminate].
    destruct (to_datetime parse date) as [parsed|] eqn:Ep;
      [|rewrite R in H; discriminate].
    destruct R as (year & Ey & R). rewrite R in H. inversion H.
    eexists. split; [|reflexivity].
    exists csv, date, parsed, year. auto.
  - intros df (csv & date & parsed & year & Ef & Ed & Ep & Ey & ->).
    specialize (R w). cbv zeta in R. rewrite Ef, Ed, Ep in R.
    destruct R as (year' & _ & R).
    unfold load_data, try_except. now rewrite R.
  - apply main_load_failed, H.
  - unfold load_data, try_except in H.
    specialize (R (started w)). cbv zeta in R.
    assert (E : exists e w1,
               load_data_body parse (started w) = (Raise e, w1) /\
               output w1 = (output (started w) ++ [loading_line])%list).
    { destruct (csv_file (started w)) as [csv|e];
        [|rewrite R; eauto].
      destruct (column "date" csv) as [date|]; [|rewrite R; eauto].
      destruct (to_datetime parse date) as [parsed|]; [|rewrite R; eauto].
      destruct R as (year & _ & R). rewrite R in H. discriminate. }
    destruct E as (e & w1 & E & O). exists e.
    rewrite E in H. inversion H. subst w'.
    rewrite (main_load_failed parse w (wrote [error_line e] w1)).
    + unfold output_after, wrote. cbn [snd output]. rewrite O.
      rewrite <- !app_assoc. reflexivity.
    + unfold load_data, try_except. now rewrite E.
Qed.

Lemma load_failure_is_caught_witness :
  let w := fresh (Raise (FileNotFoundError csv_path)) in
  load_data parse_iso w =
    (Ok false,
     wrote [loading_line; error_line (FileNotFoundError csv_path)] w) /\
  output_after (main parse_iso w) =
    [Print [Lit "Police Fatal Shootings Analysis"];
     Print [Lit (str_mul "=" 50)];
     loading_line; error_line (FileNotFoundError csv_path); failed_line].
Proof.
  intros w.
  destruct (load_failure_is_caught parse_iso w) as (_ & H & _ & _ & M).
  split.
  - apply (H (FileNotFoundError csv_path) (wrote [loading_line] w)).
    evaluate.
  - destruct (M (wrote [loading_line;
                        error_line (FileNotFoundError csv_path)]
                       (started w))) as [E _]; [evaluate|].
    rewrite E. evaluate.
Defined.

(** ** C4: states and regions *)

(** C4. No state code is listed under two regions of the region
    table.  On a table with a 'state' column,
    analyze_geographic_patterns sets the column 'region' row by row: a
    row whose state is in the table gets the one region that lists it,
    any other row gets a missing value.  The region counts hold, for
    each region with at least one incident, the number of rows whose
    state it lists; rows whose state is not in the table are in none
    of the counts, which sum to the number of rows whose state is in
    the table.  When some row has a state of the table the method
    returns and the pie chart shows these counts; when none has, the
    counts are empty and the pie chart raises ValueError, the column
    'region' being set all the same. *)
Theorem region_assignment (w : World) (df : DataFrame) (state : list cell) :
  holding df w -> column "state" df = Some state ->
  NoDup table_states /\
  (forall s r1 r2,
     In s (region_states r1) -> In s (region_states r2) -> r1 = r2) /\
  let region := region_column state in
  let region_counts := value_counts region in
  data_after (analyze_geographic_patterns w) =
    Some (assign "region" region df) /\
  (some_state_known state = true ->
   fst (analyze_geographic_patterns w) = Ok tt /\
   In (Draw 1 1 (Pie (values region_counts) (index region_counts)))
      (output_after (analyze_geographic_patterns w))) /\
  (some_state_known state = false ->
   region_counts = [] /\
   fst (analyze_geographic_patterns w) =
     Raise (ValueError "All wedge sizes are zero")) /\
  (forall i c,
     nth_error state i = Some c ->
     (state_in table_states c = true ->
      exists r, nth_error region i = Some (Str r) /\
                state_in (region_states r) c = true /\
                forall r', state_in (region_states r') c = true -> r' = r) /\
     (state_in table_states c = false -> nth_error region i = Some NA)) /\
  total region_counts = length (filter (state_in table_states) state) /\
  (forall k n,
     In (k, n) region_counts <->
     exists r, k = Str r /\
               n = length (filter (state_in (region_states r)) state) /\
               1 <= n).
Proof.
  intros H Hs. split; [apply table_states_NoDup|].
  split; [apply one_region|]. intros region region_counts.
  assert (G := geographic_cases w df H). rewrite Hs in G. cbv zeta in G.
  fold region in G. fold region_counts in G.
  assert (T : total region_counts =
              length (filter (state_in table_states) state)).
  { unfold region_counts. rewrite value_counts_counted, counted_total.
    apply counted_region. }
  split.
  { destruct (some_state_known state).
    - destruct G as (out & E & _). now rewrite E.
    - destruct G as (out & E). now rewrite E. }
  split.
  { intros K. rewrite K in G. destruct G as (out & E & I). rewrite E.
    split; [reflexivity|]. unfold output_after. cbn [snd with_data output].
    apply in_or_app. now right. }
  split.
  { intros K. rewrite K in G. destruct G as (out & E). rewrite E.
    split; [|reflexivity].
    assert (Z := region_pie_empty state). fold region in Z.
    fold region_counts in Z. rewrite K in Z. apply Nat.eqb_eq in Z.
    assert (P := counted_positive count_ge region).
    rewrite <- value_counts_counted in P. fold region_counts in P.
    destruct region_counts as [|[k n] t]; [reflexivity|].
    inversion P as [|? ? P1 _]. cbn [snd] in P1.
    unfold total, values in Z. cbn [map fold_right snd] in Z. lia. }
  split.
  { intros i c Hi. unfold region, region_column.
    rewrite nth_error_map, Hi. simpl. split; intros Hc.
    - destruct (map_dict_cases c) as [N|[r R]].
      + apply map_dict_missing in N. congruence.
      + exists r. split; [now rewrite R|].
        split; [now apply map_dict_region|].
        intros r' Hr'. apply map_dict_region in Hr'. congruence.
    - apply map_dict_missing in Hc. now rewrite Hc. }
  split; [exact T|].
  intros k n. unfold region_counts.
  rewrite value_counts_counted, counted_entry. split.
  - intros (Hk & Hn & Hp).
    assert (I : In k region).
    { apply (count_occ_In cell_eq_dec). unfold count in Hn. lia. }
    unfold region, region_column in I. apply in_map_iff in I.
    destruct I as (c & Ec & _).
    destruct (map_dict_cases c) as [N|[r R]].
    + rewrite N in Ec. subst k. discriminate.
    + rewrite R in Ec. subst k. exists r. split; [reflexivity|].
      split; [|exact Hp]. rewrite Hn. apply count_region.
  - intros (r & -> & Hn & Hp). split; [reflexivity|].
    split; [|exact Hp]. rewrite Hn. symmetry. apply count_region.
Qed.

Lemma region_assignment_witness :
  let w := after_load csv_with_region in
  let region_counts := value_counts (region_column [Str "CA"]) in
  data_after (analyze_geographic_patterns w) =
    Some (assign "region" [Str "West"]
            {| nrows := 1;
               columns := [("date", [TS 16437]); ("state", [Str "CA"]);
                           ("region", [Str "Pacific"]);
                           ("year", [int_cell 2015])] |}) /\
  fst (analyze_geographic_patterns w) = Ok tt /\
  In (Draw 1 1 (Pie (values region_counts) (index region_counts)))
     (output_after (analyze_geographic_patterns w)) /\
  total region_counts = 1.
Proof.
  intros w region_counts.
  edestruct (region_assignment w) as (_ & _ & D & R & _ & _ & T & _).
  - evaluate.
  - evaluate.
  - split; [exact D|]. destruct R as [R P]; [evaluate|].
    split; [exact R|]. split; [exact P|exact T].
Defined.

(** ** C5: the race comparison table *)

(** C5, as stated, fails: with a single incident of race 'W' the share
    of shootings is 1/1, but the Ratio of the table is 100/72.4: the
    code divides the percentage, not the share, by the population
    percentage. *)
Lemma ratio_uses_percentage :
  exists row,
    comparison_data (value_counts [Str "W"]) = [row] /\
    Race row = Str "W" /\
    (Ratio row == 100 / 72.4)%Q /\
    ~ (Ratio row == (Qnat 1 / Qnat 1) / 72.4)%Q.
Proof.
  eexists. split; [evaluate|]. split; [evaluate|]. split.
  - evaluate.
  - intros H. vm_compute in H. discriminate.
Qed.

(** C5 (amended). The comparison table built from the race column has
    one row for each race code that occurs in the data and is a key of
    the population table, in the order of the race counts, and no row
    for any other code.  In the row of a race, Shooting_Rate is its
    count divided by the sum of the counts of all races present, times
    100, Population_Rate is its entry of the population table, and
    Ratio is Shooting_Rate divided by Population_Rate. *)
Theorem comparison_table (race : list cell) :
  let race_counts := value_counts race in
  let table := comparison_data race_counts in
  map Race table =
    filter (fun k => dict_has k us_population_race) (index race_counts) /\
  NoDup (map Race table) /\
  (forall k, In k (map Race table) <->
             In k race /\ dict_has k us_population_race = true) /\
  total race_counts = length (dropna race) /\
  (forall row, In row table ->
     exists s pop,
       Race row = Str s /\
       dict_get s us_population_race = Some pop /\
       Population_Rate row = pop /\
       Shooting_Rate row =
         (Qnat (count (Str s) race) / Qnat (total race_counts) * 100)%Q /\
       Ratio row = (Shooting_Rate row / Population_Rate row)%Q).
Proof.
  intros rc table.
  assert (R : map Race table =
              filter (fun k => dict_has k us_population_race) (index rc)).
  { unfold table, comparison_data. apply comparison_races. auto. }
  split; [exact R|]. split.
  { rewrite R. apply NoDup_filter. unfold rc.
    rewrite value_counts_counted. apply counted_NoDup. }
  split.
  { intros k. rewrite R, filter_In. unfold rc.
    rewrite value_counts_counted, counted_index. unfold dropna.
    rewrite filter_In. split.
    - tauto.
    - intros [I D]. repeat split; auto. now destruct k. }
  split.
  { unfold rc. rewrite value_counts_counted. apply counted_total. }
  intros row I. unfold table, comparison_data in I.
  apply comparison_rows in I; [|auto].
  destruct I as (s & pop & n & _ & Ep & Hn & ->).
  exists s, pop. repeat split; auto. simpl. unfold percent.
  apply lookup_In in Hn. unfold rc in Hn.
  rewrite value_counts_counted in Hn. apply counted_entry in Hn.
  destruct Hn as (_ & -> & _). reflexivity.
Qed.

(** ** C6: the armed-status chart *)

(** The armed-status series when no category among the eight most
    frequent is itself labelled 'other': the eight most frequent
    categories with their counts, followed, when more categories exist,
    by 'other' with the sum of the remaining counts. *)
Lemma top_categories_without_clash (armed : list cell) :
  let armed_counts := value_counts (armed_simplified armed) in
  let other_count := total (skipn 8 armed_counts) in
  ~ In (Str "other") (index (firstn 8 armed_counts)) ->
  top_categories armed =
    (firstn 8 armed_counts ++
     if (0 <? other_count)%nat then [(Str "other", other_count)] else [])%list
  /\ (other_count = 0 <-> length armed_counts <= 8)
  /\ forall shown rest,
       In shown (firstn 8 armed_counts) -> In rest (skipn 8 armed_counts) ->
       snd rest <= snd shown.
Proof.
  intros ac oc N. split; [|split].
  - unfold top_categories. fold ac. fold oc.
    destruct (0 <? oc)%nat; [|now rewrite app_nil_r].
    now apply setitem_new.
  - assert (P : Forall (fun kv => 1 <= snd kv) (skipn 8 ac)).
    { apply Forall_forall. intros x Hx.
      assert (Q := counted_positive count_ge (armed_simplified armed)).
      rewrite Forall_forall in Q. apply Q.
      rewrite <- (firstn_skipn 8). apply in_or_app. now right. }
    assert (L := length_skipn 8 ac). unfold oc.
    destruct (skipn 8 ac) as [|[k n] t] eqn:E.
    + change (total []) with 0. change (length (@nil (cell * nat))) with 0 in L.
      split; [lia|reflexivity].
    + inversion P as [|? ? P1 P2]. cbn [snd] in P1. subst.
      change (total ((k, n) :: t)) with (n + total t).
      change (length ((k, n) :: t)) with (S (length t)) in L.
      split; lia.
  - intros shown rest Hs Hr.
    assert (S := value_counts_sorted (armed_simplified armed)).
    fold ac in S. rewrite <- (firstn_skipn 8 ac) in S.
    revert S Hs. generalize (firstn 8 ac). intros l S Hs.
    induction l as [|a l IH]; [contradiction|].
    simpl in S. inversion S as [|? ? S1 S2]. subst.
    destruct Hs as [->|Hs]; [|auto].
    rewrite Forall_forall in S2. apply S2, in_or_app. now right.
Qed.

(** C6 fails on the code: in [armed_with_other] the category 'other'
    (6 incidents) is the fourth most frequent of nine.  The chart
    should show it with its 6 incidents and add a bucket for the ninth
    category; instead the assignment to the label 'other' overwrites
    its count with the 1 incident of the ninth category, so the chart
    has eight bars that account for 39 of the 45 incidents. *)
Theorem other_category_overwritten :
  let w := after_load csv_armed_other in
  let armed_counts := value_counts (armed_simplified armed_with_other) in
  fst (load_data parse_iso (fresh (Ok csv_armed_other))) = Ok true /\
  armed_counts =
    [(Str "firearm", 9); (Str "knife/blade", 8); (Str "unarmed", 7);
     (Str "other", 6); (Str "vehicle", 5); (Str "toy weapon", 4);
     (Str "machete", 3); (Str "hammer", 2); (Str "sword", 1)] /\
  top_categories armed_with_other =
    [(Str "firearm", 9); (Str "knife/blade", 8); (Str "unarmed", 7);
     (Str "other", 1); (Str "vehicle", 5); (Str "toy weapon", 4);
     (Str "machete", 3); (Str "hammer", 2)] /\
  top_categories armed_with_other <>
    (firstn 8 armed_counts ++ [(Str "other", total (skipn 8 armed_counts))])%list /\
  total (top_categories armed_with_other) = 39 /\
  output_after (analyze_demographic_patterns w) =
    (output w ++
     [Subplots 2 2;
      Draw 1 1 (Barh (combine (range 0 8)
                              (values (top_categories armed_with_other)))
                     (index (top_categories armed_with_other)));
      Show])%list.
Proof.
  repeat split; try evaluate.
  intros H. vm_compute in H. discriminate.
Qed.

(** ** C3: the yearly counts *)

(** C3, as stated, fails: a row whose date is missing has no year and
    is in no group.  In [csv_half_missing] the yearly counts printed
    by explore_basic_statistics sum to 1 while the table has 2 rows. *)
Lemma undated_row_not_counted :
  let w := after_load csv_half_missing in
  fst (load_data parse_iso (fresh (Ok csv_half_missing))) = Ok true /\
  exists df year,
    holding df w /\ column "year" df = Some year /\
    In (Print [PSeries (groupby_size year)])
       (output_after (explore_basic_statistics w)) /\
    nrows df = 2 /\
    total (groupby_size year) = 1 /\
    total (groupby_size year) <> nrows df.
Proof.
  split; [evaluate|]. eexists. eexists.
  split; [evaluate|]. split; [evaluate|].
  split; [in_output|]. split; [evaluate|]. split; [evaluate|].
  vm_compute. discriminate.
Qed.

(** C3 (amended). On a loaded table explore_basic_statistics prints
    the yearly counts, and these sum to the number of rows that have a
    date: the sum and the number of rows with a missing date add up to
    the row count, so the sum is the row count exactly when no date is
    missing. *)
Theorem yearly_counts_sum (w : World) (df : DataFrame) :
  holding df w -> loaded df ->
  exists date year,
    column "date" df = Some date /\ column "year" df = Some year /\
    let yearly_counts := groupby_size year in
    fst (explore_basic_statistics w) = Ok tt /\
    In (Print [PSeries yearly_counts])
       (output_after (explore_basic_statistics w)) /\
    total yearly_counts + missing date = nrows df /\
    (total yearly_counts = nrows df <-> missing date = 0).
Proof.
  intros H L. destruct (loaded_columns df L) as (date & Hd & Hy & F & Ld).
  exists date, (map year_cell date). split; [exact Hd|].
  split; [exact Hy|]. intros yc.
  destruct (explore_run w df date _ H Hd Hy) as (l1 & l2 & E).
  fold yc in E. rewrite E. split; [reflexivity|]. split.
  { unfold output_after. simpl. apply in_or_app. right.
    apply in_or_app. right. now left. }
  assert (T : total yc + missing date = nrows df).
  { unfold yc. rewrite groupby_size_counted, counted_total.
    rewrite <- (missing_year date F), dropna_missing, length_map.
    exact Ld. }
  split; [exact T|]. lia.
Qed.

Lemma yearly_counts_sum_witness :
  let w := after_load csv_half_missing in
  exists date year,
    In (Print [PSeries (groupby_size year)])
       (output_after (explore_basic_statistics w)) /\
    total (groupby_size year) + missing date = 2.
Proof.
  intros w.
  edestruct (yearly_counts_sum w) as (date & year & _ & _ & _ & P & T & _).
  - evaluate.
  - eapply (loads_loaded parse_iso (fresh (Ok csv_half_missing))).
    + exists csv_half_missing. do 3 eexists.
      repeat split; evaluate.
    + intros csv E. inversion E. subst csv. split.
      * repeat constructor.
      * apply RegionFacts.distinct_NoDup. evaluate.
  - exists date, year. split; [exact P|exact T].
Defined.

(** ** C2: the race percentages *)


(** The rounding can hide a missing race: with 39999 rows of race W
    among 40000 rows the exact percentage is 99.9975, and the line
    printed shows 100.0.  So the printed sum need not be below 100 when
    a race is missing; it is near 100 - 100 * m / n. *)
Lemma rounding_hides_a_missing_row :
  exists pct,
    let n := Z.to_nat 40000 in
    let count := Z.to_nat 39999 in
    values (race_percentages n [(Str "W", count)]) = [pct] /\
    (pct == 100)%Q /\
    (percent count n == 999975 # 10000)%Q.
Proof.
  eexists. split; [evaluate|]. split; evaluate.
Qed.



(** ** C1: the trend printed by the summary report *)




(** ** C9: what analyze_temporal_trends needs *)

(** C9, as stated, fails: twelve months are not needed.  The seven
    incidents of [csv_week] all fall in January 2015, one on each
    weekday, and analyze_temporal_trends returns normally: the single
    monthly count is drawn as twelve bars of height 7. *)
Lemma single_month_suffices :
  let w := after_load csv_week in
  fst (load_data parse_iso (fresh (Ok csv_week))) = Ok true /\
  (exists df date, holding df w /\ dated df date /\
                   months_present date = 1 /\
                   incidents_in_month 1 date = 7) /\
  fst (analyze_temporal_trends w) = Ok tt /\
  In (Draw 0 1 (Bar (map (fun x => (x, 7%Q)) (range 1 13))))
     (output_after (analyze_temporal_trends w)).
Proof.
  split; [evaluate|]. split.
  { do 2 eexists. split; [evaluate|].
    split; [split; [evaluate|split; evaluate]|]. split; evaluate. }
  split; [evaluate|in_output].
Qed.

(** C9 (amended). On a loaded table analyze_temporal_trends succeeds
    only if every weekday from Monday to Sunday has at least one
    incident and the incidents fall in all twelve months or all in one
    single month, whose count is then broadcast to the twelve bars;
    when the 'age' column holds no text these two conditions are also
    enough.  When it succeeds the day-of-week counts are drawn at the
    positions 0 to 6 in the order Monday to Sunday. *)
Theorem temporal_precondition (w : World) (df : DataFrame)
  (date : list cell) :
  holding df w -> dated df date ->
  let weekdays :=
    forall name, In name day_order -> 1 <= incidents_on name date in
  let months := months_present date = 12 \/ months_present date = 1 in
  (fst (analyze_temporal_trends w) = Ok tt ->
   weekdays /\ months /\
   In (Draw 1 0 (Bar (day_bars date)))
      (output_after (analyze_temporal_trends w))) /\
  (weekdays -> months -> age_numeric df ->
   fst (analyze_temporal_trends w) = Ok tt) /\
  day_bars date =
    combine [0; 1; 2; 3; 4; 5; 6]%Q
      (map (fun name => Qnat (incidents_on name date))
           ["Monday"; "Tuesday"; "Wednesday"; "Thursday"; "Friday";
            "Saturday"; "Sunday"]).
Proof.
  intros H D weekdays months.
  assert (T := temporal_cases w df date H D). cbv zeta in T.
  assert (Done : forall df' mbars,
            temporal_done w df' mbars date ->
            fst (analyze_temporal_trends w) = Ok tt /\
            In (Draw 1 0 (Bar (day_bars date)))
               (output_after (analyze_temporal_trends w))).
  { intros df' mbars (out & E & _ & I). rewrite E.
    split; [reflexivity|]. unfold output_after.
    cbn [snd with_data wrote output]. apply in_or_app. now right. }
  assert (M : ((months_present date =? 12) || (months_present date =? 1))%nat
              = true <-> months).
  { unfold months. rewrite orb_true_iff, !Nat.eqb_eq. reflexivity. }
  assert (Wd : first_missing_day day_order date = None <-> weekdays)
    by apply no_missing_day.
  split; [|split; [|reflexivity]].
  - intros S.
    destruct ((months_present date =? 12) || (months_present date =? 1))%nat;
      [|destruct T as [out T]; rewrite T in S; discriminate].
    destruct (first_missing_day day_order date) as [name|];
      [destruct T as [out T]; rewrite T in S; discriminate|].
    split; [now apply Wd|]. split; [now apply M|].
    destruct (column "age" df) as [age|]; [destruct (numeric age)|].
    + eapply Done, T.
    + destruct T as (e & out & T). rewrite T in S. discriminate.
    + eapply Done, T.
  - intros Hw Hm A. apply M in Hm. apply Wd in Hw. rewrite Hm, Hw in T.
    destruct (column "age" df) as [age|] eqn:Ea.
    + rewrite (A age Ea) in T. eapply Done, T.
    + eapply Done, T.
Qed.

Lemma temporal_precondition_witness :
  let w := after_load csv_week in
  fst (analyze_temporal_trends w) = Ok tt /\
  In (Draw 1 0 (Bar (combine [0; 1; 2; 3; 4; 5; 6]%Q (repeat 1%Q 7))))
     (output_after (analyze_temporal_trends w)).
Proof.
  intros w.
  edestruct (temporal_precondition w) as (Only & If & _).
  - evaluate.
  - split; [evaluate|split; evaluate].
  - assert (S : fst (analyze_temporal_trends w) = Ok tt).
    { apply If.
      - intros name I. vm_compute in I.
        repeat (destruct I as [<-|I]; [vm_compute; lia|]). contradiction.
      - right. evaluate.
      - intros age E. vm_compute in E. inversion E. reflexivity. }
    split; [exact S|]. destruct (Only S) as (_ & _ & I). exact I.
Defined.

End Claims.

(* ------------------------------------------------------------------ *)
(** * Further properties of the methods *)
(* ------------------------------------------------------------------ *)

Module Extras.
Import Pandas Py App Spec.
Import Examples.
Import PandasFacts PyFacts FrameFacts RunFacts DemographicFacts ExploreFacts.
Import LoadFacts LoadedFacts YearFacts ReportFacts TemporalFacts MonthFacts.
Import DemographicRun MainFacts DemographicOutput SummaryFacts CalendarFacts.
Import OverallFacts.
Local Open Scope string_scope.

(** The hypotheses on a concrete table, by evaluation. *)
Ltac table := split; [evaluate | split; evaluate].

Ltac absent := let c := fresh in let E := fresh in
  intros c E; vm_compute in E; discriminate.

(** ** generate_summary_report *)

(** X1 (generate_summary_report, lines 306-312).  On a loaded table
    with at least one dated row and no text in the 'age' column,
    generate_summary_report returns and prints the line "Overall trend"
    with the value (last - first) / first * 100, where first and last
    are the numbers of incidents in the earliest and in the latest
    calendar year of the data; first is at least 1, so the division is
    defined. *)
Theorem summary_trend (w : World) (df : DataFrame) (date : list cell) :
  holding df w -> dated df date ->
  years date <> [] -> age_numeric df ->
  let first := incidents_in_year (minimum (years date)) date in
  let last := incidents_in_year (maximum (years date)) date in
  exists out,
    generate_summary_report w = (Ok tt, wrote out w) /\
    In (trend_line (trend_change first last)) out /\
    1 <= first /\
    (trend_change first last ==
     (Qnat last - Qnat first) / Qnat first * 100)%Q.
Proof.
  intros H (Hd & F & Hy) N A first last.
  destruct (report_run w df date H Hd Hy F N A)
    as (hi & lo & out & _ & _ & E & C).
  exists out. split; [exact E|]. split; [|split].
  - apply (contains_In _ _ _ C). right. right. now left.
  - apply incidents_in_year_pos, minimum_spec, N.
  - unfold trend_change, Qnat, Z.sub.
    rewrite inject_Z_plus, inject_Z_opp. reflexivity.
Qed.

Lemma summary_trend_witness :
  let w := after_load csv_two_years in
  exists out,
    generate_summary_report w = (Ok tt, wrote out w) /\
    In (trend_line (trend_change 1 2)) out /\
    (trend_change 1 2 == 100)%Q.
Proof.
  intros w.
  edestruct (summary_trend w) as (out & E & I & _ & _).
  - evaluate.
  - table.
  - vm_compute. discriminate.
  - absent.
  - exists out. split; [exact E|]. split; [exact I|reflexivity].
Defined.

(** X2 (generate_summary_report, lines 310-311).  The year printed as
    "Highest year" has the largest number of incidents of all years of
    the data and is the earliest year with that number; the year
    printed as "Lowest year" has the smallest number and is the
    earliest such year; both are printed with their number of
    incidents. *)
Theorem summary_extreme_years (w : World) (df : DataFrame)
  (date : list cell) :
  holding df w -> dated df date ->
  years date <> [] -> age_numeric df ->
  exists hi lo out,
    generate_summary_report w = (Ok tt, wrote out w) /\
    contains_run [highest_line (int_cell hi, incidents_in_year hi date);
                  lowest_line (int_cell lo, incidents_in_year lo date)] out /\
    In hi (years date) /\ In lo (years date) /\
    forall y, In y (years date) ->
      incidents_in_year y date <= incidents_in_year hi date /\
      (incidents_in_year y date = incidents_in_year hi date -> (hi <= y)%Z) /\
      incidents_in_year lo date <= incidents_in_year y date /\
      (incidents_in_year y date = incidents_in_year lo date -> (lo <= y)%Z).
Proof.
  intros H (Hd & F & Hy) N A.
  destruct (report_run w df date H Hd Hy F N A)
    as (hi & lo & out & Ehi & Elo & E & C).
  destruct (idxmax_spec _ _ Ehi) as (a1 & a2 & Sa & A1 & A2).
  destruct (idxmin_spec _ _ Elo) as (b1 & b2 & Sb & B1 & B2).
  destruct (extreme_year (fun n m => m <= n) date hi a1 a2 Sa)
    as (yh & -> & Ih & Mh).
  { intros x I. specialize (A1 x I). lia. }
  { exact A2. }
  { intros n. lia. }
  destruct (extreme_year (fun n m => n <= m) date lo b1 b2 Sb)
    as (yl & -> & Il & Ml).
  { intros x I. specialize (B1 x I). lia. }
  { exact B2. }
  { intros n. lia. }
  exists yh, yl, out. split; [exact E|]. split; [|split; [exact Ih|]].
  - destruct C as (before & after & ->).
    exists before,
      (trend_line
         (trend_change (incidents_in_year (minimum (years date)) date)
                       (incidents_in_year (maximum (years date)) date))
       :: after).
    reflexivity.
  - split; [exact Il|]. intros y I.
    destruct (Mh y I) as [M1 M2]. destruct (Ml y I) as [M3 M4].
    repeat split; assumption.
Qed.

Lemma summary_extreme_years_witness :
  let w := after_load csv_two_years in
  exists hi lo out,
    generate_summary_report w = (Ok tt, wrote out w) /\
    contains_run [highest_line (int_cell hi, incidents_in_year hi
                                  [TS 16437; TS 16834; TS 16864]);
                  lowest_line (int_cell lo, incidents_in_year lo
                                  [TS 16437; TS 16834; TS 16864])] out.
Proof.
  intros w.
  edestruct (summary_extreme_years w) as (hi & lo & out & E & C & _).
  - evaluate.
  - table.
  - vm_compute. discriminate.
  - absent.
  - exists hi, lo, out. split; [exact E|exact C].
Defined.

(** X3 (generate_summary_report, lines 270-276).  When no row of the
    table has a year, generate_summary_report raises ZeroDivisionError
    at the average per year, after the three lines of the header and
    before any statistic. *)
Theorem summary_without_dates (w : World) (df : DataFrame)
  (year : list cell) :
  holding df w -> column "year" df = Some year -> dropna year = [] ->
  generate_summary_report w =
  (Raise ZeroDivisionError, wrote report_header w).
Proof.
  intros H Hy N. unfold generate_summary_report.
  erewrite bind_get_data by exact H. rewrite !bind_print.
  erewrite bind_getitem by exact Hy. cbv zeta.
  unfold nunique. rewrite N. cbn [tally fold_left length].
  cbn [Nat.eqb]. rewrite bind_raise, !wrote_wrote. reflexivity.
Qed.

Lemma summary_without_dates_witness :
  let w := after_load csv_undated in
  generate_summary_report w =
  (Raise ZeroDivisionError, wrote report_header w).
Proof.
  intros w. eapply (summary_without_dates w); evaluate.
Defined.

(** X4 (generate_summary_report, lines 292-297).  On a loaded table
    with a dated row whose 'age' column holds text,
    generate_summary_report raises KeyError 'mean': describe() of such
    a column has no entry 'mean'. *)
Theorem summary_text_age (w : World) (df : DataFrame)
  (date age : list cell) :
  holding df w -> dated df date -> years date <> [] ->
  column "age" df = Some age -> numeric age = false ->
  exists out,
    generate_summary_report w = (Raise (KeyError (Str "mean")), wrote out w).
Proof.
  intros H (Hd & F & Hy) N Ha Hn.
  destruct (date_ends date F N) as (dmin & dmax & Emin & Emax).
  unfold generate_summary_report.
  erewrite bind_get_data by exact H. rewrite !bind_print.
  erewrite bind_getitem by exact Hy. cbv zeta.
  rewrite (nunique_years date N), bind_ret, !bind_print.
  erewrite bind_getitem by exact Hd. rewrite Emin. cbn [strftime].
  rewrite bind_ret.
  erewrite bind_getitem by exact Hd. rewrite Emax. cbn [strftime].
  rewrite bind_ret, bind_print.
  edestruct (bind_runs (B:=unit)) as [lr Er];
    [|rewrite Er; clear Er]; [runs|].
  rewrite (yes_column _ _ _ Ha), when_true.
  rewrite !bind_assoc. erewrite bind_getitem by exact Ha. cbv zeta.
  unfold describe. rewrite Hn.
  rewrite !bind_assoc, bind_print.
  rewrite !bind_assoc. erewrite bind_expect_none by reflexivity.
  rewrite !wrote_wrote. eexists. reflexivity.
Qed.

Lemma summary_text_age_witness :
  let w := after_load csv_text_age in
  exists out,
    generate_summary_report w = (Raise (KeyError (Str "mean")), wrote out w).
Proof.
  intros w. eapply (summary_text_age w).
  - evaluate.
  - table.
  - vm_compute. discriminate.
  - evaluate.
  - evaluate.
Defined.

(** ** analyze_temporal_trends *)

(** X5 (analyze_temporal_trends, lines 86-111).  On a loaded table
    analyze_temporal_trends returns normally exactly when the incidents
    fall in all twelve months or all in one and the same month, every
    weekday from Monday to Sunday has at least one incident, and the
    'age' column, if there is one, holds no text.  A single month is
    enough for the monthly chart: its one count is broadcast to the
    twelve positions. *)
Theorem temporal_outcome (w : World) (df : DataFrame) (date : list cell) :
  holding df w -> dated df date ->
  (fst (analyze_temporal_trends w) = Ok tt <->
   (months_present date = 12 \/ months_present date = 1) /\
   (forall name, In name day_order -> 1 <= incidents_on name date) /\
   age_numeric df).
Proof.
  intros H D. assert (T := temporal_cases w df date H D). cbv zeta in T.
  destruct (months_present date =? 12)%nat eqn:E12;
    [|destruct (months_present date =? 1)%nat eqn:E1]; cbn [orb] in T.
  3:{ destruct T as [out T]. rewrite T. cbn [fst]. split; [discriminate|].
      intros ([M|M] & _).
      - rewrite M in E12. discriminate.
      - rewrite M in E1. discriminate. }
  all: (assert (M : months_present date = 12 \/ months_present date = 1)
         by (apply Nat.eqb_eq in E12 || apply Nat.eqb_eq in E1; tauto)).
  all: destruct (first_missing_day day_order date) as [name|] eqn:Ed.
  1,3: destruct T as [out T]; rewrite T; cbn [fst];
       (split; [discriminate|]); intros (_ & G & _);
       apply no_missing_day in G; congruence.
  all: assert (G := proj1 (no_missing_day _ _) Ed).
  all: destruct (column "age" df) as [age|] eqn:Ea;
         [destruct (numeric age) eqn:En|].
  2,5: destruct T as (e & out & T); rewrite T; cbn [fst];
       (split; [discriminate|]); intros (_ & _ & A);
       specialize (A age Ea); congruence.
  all: destruct T as (out & T & _); rewrite T; cbn [fst].
  all: split; [intros _|reflexivity].
  all: split; [exact M|]; split; [exact G|].
  all: intros a Ha; rewrite Ea in Ha; congruence.
Qed.

Lemma temporal_outcome_witness :
  fst (analyze_temporal_trends (after_load csv_week)) = Ok tt.
Proof.
  edestruct (temporal_outcome (after_load csv_week)) as [_ R].
  - evaluate.
  - table.
  - apply R. split; [right; evaluate|]. split.
    + intros name I. vm_compute in I.
      repeat (destruct I as [<-|I]; [vm_compute; lia|]). contradiction.
    + intros age E. vm_compute in E. inversion E. reflexivity.
Defined.

(** X6 (analyze_temporal_trends, lines 86-90).  When the incidents of
    a loaded table fall neither in all twelve months nor in a single
    one, the monthly bar chart cannot pair its twelve positions with
    the counts: analyze_temporal_trends raises ValueError, leaving the
    table with the new column 'month' and without 'day_of_week'. *)
Theorem temporal_month_mismatch (w : World) (df : DataFrame)
  (date : list cell) :
  holding df w -> dated df date ->
  months_present date <> 12 -> months_present date <> 1 ->
  exists out,
    analyze_temporal_trends w =
    (Raise shape_mismatch,
     with_data (assign "month" (map month_cell date) df) (wrote out w)).
Proof.
  intros H D N12 N1. assert (T := temporal_cases w df date H D).
  cbv zeta in T. apply Nat.eqb_neq in N12, N1. rewrite N12, N1 in T.
  exact T.
Qed.

Lemma temporal_month_mismatch_witness :
  let w := after_load csv_two_years in
  exists df' out,
    analyze_temporal_trends w = (Raise shape_mismatch,
                                 with_data df' (wrote out w)) /\
    has_column "month" df' = true /\ has_column "day_of_week" df' = false.
Proof.
  intros w.
  edestruct (temporal_month_mismatch w) as [out E].
  - evaluate.
  - table.
  - vm_compute. discriminate.
  - vm_compute. discriminate.
  - do 2 eexists. split; [exact E|]. split; evaluate.
Defined.

(** X7 (analyze_temporal_trends, lines 96-98).  When the monthly chart
    goes through but some weekday has no incident, indexing the
    day-of-week counts with the list Monday to Sunday raises KeyError;
    the table then has both new columns 'month' and 'day_of_week'. *)
Theorem temporal_missing_weekday (w : World) (df : DataFrame)
  (date : list cell) (name : string) :
  holding df w -> dated df date ->
  months_present date = 12 \/ months_present date = 1 ->
  In name day_order -> incidents_on name date = 0 ->
  exists key out,
    analyze_temporal_trends w =
    (Raise (KeyError key),
     with_data (assign "day_of_week" (map day_cell date)
                  (assign "month" (map month_cell date) df))
               (wrote out w)).
Proof.
  intros H D M I Z. assert (T := temporal_cases w df date H D).
  cbv zeta in T.
  assert (B : ((months_present date =? 12) || (months_present date =? 1))%nat
              = true).
  { apply orb_true_iff. destruct M as [M|M]; [left|right];
      now apply Nat.eqb_eq. }
  rewrite B in T.
  destruct (first_missing_day day_order date) as [missing|] eqn:Ed.
  - destruct T as [out T]. eauto.
  - assert (G := proj1 (no_missing_day _ _) Ed name I). lia.
Qed.

Lemma temporal_missing_weekday_witness :
  let w := after_load csv_with_region in
  exists key df' out,
    analyze_temporal_trends w = (Raise (KeyError key),
                                 with_data df' (wrote out w)) /\
    has_column "month" df' = true /\ has_column "day_of_week" df' = true.
Proof.
  intros w.
  edestruct temporal_missing_weekday with (w := w) (name := "Monday")
    as (key & out & E).
  - evaluate.
  - table.
  - right. evaluate.
  - now left.
  - evaluate.
  - do 3 eexists. split; [exact E|]. split; evaluate.
Defined.

(** X8 (analyze_temporal_trends, lines 86-99).  When
    analyze_temporal_trends returns normally on a loaded table, it has
    drawn the day-of-week bars at positions 0 to 6 with the numbers of
    incidents of Monday to Sunday in this order, and the monthly bars
    at positions 1 to 12: with the number of incidents of each month
    when all twelve months occur, and otherwise, all incidents falling
    in one month, twelve bars that all have the height of the number of
    dated incidents. *)
Theorem temporal_charts (w : World) (df : DataFrame) (date : list cell) :
  holding df w -> dated df date ->
  fst (analyze_temporal_trends w) = Ok tt ->
  exists out,
    output_after (analyze_temporal_trends w) = (output w ++ out)%list /\
    In (Draw 1 0 (Bar (day_bars date))) out /\
    (months_present date = 12 ->
     In (Draw 0 1 (Bar (bars_by_month date))) out) /\
    (months_present date <> 12 ->
     months_present date = 1 /\
     In (Draw 0 1 (Bar (bars_of_one_month date))) out).
Proof.
  intros H D S. assert (T := temporal_cases w df date H D). cbv zeta in T.
  assert (Done : forall df' mbars,
            temporal_done w df' mbars date ->
            exists out,
              output_after (analyze_temporal_trends w) =
                (output w ++ out)%list /\
              In (Draw 1 0 (Bar (day_bars date))) out /\
              In (Draw 0 1 (Bar mbars)) out).
  { intros df' mbars (out & E & I1 & I2). exists out. rewrite E.
    repeat split; assumption. }
  destruct (months_present date =? 12)%nat eqn:E12;
    [|destruct (months_present date =? 1)%nat eqn:E1]; cbn [orb] in T.
  3:{ destruct T as [out T]. rewrite T in S. discriminate. }
  all: destruct (first_missing_day day_order date) as [name|];
         [destruct T as [out T]; rewrite T in S; discriminate|].
  all: assert (T' : temporal_done w
                      (assign "day_of_week" (map day_cell date)
                         (assign "month" (map month_cell date) df))
                      (if (months_present date =? 12)%nat
                       then bars_by_month date
                       else bars_of_one_month date) date)
         by (rewrite E12;
             destruct (column "age" df) as [age|];
             [destruct (numeric age);
              [exact T
              |destruct T as (e & out & T); rewrite T in S; discriminate]
             |exact T]).
  all: rewrite E12 in T'.
  all: destruct (Done _ _ T') as (out & O & I1 & I2).
  all: exists out; split; [exact O|]; split; [exact I1|].
  - split; [intros _; exact I2|]. apply Nat.eqb_eq in E12. tauto.
  - apply Nat.eqb_neq in E12. apply Nat.eqb_eq in E1.
    split; [tauto|]. intros _. split; [exact E1|exact I2].
Qed.

Lemma temporal_charts_witness :
  let w := after_load csv_week in
  exists out,
    output_after (analyze_temporal_trends w) = (output w ++ out)%list /\
    In (Draw 1 0 (Bar (combine (range 0 7) (repeat 1%Q 7)))) out /\
    In (Draw 0 1 (Bar (map (fun x => (x, 7%Q)) (range 1 13)))) out.
Proof.
  intros w.
  edestruct (temporal_charts w) as (out & O & I1 & _ & I2).
  - evaluate.
  - table.
  - evaluate.
  - exists out. split; [exact O|]. split; [exact I1|].
    apply I2. vm_compute. discriminate.
Defined.

(** X9 (analyze_temporal_trends, lines 86 and 96).  Whatever
    analyze_temporal_trends does afterwards, the table it leaves has
    the column 'month' derived row by row from 'date', and when the
    method returns normally also the column 'day_of_week'; a row
    without a date gets a missing value in both, a dated row gets a
    month number from 1 to 12 and one of the seven names Monday to
    Sunday. *)
Theorem calendar_columns (w : World) (df : DataFrame) (date : list cell) :
  holding df w -> dated df date ->
  (exists df',
     data_after (analyze_temporal_trends w) = Some df' /\
     column "month" df' = Some (map month_cell date) /\
     (fst (analyze_temporal_trends w) = Ok tt ->
      column "day_of_week" df' = Some (map day_cell date))) /\
  forall c, In c date ->
    (c = NA /\ month_cell c = NA /\ day_cell c = NA) \/
    (exists d, c = TS d /\
               month_cell c = int_cell (month_of d) /\
               (1 <= month_of d <= 12)%Z /\
               day_cell c = Str (day_name d) /\
               In (day_name d) day_order).
Proof.
  intros H D. split.
  - assert (T := temporal_cases w df date H D). cbv zeta in T.
    set (df1 := assign "month" (map month_cell date) df) in *.
    set (df2 := assign "day_of_week" (map day_cell date) df1) in *.
    assert (M1 : column "month" df1 = Some (map month_cell date))
      by apply column_assign_same.
    assert (M2 : column "month" df2 = Some (map month_cell date))
      by (unfold df2; rewrite column_assign_other; [exact M1|discriminate]).
    assert (D2 : column "day_of_week" df2 = Some (map day_cell date))
      by apply column_assign_same.
    assert (Done : forall mbars,
              temporal_done w df2 mbars date ->
              exists df',
                data_after (analyze_temporal_trends w) = Some df' /\
                column "month" df' = Some (map month_cell date) /\
                (fst (analyze_temporal_trends w) = Ok tt ->
                 column "day_of_week" df' = Some (map day_cell date))).
    { intros mbars (out & E & _). exists df2. rewrite E.
      split; [reflexivity|]. split; [exact M2|]. intros _. exact D2. }
    destruct ((months_present date =? 12) || (months_present date =? 1))%nat.
    + destruct (first_missing_day day_order date) as [name|].
      * destruct T as [out T]. exists df2. rewrite T.
        split; [reflexivity|]. split; [exact M2|discriminate].
      * destruct (column "age" df) as [age|]; [destruct (numeric age)|].
        -- eapply Done, T.
        -- destruct T as (e & out & T). exists df2. rewrite T.
           split; [reflexivity|]. split; [exact M2|discriminate].
        -- eapply Done, T.
    + destruct T as [out T]. exists df1. rewrite T.
      split; [reflexivity|]. split; [exact M1|discriminate].
  - destruct D as (_ & F & _). intros c I.
    rewrite forallb_forall in F. specialize (F c I).
    destruct c as [|q|s|d]; try discriminate.
    + left. repeat split.
    + right. exists d. repeat split.
      * apply month_of_range.
      * apply month_of_range.
      * apply day_name_in.
Qed.

Lemma calendar_columns_witness :
  let w := after_load csv_half_missing in
  exists df',
    data_after (analyze_temporal_trends w) = Some df' /\
    column "month" df' = Some [int_cell 1; NA].
Proof.
  intros w.
  edestruct (calendar_columns w) as [(df' & E & M & _) _].
  - evaluate.
  - table.
  - exists df'. split; [exact E|exact M].
Defined.

(** ** analyze_demographic_patterns *)

(** X10 (analyze_demographic_patterns, lines 128-172).  With a table
    loaded, analyze_demographic_patterns returns normally exactly when
    the table has no 'race' column or some race code of the column is a
    key of the population table.  Otherwise it raises at the race
    panel and leaves the table untouched: when no row has a race the
    counts are empty and the pie chart raises ValueError, nothing but
    the grid of panels being drawn; when there are races but none of
    the population table the comparison table is empty, has no column
    'Shooting_Rate', and the method raises KeyError 'Shooting_Rate'. *)
Theorem demographic_outcome (w : World) (df : DataFrame) :
  holding df w ->
  (fst (analyze_demographic_patterns w) = Ok tt <->
   forall race, column "race" df = Some race ->
                some_race_known race = true) /\
  (forall race,
     column "race" df = Some race -> some_race_known race = false ->
     (missing race = length race ->
      analyze_demographic_patterns w =
      (Raise (ValueError "All wedge sizes are zero"),
       wrote [Subplots 2 2] w)) /\
     (missing race < length race ->
      exists out,
        analyze_demographic_patterns w =
        (Raise (KeyError (Str "Shooting_Rate")), wrote out w))).
Proof.
  intros H. assert (R := demographic_run w df H).
  destruct (column "race" df) as [race|].
  - cbv zeta in R. assert (D := dropna_missing race).
    destruct (some_race_known race) eqn:K.
    + destruct R as (out & R & _). rewrite R. cbn [fst]. split.
      * split; [|reflexivity]. intros _ r E. congruence.
      * intros r E. inversion E. subst r. congruence.
    + split.
      * assert (F : fst (analyze_demographic_patterns w) <> Ok tt).
        { destruct (dropna race); [|destruct R as [out R]];
            rewrite R; discriminate. }
        split; [intros S; contradiction|].
        intros G. specialize (G race eq_refl). congruence.
      * intros r E _. inversion E. subst r.
        destruct (dropna race) as [|c t]; cbn [length] in D.
        -- split; [intros _; exact R|]. intros L. lia.
        -- split; [intros L; lia|]. intros _. exact R.
  - destruct R as [out R]. rewrite R. cbn [fst]. split.
    + split; [|reflexivity]. intros _ r E. discriminate.
    + intros r E. discriminate.
Qed.

Lemma demographic_outcome_witness :
  let w := after_load csv_unknown_race in
  exists out,
    analyze_demographic_patterns w =
    (Raise (KeyError (Str "Shooting_Rate")), wrote out w).
Proof.
  intros w.
  edestruct (demographic_outcome w) as [_ R].
  - evaluate.
  - apply (R [Str "X"]).
    + evaluate.
    + evaluate.
    + vm_compute. lia.
Defined.

(** X11 (analyze_demographic_patterns, lines 126-209).  When the table
    has no 'race' column or one with a race code of the population
    table, analyze_demographic_patterns returns after drawing exactly:
    the 2x2 grid; for 'race' the pie of the race counts and the two
    series of comparison bars (shooting rate and population rate, at
    the positions i - 0.175 and i + 0.175); for 'gender' the bars of
    the gender counts and one label per bar with the count and its
    percentage of the sum of the counts; for 'armed' the horizontal
    bars of the top categories; and the show() call.  The panel of an
    absent column stays empty. *)
Theorem demographic_charts (w : World) (df : DataFrame) :
  holding df w ->
  (forall race, column "race" df = Some race ->
                some_race_known race = true) ->
  analyze_demographic_patterns w =
  (Ok tt,
   wrote (Subplots 2 2
          :: race_events df ++ gender_events df ++ armed_events df ++ [Show])
         w).
Proof.
  intros H K. unfold analyze_demographic_patterns.
  erewrite bind_get_data by exact H. rewrite bind_emit.
  assert (R : forall (k : unit -> M unit) w0,
            bind (when (has_column "race" df)
                    (race <- getitem "race" df ;;
                     let race_counts := value_counts race in
                     pie 0 0 (values race_counts) (index race_counts) ;;
                     let comparison_data := comparison_data race_counts in
                     let width := 0.35%Q in
                     let x := range 0 (length comparison_data) in
                     rate <- expect (KeyError (Str "Shooting_Rate"))
                               (records_column Shooting_Rate comparison_data) ;;
                     bars <- expect (ValueError "shape mismatch: objects cannot be broadcast to a single shape")
                               (broadcast (map (fun i => i - width / 2)%Q x) rate) ;;
                     draw 0 1 (Bar bars) ;;
                     rate <- expect (KeyError (Str "Population_Rate"))
                               (records_column Population_Rate comparison_data) ;;
                     bars <- expect (ValueError "shape mismatch: objects cannot be broadcast to a single shape")
                               (broadcast (map (fun i => i + width / 2)%Q x) rate) ;;
                     draw 0 1 (Bar bars))) k w0 =
            k tt (wrote (race_events df) w0)).
  { intros k w0. unfold race_events.
    destruct (column "race" df) as [race|] eqn:Er.
    - rewrite (yes_column _ _ _ Er), when_true. cbv zeta.
      rewrite !bind_assoc. erewrite bind_getitem by exact Er.
      rewrite !bind_assoc.
      rewrite bind_pie
        by (rewrite pie_sizes;
            assert (C := known_race_counted race (K race eq_refl));
            destruct (dropna race); [congruence|discriminate]).
      assert (N : comparison_data (value_counts race) <> []).
      { intros E. apply comparison_empty in E.
        rewrite (K race eq_refl) in E. discriminate. }
      destruct (comparison_data (value_counts race)) as [|row t] eqn:Et;
        [congruence|].
      unfold records_column.
      rewrite !bind_assoc. erewrite bind_expect by reflexivity.
      rewrite !bind_assoc. erewrite bind_expect
        by (apply broadcast_same; rewrite !length_map, length_range;
            reflexivity).
      rewrite !bind_assoc, bind_draw.
      rewrite !bind_assoc. erewrite bind_expect by reflexivity.
      rewrite !bind_assoc. erewrite bind_expect
        by (apply broadcast_same; rewrite !length_map, length_range;
            reflexivity).
      rewrite bind_draw, !wrote_wrote. reflexivity.
    - rewrite (no_column _ _ Er), when_false, bind_ret, wrote_nil.
      reflexivity. }
  rewrite R. clear R.
  assert (G : forall (k : unit -> M unit) w0,
            bind (when (has_column "gender" df)
                    (gender <- getitem "gender" df ;;
                     let gender_counts := value_counts gender in
                     draw 1 0 (BarLabels gender_counts) ;;
                     let total := total gender_counts in
                     for_each (enumerate (values gender_counts))
                       (fun iv =>
                          let v := snd iv in
                          draw 1 0 (Text (Qnat (fst iv))
                                      (Qnat v + Qnat total * 0.01)%Q
                                      [PNat "" v; Lit (nl ++ "(");
                                       PFloat ".1f" (Some (percent v total));
                                       Lit "%)"])))) k w0 =
            k tt (wrote (gender_events df) w0)).
  { intros k w0. unfold gender_events.
    destruct (column "gender" df) as [gender|] eqn:Eg.
    - rewrite (yes_column _ _ _ Eg), when_true. cbv zeta.
      rewrite !bind_assoc. erewrite bind_getitem by exact Eg.
      rewrite !bind_assoc, bind_draw.
      erewrite bind_ok
        by apply (for_each_draw 1 0
                    (fun iv =>
                       Text (Qnat (fst iv))
                         (Qnat (snd iv) +
                          Qnat (total (value_counts gender)) * 0.01)%Q
                         [PNat "" (snd iv); Lit (nl ++ "(");
                          PFloat ".1f"
                            (Some (percent (snd iv)
                                     (total (value_counts gender))));
                          Lit "%)"])).
      rewrite wrote_wrote. reflexivity.
    - rewrite (no_column _ _ Eg), when_false, bind_ret, wrote_nil.
      reflexivity. }
  rewrite G. clear G.
  assert (A : forall (k : unit -> M unit) w0,
            bind (when (has_column "armed" df)
                    (armed <- getitem "armed" df ;;
                     let top_categories := top_categories armed in
                     draw 1 1 (Barh (combine (range 0 (length top_categories))
                                             (values top_categories))
                                    (index top_categories)))) k w0 =
            k tt (wrote (armed_events df) w0)).
  { intros k w0. unfold armed_events.
    destruct (column "armed" df) as [armed|] eqn:Ea.
    - rewrite (yes_column _ _ _ Ea), when_true. cbv zeta.
      rewrite !bind_assoc. erewrite bind_getitem by exact Ea.
      rewrite bind_draw. reflexivity.
    - rewrite (no_column _ _ Ea), when_false, bind_ret, wrote_nil.
      reflexivity. }
  rewrite A. clear A.
  rewrite emit_run, !wrote_wrote. reflexivity.
Qed.

Lemma demographic_charts_witness :
  let w := after_load csv_week in
  exists df,
    holding df w /\
    analyze_demographic_patterns w =
    (Ok tt,
     wrote (Subplots 2 2
            :: race_events df ++ gender_events df ++ armed_events df
            ++ [Show]) w).
Proof.
  intros w. eexists. split; [evaluate|].
  apply (demographic_charts w).
  - evaluate.
  - intros race E. vm_compute in E. inversion E. reflexivity.
Defined.

(** X12 (analyze_demographic_patterns, lines 144 and 182-184).  The
    percentages that analyze_demographic_patterns computes for the
    comparison table (race_counts / race_counts.sum() * 100) and writes
    above the gender bars (v / total * 100) are taken against the sum
    of the counts, not the number of rows: for a column with at least
    one value that is not missing they add up to exactly 100, whatever
    the number of missing values, and the sum of the counts is the
    number of rows with a value. *)
Theorem count_percentages_sum (col : list cell) :
  missing col < length col ->
  let counts := value_counts col in
  total counts + missing col = length col /\
  (Qsum (values (shooting_percentages counts)) == 100)%Q /\
  (Qsum (map (fun v => percent v (total counts)) (values counts))
   == 100)%Q.
Proof.
  intros M counts.
  assert (T : total counts + missing col = length col).
  { unfold counts. rewrite value_counts_counted, counted_total.
    apply dropna_missing. }
  assert (P : 1 <= total counts) by lia.
  split; [exact T|].
  assert (S := percent_sum counts P).
  unfold shooting_percentages, values. rewrite !map_map. cbn [snd].
  split; exact S.
Qed.

Lemma count_percentages_sum_witness :
  let counts := value_counts [Str "M"; NA; Str "F"; Str "M"] in
  total counts + 1 = 4 /\
  (Qsum (values (shooting_percentages counts)) == 100)%Q /\
  (Qsum (map (fun v => percent v (total counts)) (values counts))
   == 100)%Q.
Proof.
  apply (count_percentages_sum [Str "M"; NA; Str "F"; Str "M"]).
  vm_compute. lia.
Defined.

(** X13 (analyze_demographic_patterns, lines 187-200).  When none of
    the eight most frequent armed categories is itself called 'other',
    the armed-status chart has at most nine bars and their counts add
    up to the number of rows of the table: rows with a missing value
    are counted as 'unknown', and what is not among the top eight is in
    the 'other' bar. *)
Theorem armed_chart_total (armed : list cell) :
  ~ In (Str "other")
       (index (firstn 8 (value_counts (armed_simplified armed)))) ->
  total (top_categories armed) = length armed /\
  length (top_categories armed) <= 9.
Proof.
  intros N. unfold top_categories.
  set (ac := value_counts (armed_simplified armed)) in *.
  assert (T : total (firstn 8 ac) + total (skipn 8 ac) = length armed).
  { rewrite <- total_app, firstn_skipn. unfold ac.
    rewrite value_counts_counted, counted_total, armed_simplified_notna.
    apply armed_simplified_length. }
  assert (L : length (firstn 8 ac) <= 8) by apply firstn_le_length.
  destruct (0 <? total (skipn 8 ac))%nat eqn:E.
  - rewrite setitem_new by exact N. rewrite length_app, total_app.
    cbn [length]. split; [|lia].
    unfold total at 2. unfold values. cbn [map fold_right snd]. lia.
  - apply Nat.ltb_ge in E. split; lia.
Qed.

Lemma armed_chart_total_witness :
  total (top_categories armed_sample) = 5 /\
  length (top_categories armed_sample) <= 9.
Proof.
  apply (armed_chart_total armed_sample).
  vm_compute. intros I.
  repeat (destruct I as [I|I]; [discriminate|]). contradiction.
Defined.

(** X14 (analyze_demographic_patterns, lines 188-194).  The cleaning of
    the 'armed' column (fillna('unknown') followed by the replacement
    of gun, knife, unarmed and unknown weapon) keeps the number of
    rows, leaves no missing value, and cleaning a cleaned column
    changes nothing: no replacement produces a label that is replaced
    again. *)
Theorem armed_cleaning (armed : list cell) :
  length (armed_simplified armed) = length armed /\
  missing (armed_simplified armed) = 0 /\
  armed_simplified (armed_simplified armed) = armed_simplified armed.
Proof.
  split; [apply armed_simplified_length|]. split.
  - assert (D := dropna_missing (armed_simplified armed)).
    rewrite armed_simplified_notna in D. lia.
  - apply armed_simplified_idempotent.
Qed.

(** ** load_data *)

(** X15 (load_data, lines 20-36).  When the file can be read, has a
    'date' column and every date can be parsed, load_data returns True
    and prints the loading line, the line with the number of records
    and the first and last year, and the note; the table it stores is
    the file's table with the column 'date' replaced by the parsed
    dates, row for row, and the column 'year' derived from them: same
    number of rows, every other column as in the file. *)
Theorem load_data_success (parse : string -> option (option Z))
  (w : World) (csv : DataFrame) (raw date : list cell) :
  csv_file w = Ok csv ->
  column "date" csv = Some raw ->
  to_datetime parse raw = Some date ->
  exists df,
    load_data parse w =
    (Ok true,
     with_data df
       (wrote (loading_line :: loaded_lines df (map year_cell date)) w)) /\
    dated df date /\
    length date = length raw /\
    nrows df = nrows csv /\
    derived_from ["date"; "year"] csv df.
Proof.
  intros Ef Ed Ep.
  destruct (to_datetime_datetime _ _ _ Ep) as [F L].
  assert (D : derived_from ["date"; "year"] csv
                (assign "year" (map year_cell date)
                        (assign "date" date csv))).
  { eapply derived_trans; apply derived_assign; [now left|right; now left]. }
  exists (assign "year" (map year_cell date) (assign "date" date csv)).
  split; [|split; [|split; [|split]]].
  - rewrite (load_data_run parse w csv raw date Ef Ed Ep).
    rewrite wrote_with_data, wrote_wrote. reflexivity.
  - split; [|split].
    + rewrite column_assign_other; [apply column_assign_same|discriminate].
    + exact F.
    + apply column_assign_same.
  - exact L.
  - apply D.
  - exact D.
Qed.

Lemma load_data_success_witness :
  exists df,
    fst (load_data parse_iso (fresh (Ok csv_half_missing))) = Ok true /\
    data_after (load_data parse_iso (fresh (Ok csv_half_missing))) =
      Some df /\
    dated df [TS 16437; NA].
Proof.
  edestruct (load_data_success parse_iso (fresh (Ok csv_half_missing)))
    as (df & E & D & _).
  - evaluate.
  - evaluate.
  - evaluate.
  - exists df. rewrite E. repeat split; apply D.
Defined.

(** ** explore_basic_statistics and analyze_geographic_patterns *)

(** X16 (explore_basic_statistics, lines 42-71).  On a loaded table
    explore_basic_statistics never raises, whatever the other columns
    hold or lack: it returns after printing, and the world afterwards
    differs from the one before only by the output. *)
Theorem explore_returns (w : World) (df : DataFrame) (date : list cell) :
  holding df w -> dated df date ->
  exists out, explore_basic_statistics w = (Ok tt, wrote out w).
Proof.
  intros H (Hd & _ & Hy).
  destruct (explore_run w df date _ H Hd Hy) as (l1 & l2 & E).
  eexists. exact E.
Qed.

Lemma explore_returns_witness :
  let w := after_load csv_text_age in
  exists out, explore_basic_statistics w = (Ok tt, wrote out w).
Proof.
  intros w. eapply (explore_returns w).
  - evaluate.
  - table.
Defined.

(** X17 (analyze_geographic_patterns, lines 211-263).  With a table
    loaded, analyze_geographic_patterns returns normally exactly when
    the table has no 'state' column or some state of the column is
    listed in the region table.  Otherwise the region counts are empty
    and the region pie raises ValueError.  Either way the table
    afterwards is the table before with the column 'region' set to the
    regions of the states, or the very same table when there is no
    'state' column. *)
Theorem geographic_outcome (w : World) (df : DataFrame) :
  holding df w ->
  (fst (analyze_geographic_patterns w) = Ok tt <->
   forall state, column "state" df = Some state ->
                 some_state_known state = true) /\
  (fst (analyze_geographic_patterns w) <> Ok tt ->
   fst (analyze_geographic_patterns w) =
     Raise (ValueError "All wedge sizes are zero")) /\
  data_after (analyze_geographic_patterns w) =
    Some match column "state" df with
         | Some state => assign "region" (region_column state) df
         | None => df
         end.
Proof.
  intros H. assert (G := geographic_cases w df H).
  destruct (column "state" df) as [state|].
  - cbv zeta in G. destruct (some_state_known state) eqn:K.
    + destruct G as (out & G & _). rewrite G. cbn [fst].
      split; [|split; [|reflexivity]].
      * split; [|reflexivity]. intros _ s E. congruence.
      * intros N. now contradict N.
    + destruct G as (out & G). rewrite G. cbn [fst].
      split; [|split; reflexivity].
      split; [discriminate|]. intros S. specialize (S state eq_refl).
      congruence.
  - destruct G as (out & G). rewrite G. cbn [fst].
    split; [|split; [|reflexivity]].
    + split; [|reflexivity]. intros _ s E. discriminate.
    + intros N. now contradict N.
Qed.

Lemma geographic_outcome_witness :
  let w := after_load csv_week in
  exists df',
    fst (analyze_geographic_patterns w) = Ok tt /\
    data_after (analyze_geographic_patterns w) = Some df' /\
    column "region" df' =
      Some [Str "West"; Str "Southwest"; Str "Northeast"; Str "West";
            Str "Southeast"; NA; Str "West"].
Proof.
  intros w.
  edestruct (geographic_outcome w) as (Iff & _ & E).
  - evaluate.
  - eexists. split; [|split; [exact E|evaluate]].
    apply Iff. intros state S. vm_compute in S. inversion S. reflexivity.
Defined.

(** ** main *)

(** X18 (main, lines 323-356).  When the file can be read and its
    dates parsed, main runs the five analyses in turn and an exception
    of any of them ends the run: main returns normally exactly when the
    incidents fall in all twelve months or in a single one, every
    weekday has an incident, the 'age' column holds no text, the 'race'
    column, if there is one, has a race code of the population table,
    and the 'state' column, if there is one, has a state of the region
    table. *)
Theorem main_outcome (parse : string -> option (option Z)) (w : World)
  (csv : DataFrame) (raw date : list cell) :
  csv_file w = Ok csv ->
  column "date" csv = Some raw ->
  to_datetime parse raw = Some date ->
  (fst (main parse w) = Ok tt <->
   completes (assign "year" (map year_cell date) (assign "date" date csv))
             date).
Proof.
  intros Ef Ed Ep.
  destruct (to_datetime_datetime _ _ _ Ep) as [F _].
  rewrite (main_loaded parse w _
             (load_data_run parse (started w) csv raw date Ef Ed Ep)).
  apply analyses_outcome.
  - reflexivity.
  - rewrite column_assign_other; [apply column_assign_same|discriminate].
  - apply column_assign_same.
  - exact F.
Qed.

Lemma main_outcome_witness :
  fst (main parse_iso (fresh (Ok csv_week))) = Ok tt.
Proof.
  edestruct (main_outcome parse_iso (fresh (Ok csv_week))) as [_ R].
  - evaluate.
  - evaluate.
  - evaluate.
  - apply R. split; [right; evaluate|]. split; [|split; [|split]].
    + intros name I. vm_compute in I.
      repeat (destruct I as [<-|I]; [vm_compute; lia|]). contradiction.
    + intros age E. vm_compute in E. inversion E. reflexivity.
    + intros race E. vm_compute in E. inversion E. reflexivity.
    + intros state E. vm_compute in E. inversion E. reflexivity.
Defined.

(** ** The opening of the summary report *)

(** X19 (generate_summary_report, lines 270-283).  On a loaded table
    with at least one dated row the summary report opens, after its
    header, with the OVERALL STATISTICS: the number of rows of the
    table, the number of distinct calendar years of the dated rows, the
    average per year, which is the number of all rows, dated or not,
    divided by that number of years, and the date range from the
    earliest to the latest day of the data.  These lines are printed
    whatever happens later in the report. *)
Theorem summary_overall (w : World) (df : DataFrame) (date : list cell) :
  holding df w -> dated df date -> years date <> [] ->
  exists ys d1 d2 rest,
    output_after (generate_summary_report w) =
    (output w ++ report_header ++
     overall_lines (nrows df) (length ys) d1 d2 ++ rest)%list /\
    NoDup ys /\ (forall y, In y ys <-> In y (years date)) /\
    In d1 (days date) /\ In d2 (days date) /\
    forall d, In d (days date) -> (d1 <= d <= d2)%Z.
Proof.
  intros H D N.
  destruct (report_opening w df date H D N)
    as (d1 & d2 & rest & E1 & E2 & O).
  destruct (years_covered date) as (ys & Nd & Iy & L).
  destruct D as (_ & F & _).
  assert (Nl : days date <> []) by now apply years_days.
  destruct (min_of_days _ Nl) as (m1 & M1 & I1 & B1).
  destruct (max_of_days _ Nl) as (m2 & M2 & I2 & B2).
  unfold cell_min in E1. unfold cell_max in E2.
  rewrite (dropna_days _ F) in E1, E2.
  assert (m1 = d1) by congruence. assert (m2 = d2) by congruence.
  subst m1 m2. exists ys, d1, d2, rest. rewrite <- L.
  split; [exact O|]. split; [exact Nd|]. split; [exact Iy|].
  split; [exact I1|]. split; [exact I2|].
  intros d I. split; [now apply B1|now apply B2].
Qed.

Lemma summary_overall_witness :
  let w := after_load csv_half_missing in
  exists ys d1 d2 rest,
    output_after (generate_summary_report w) =
    (output w ++ report_header ++ overall_lines 2 (length ys) d1 d2
     ++ rest)%list /\
    NoDup ys /\ (forall y, In y ys <-> In y [2015%Z]).
Proof.
  intros w.
  edestruct (summary_overall w) as (ys & d1 & d2 & rest & O & Nd & Iy & _).
  - evaluate.
  - table.
  - vm_compute. discriminate.
  - exists ys, d1, d2, rest. split; [exact O|]. split; [exact Nd|exact Iy].
Defined.

End Extras.
